(** * fsa-llm: the planning, chunking and conclusion-integration core

    A shallow embedding of the Python sources
    [document_processing.py], [planning_services.py],
    [integration_services.py], [utils.py] and the document pre-fetching
    part of [core_analysis_engine.py], followed by the properties of
    the specification that concern them.

    Conventions of the embedding.
    - A Python [str] is a list of Unicode code points ([pystr]); [len]
      is the length of that list, as in Python 3.
    - Values parsed from an LLM response are dynamically typed
      ([pyval]); operations on them that Python would refuse with an
      exception return [None] here and are turned into a raised
      exception by the caller.
    - Data built by the program itself (chunks, reports, module outputs,
      log entries) are records.
    - Session state ([st.session_state]) is threaded explicitly; the
      LLM, [json.loads] and the wall clock are collaborators supplied
      by a [world]. *)

From Stdlib Require Import ZArith NArith List Lia Bool.
From Stdlib Require Import Strings.String Strings.Ascii.
From Stdlib Require Import Floats.PrimFloat.
From stdpp Require Import base list gmap.

Import ListNotations.
#[local] Open Scope bool_scope.

(** ** Python values *)

Module Py.

(** A character is a Unicode code point. *)
Definition char := N.
Definition pystr := list N.

(** Source literals are written as UTF-8 text and decoded to code
    points. *)
Fixpoint utf8_decode (acc : N) (more : nat) (bs : list N) : pystr :=
  match bs with
  | [] => []
  | b :: bs' =>
    match more with
    | O =>
      if (b <? 128)%N then b :: utf8_decode 0 0 bs'
      else if (b <? 224)%N then utf8_decode (b - 192) 1 bs'
      else if (b <? 240)%N then utf8_decode (b - 224) 2 bs'
      else utf8_decode (b - 240) 3 bs'
    | S O => (acc * 64 + (b - 128))%N :: utf8_decode 0 0 bs'
    | S m => utf8_decode (acc * 64 + (b - 128)) m bs'
    end
  end.

Definition u8 (s : string) : pystr :=
  utf8_decode 0 0 (map N_of_ascii (list_ascii_of_string s)).

Definition len (s : pystr) : Z := Z.of_nat (length s).

(** [str.isspace] for one character: the code points for which
    CPython's [Py_UNICODE_ISSPACE] holds.  [str.strip], [str.split]
    without argument and the regular-expression class [\s] all use
    it. *)
Definition isspace (c : N) : bool :=
  ((9 <=? c) && (c <=? 13) || (28 <=? c) && (c <=? 32)
   || (c =? 133) || (c =? 160) || (c =? 5760)
   || (8192 <=? c) && (c <=? 8202)
   || (c =? 8232) || (c =? 8233) || (c =? 8239) || (c =? 8287)
   || (c =? 12288))%N.

Fixpoint lstrip (s : pystr) : pystr :=
  match s with
  | [] => []
  | c :: s' => if isspace c then lstrip s' else s
  end.

Definition rstrip (s : pystr) : pystr := rev (lstrip (rev s)).

(** [s.strip()] *)
Definition strip (s : pystr) : pystr := rstrip (lstrip s).

(** [s.split()]: the maximal runs of non-whitespace characters. *)
Fixpoint split (s : pystr) : list pystr :=
  match s with
  | [] => []
  | c :: s' =>
    if isspace c then split s'
    else
      match s' with
      | [] => [[c]]
      | d :: _ =>
        if isspace d then [c] :: split s'
        else
          match split s' with
          | w :: ws => (c :: w) :: ws
          | [] => [[c]]
          end
      end
  end.

(** [sep.join(parts)] *)
Fixpoint join (sep : pystr) (parts : list pystr) : pystr :=
  match parts with
  | [] => []
  | [p] => p
  | p :: ps => p ++ sep ++ join sep ps
  end.

Fixpoint startswith (p s : pystr) : bool :=
  match p, s with
  | [], _ => true
  | _ :: _, [] => false
  | a :: p', b :: s' => (a =? b)%N && startswith p' s'
  end.

Definition endswith (p s : pystr) : bool := startswith (rev p) (rev s).

(** [s[:k]] and [s[k:]] for a Python integer [k] (a negative [k]
    counts from the end). *)
Definition slice_to {A} (k : Z) (s : list A) : list A :=
  if (k <? 0)%Z then firstn (Z.to_nat (Z.of_nat (length s) + k)) s
  else firstn (Z.to_nat k) s.

Definition slice_from {A} (k : Z) (s : list A) : list A :=
  if (k <? 0)%Z then skipn (Z.to_nat (Z.of_nat (length s) + k)) s
  else skipn (Z.to_nat k) s.

(** [s[a:b]] for indices [0 <= a], [0 <= b]. *)
Definition slice {A} (a b : nat) (s : list A) : list A :=
  firstn (b - a) (skipn a s).

(** [s.split(sep)] for a non-empty separator: cut at the
    non-overlapping occurrences found from the left, empty pieces
    kept.  [skip] counts the characters of an occurrence still to be
    passed over, [cur] holds the piece being read, reversed. *)
Fixpoint split_on_aux (sep : pystr) (skip : nat) (cur : pystr) (s : pystr)
  : list pystr :=
  match s with
  | [] => [rev cur]
  | c :: s' =>
    match skip with
    | S k => split_on_aux sep k cur s'
    | O =>
      if startswith sep s
      then rev cur :: split_on_aux sep (length sep - 1) [] s'
      else split_on_aux sep 0 (c :: cur) s'
    end
  end.

Definition split_on (sep s : pystr) : list pystr := split_on_aux sep 0 [] s.

(** [s.replace(a, b)] for single characters. *)
Definition replace_char (a b : N) (s : pystr) : pystr :=
  map (fun c => if (c =? a)%N then b else c) s.

(** [s.lower()].  Only the ASCII letters are mapped; the strings the
    result is compared with in this program consist of caseless
    characters, which every case mapping leaves alone. *)
Definition lower (s : pystr) : pystr :=
  map (fun c => if (65 <=? c)%N && (c <=? 90)%N then (c + 32)%N else c) s.

(** [str(n)] for a natural number. *)
Fixpoint digits (fuel : nat) (n : N) (acc : pystr) : pystr :=
  match fuel with
  | O => acc
  | S f =>
    let acc' := (48 + n mod 10)%N :: acc in
    if (n <? 10)%N then acc' else digits f (n / 10)%N acc'
  end.

Definition str_of_nat (n : nat) : pystr :=
  digits (S (N.size_nat (N.of_nat n))) (N.of_nat n) [].

(** The values [json.loads] can produce. *)
#[local] Set Warnings "-register-all".
Inductive pyval :=
| PNone
| PBool (b : bool)
| PInt (z : Z)
| PFloat (f : float)
| PStr (s : pystr)
| PList (l : list pyval)
| PDict (d : list (pystr * pyval)).

(** [bool(v)] *)
Definition truthy (v : pyval) : bool :=
  match v with
  | PNone => false
  | PBool b => b
  | PInt z => negb (z =? 0)%Z
  | PFloat f => negb (PrimFloat.eqb f PrimFloat.zero)
  | PStr s => negb (bool_decide (s = []))
  | PList l => match l with [] => false | _ => true end
  | PDict d => match d with [] => false | _ => true end
  end.

Definition isinstance_str (v : pyval) : bool :=
  match v with PStr _ => true | _ => false end.
Definition isinstance_list (v : pyval) : bool :=
  match v with PList _ => true | _ => false end.
Definition isinstance_dict (v : pyval) : bool :=
  match v with PDict _ => true | _ => false end.

(** A dict is kept as its items; a key occurs once, as in a dict that
    [json.loads] built. *)
Fixpoint lookup_item (k : pystr) (d : list (pystr * pyval)) : option pyval :=
  match d with
  | [] => None
  | (k', v) :: d' => if bool_decide (k' = k) then Some v else lookup_item k d'
  end.

(** [k in d] and [d[k]] for a dict [d]. *)
Definition has_key (k : pystr) (v : pyval) : bool :=
  match v with
  | PDict d => match lookup_item k d with Some _ => true | None => false end
  | _ => false
  end.

(** [v.get(k, default)]: [None] stands for the [AttributeError] of a
    value that is not a dict. *)
Definition dict_get (v : pyval) (k : pystr) (default : pyval) : option pyval :=
  match v with
  | PDict d => Some (match lookup_item k d with Some x => x | None => default end)
  | _ => None
  end.

(** [v[:n] + suffix] for a string suffix: defined on strings only (a
    list slices but does not concatenate with a string; the other
    values do not slice). *)
Definition snippet (n : nat) (suffix : pystr) (v : pyval) : option pystr :=
  match v with
  | PStr s => Some (firstn n s ++ suffix)
  | _ => None
  end.

(** [v.lower()]: strings only. *)
Definition lower_of (v : pyval) : option pystr :=
  match v with
  | PStr s => Some (lower s)
  | _ => None
  end.

(** The strings of a list all of whose elements are strings. *)
Definition strs_of (l : list pyval) : list pystr :=
  flat_map (fun v => match v with PStr s => [s] | _ => [] end) l.

(** The elements of a list value. *)
Definition elements (v : pyval) : list pyval :=
  match v with PList l => l | _ => [] end.

(** [p in s] for strings. *)
Fixpoint is_substring (p s : pystr) : bool :=
  startswith p s
  || match s with
     | [] => false
     | _ :: s' => is_substring p s'
     end.

(** [k in v] for a string [k]: a key of a dict, an element of a list,
    a substring of a string; [None] stands for the [TypeError] of a
    value that is not iterable. *)
Definition contains (v : pyval) (k : pystr) : option bool :=
  match v with
  | PDict _ => Some (has_key k v)
  | PList l =>
    Some (existsb (fun x => match x with
                            | PStr s => bool_decide (s = k)
                            | _ => false
                            end) l)
  | PStr s => Some (is_substring k s)
  | _ => None
  end.

(** [v[k]] for a string [k]: defined for a dict that has the key. *)
Definition index (v : pyval) (k : pystr) : option pyval :=
  match v with
  | PDict d => lookup_item k d
  | _ => None
  end.

(** [v[:k]]: strings and lists slice, a dict or a scalar does not. *)
Definition slice_value (k : Z) (v : pyval) : option pyval :=
  match v with
  | PStr s => Some (PStr (slice_to k s))
  | PList l => Some (PList (slice_to k l))
  | _ => None
  end.

(** [len(v)] *)
Definition len_value (v : pyval) : option Z :=
  match v with
  | PStr s => Some (len s)
  | PList l => Some (Z.of_nat (length l))
  | PDict d => Some (Z.of_nat (length d))
  | _ => None
  end.

End Py.

(** ** Regular expressions, as far as [document_processing.py] uses them *)

Module Re.
Import Py.

(** The constructs that occur in the section patterns: a literal
    character, a character class, concatenation and the greedy
    repetitions.  Groups only name sub-matches and are not kept. *)
Inductive regex :=
| Eps
| Chr (c : N)
| Cls (p : N -> bool)
| Cat (r1 r2 : regex)
| Star (r : regex)
| Plus (r : regex).

(** Greedy repetition by backtracking: try one more round of [body],
    and only when everything after it fails go on without it.  Every
    round has to consume input, so [length s] rounds are enough. *)
Fixpoint star_loop {A} (body : pystr -> (pystr -> option A) -> option A)
    (n : nat) (s : pystr) (k : pystr -> option A) : option A :=
  match n with
  | O => k s
  | S n' =>
    match body s (fun s1 => if (length s1 <? length s)%nat
                            then star_loop body n' s1 k else None) with
    | Some x => Some x
    | None => k s
    end
  end.

(** [run r s k]: match [r] at the head of [s], handing the rest of the
    input to the continuation [k]; alternatives are tried in the order
    of the backtracking matcher of [re]. *)
Fixpoint run {A} (r : regex) (s : pystr) (k : pystr -> option A) : option A :=
  match r with
  | Eps => k s
  | Chr c =>
    match s with
    | x :: s' => if (x =? c)%N then k s' else None
    | [] => None
    end
  | Cls p =>
    match s with
    | x :: s' => if p x then k s' else None
    | [] => None
    end
  | Cat a b => run a s (fun s1 => run b s1 k)
  | Star a => star_loop (run a) (length s) s k
  | Plus a => run a s (fun s1 => star_loop (run a) (length s1) s1 k)
  end.

(** The input left after the match of [r] at the head of [s]. *)
Definition match_at (r : regex) (s : pystr) : option pystr := run r s Some.

(** [[m.start() for m in re.finditer(r, text)]]: matches are searched
    from the left and do not overlap.  [pos] is the index of the head
    of [s] in the text, [skip] the number of characters of the last
    match still to be passed over. *)
Fixpoint scan (r : regex) (pos skip : nat) (s : pystr) : list nat :=
  match s with
  | [] =>
    match skip, match_at r [] with
    | O, Some _ => [pos]
    | _, _ => []
    end
  | _ :: s' =>
    match skip with
    | S k => scan r (S pos) k s'
    | O =>
      match match_at r s with
      | Some rest => pos :: scan r (S pos) (length s - length rest - 1) s'
      | None => scan r (S pos) 0 s'
      end
    end
  end.

Definition finditer_starts (r : regex) (text : pystr) : list nat :=
  scan r 0 0 text.

Definition lit (s : pystr) : regex := fold_right (fun c r => Cat (Chr c) r) Eps s.

Definition cat_all (rs : list regex) : regex := fold_right Cat Eps rs.

(** A bracketed set of characters. *)
Definition one_of (s : pystr) (c : N) : bool := bool_decide (c ∈ s).

End Re.

(** ** document_processing.py *)

Module DocumentProcessing.
Import Py Re.

(** A chunk before its overview is generated:
    [{"chunk_id": ..., "text": ...}]. *)
Record chunk := { chunk_id : pystr; text : pystr }.

(** Loop state of the packing loops of [smart_chunk_document]:
    [chunks] and [chunk_idx] live for the whole document,
    [temp_chunk] and [current_len] are reset for every section. *)
Record packer := {
  chunks : list chunk;
  chunk_idx : nat;
  temp_chunk : list pystr;
  current_len : Z
}.

(** [sorted(list(set(points)))] *)
Fixpoint insert_point (x : nat) (l : list nat) : list nat :=
  match l with
  | [] => [x]
  | y :: l' =>
    if (x <? y)%nat then x :: l
    else if (x =? y)%nat then l
    else y :: insert_point x l'
  end.

Definition sorted_set (l : list nat) : list nat := fold_right insert_point [] l.

(** [[text[p[i]:p[i+1]] for i in range(len(p) - 1)]] *)
Fixpoint cut (pts : list nat) (text : pystr) : list pystr :=
  match pts with
  | a :: ((b :: _) as rest) => slice a b text :: cut rest text
  | _ => []
  end.

(** [[p.strip() for p in parts if p.strip()]] *)
Definition stripped_nonempty (parts : list pystr) : list pystr :=
  List.filter (fun p => negb (bool_decide (p = []))) (map strip parts).

Section Chunking.

(** [\d] in a [str] pattern: the decimal digits of the interpreter's
    Unicode database (category Nd), a table outside this repository. *)
Variable unicode_decimal : N -> bool.

Definition ws : regex := Star (Cls isspace).

(** [[一二三四五六七八九十零百千万亿\d零一二三四五六七八九十]] *)
Definition numeral (c : N) : bool :=
  one_of (u8 "一二三四五六七八九十零百千万亿") c || unicode_decimal c
  || one_of (u8 "零一二三四五六七八九十") c.

Definition section_patterns : list regex :=
  [ (* \n\s*(附注\s*[..]+[、．\.]) *)
    cat_all [Chr 10; ws; lit (u8 "附注"); ws; Plus (Cls numeral);
             Cls (one_of (u8 "、．."))];
    (* \n\s*([（(][..]+[）)\.]) *)
    cat_all [Chr 10; ws; Cls (one_of (u8 "（(")); Plus (Cls numeral);
             Cls (one_of (u8 "）)."))];
    (* \n\s*([..]+[、．\.]) *)
    cat_all [Chr 10; ws; Plus (Cls numeral); Cls (one_of (u8 "、．."))];
    (* \n\s*(§\s*\d+(\.\d+)* ) *)
    cat_all [Chr 10; ws; lit (u8 "§"); ws; Plus (Cls unicode_decimal);
             Star (Cat (Chr 46) (Plus (Cls unicode_decimal)))];
    (* \n\n+ *)
    Cat (Chr 10) (Plus (Chr 10)) ].

Definition split_points (text : pystr) : list nat :=
  sorted_set
    ([0%nat] ++ flat_map (fun pattern => finditer_starts pattern text)
                         section_patterns
     ++ [length text]).

Definition raw_sections (text : pystr) (max_chars : Z) : list pystr :=
  match stripped_nonempty (cut (split_points text) text) with
  | [] =>
    let paragraphs := stripped_nonempty (split_on [10; 10]%N text) in
    match paragraphs with
    | [] => stripped_nonempty (split_on [10%N] text)
    | [p] =>
      if (len p >? max_chars * 2)%Z
      then stripped_nonempty (split_on [10%N] text)
      else paragraphs
    | _ => paragraphs
    end
  | sections => sections
  end.

Variables doc_type period_label : pystr.

(** [f"{doc_type}_{period_label.replace(' ', '_')}_{chunk_idx}"] *)
Definition make_chunk_id (idx : nat) : pystr :=
  doc_type ++ u8 "_" ++ replace_char 32 95 period_label ++ u8 "_"
  ++ str_of_nat idx.

(** [chunks.append({...}); chunk_idx += 1] *)
Definition emit (t : pystr) (p : packer) : packer :=
  {| chunks := chunks p ++ [ {| chunk_id := make_chunk_id (chunk_idx p);
                                text := t |} ];
     chunk_idx := S (chunk_idx p);
     temp_chunk := temp_chunk p;
     current_len := current_len p |}.

(** The [if temp_chunk:] blocks: emit the words gathered so far, joined
    by single spaces. *)
Definition flush (p : packer) : packer :=
  match temp_chunk p with
  | [] => p
  | _ :: _ =>
    let p' := emit (join [32%N] (temp_chunk p)) p in
    {| chunks := chunks p'; chunk_idx := chunk_idx p';
       temp_chunk := []; current_len := 0 |}
  end.

(** [while len(word) > max_chars: ...]: [None] when the loop is still
    running after [fuel] rounds. *)
Fixpoint hard_split (fuel : nat) (max_chars : Z) (word : pystr) (p : packer)
  : option (pystr * packer) :=
  if (len word >? max_chars)%Z then
    match fuel with
    | O => None
    | S f =>
      hard_split f max_chars (slice_from max_chars word)
                 (emit (slice_to max_chars word) p)
    end
  else Some (word, p).

(** Body of [for word in words:].  The inner [while] is given
    [length word] rounds: with [max_chars >= 1] every round shortens
    the word, so it leaves by its own test; with [max_chars <= 0] the
    test stays true for a non-empty word and the Python loop does not
    end. *)
Definition add_word (max_chars : Z) (p : packer) (word : pystr)
  : option packer :=
  match
    (if (current_len p + len word + 1 >? max_chars)%Z
     then hard_split (length word) max_chars word (flush p)
     else Some (word, p))
  with
  | Some (word', p') =>
    Some {| chunks := chunks p'; chunk_idx := chunk_idx p';
            temp_chunk := temp_chunk p' ++ [word'];
            current_len := current_len p' + len word' + 1 |}
  | None => None
  end.

Fixpoint add_words (max_chars : Z) (p : packer) (words : list pystr)
  : option packer :=
  match words with
  | [] => Some p
  | w :: words' =>
    match add_word max_chars p w with
    | Some p' => add_words max_chars p' words'
    | None => None
    end
  end.

(** Body of [for section_idx, section_content in enumerate(raw_sections):] *)
Definition pack_section (max_chars : Z) (p : packer) (section_content : pystr)
  : option packer :=
  let start := {| chunks := chunks p; chunk_idx := chunk_idx p;
                  temp_chunk := []; current_len := 0 |} in
  match add_words max_chars start (split section_content) with
  | Some p' => Some (flush p')
  | None => None
  end.

Fixpoint pack_sections (max_chars : Z) (p : packer) (sections : list pystr)
  : option packer :=
  match sections with
  | [] => Some p
  | s :: sections' =>
    match pack_section max_chars p s with
    | Some p' => pack_sections max_chars p' sections'
    | None => None
    end
  end.

(** [smart_chunk_document(text, doc_type, period_label, max_chars)];
    [None] only when the hard-splitting loop does not end. *)
Definition smart_chunk_document (text : pystr) (max_chars : Z)
  : option (list chunk) :=
  if bool_decide (text = []) || bool_decide (strip text = []) then Some []
  else
    match
      pack_sections max_chars
        {| chunks := []; chunk_idx := 0; temp_chunk := []; current_len := 0 |}
        (raw_sections text max_chars)
    with
    | Some p => Some (chunks p)
    | None => None
    end.

End Chunking.

(** The ASCII digits, a sub-table of every Unicode database, for
    running the chunker on plain text. *)
Definition ascii_decimal (c : N) : bool := ((48 <=? c) && (c <=? 57))%N.

(** [CHUNK_MAX_CHARS_FOR_OVERVIEW] of [config.py]. *)
Definition CHUNK_MAX_CHARS_FOR_OVERVIEW : Z := 4000.

End DocumentProcessing.

(** ** config.py *)

Module Config.
Import Py.


Definition MODULE_DEPENDENCIES : list (pystr * list pystr) :=
  Eval vm_compute in
  [ (u8 "1.2 SWOT 分析", [u8 "1.1 波特五力模型"]);
    (u8 "1.5 财务报表结构与趋势分析",
     [u8 "1.1 波特五力模型"; u8 "1.2 SWOT 分析";
      u8 "1.4 公司治理与管理层素质评估"]);
    (u8 "2.2 杜邦分析", [u8 "2.1 综合比率分析"]);
    (u8 "3.1 财务报表附注深度解读与关键会计政策评估",
     [u8 "1.4 公司治理与管理层素质评估"]);
    (u8 "3.3 Dechow F-Score (理念)",
     [u8 "3.1 财务报表附注深度解读与关键会计政策评估";
      u8 "3.2 Beneish M-Score"; u8 "3.4 应计项目分析"]);
    (u8 "3.5 经营活动现金流量与净利润的比较分析", [u8 "3.4 应计项目分析"]);
    (u8 "4.1 Altman Z-Score", [u8 "2.1 综合比率分析"]);
    (u8 "4.2 Ohlson O-Score (如适用)", [u8 "2.1 综合比率分析"]);
    (u8 "4.3 利息保障倍数及现金流偿债能力分析",
     [u8 "2.1 综合比率分析"; u8 "3.5 经营活动现金流量与净利润的比较分析"]);
    (u8 "4.4 营运资金充足性与流动性分析", [u8 "2.1 综合比率分析"]);
    (u8 "5.1 可持续增长率模型 (SGR)",
     [u8 "2.1 综合比率分析"; u8 "2.2 杜邦分析"]);
    (u8 "5.2 内部增长率模型 (IGR)", [u8 "2.1 综合比率分析"]);
    (u8 "5.3 再投资率 (RR) 与投入资本回报率 (ROIC) 分析",
     [u8 "2.1 综合比率分析"; u8 "6.2 成本与费用结构预测探讨"]);
    (u8 "5.4 盈利与现金流增长匹配度分析",
     [u8 "2.1 综合比率分析"; u8 "3.5 经营活动现金流量与净利润的比较分析"]);
    (u8 "6.1 销售预测方法探讨", [u8 "1.2 SWOT 分析"; u8 "2.1 综合比率分析"]);
    (u8 "6.2 成本与费用结构预测探讨",
     [u8 "6.1 销售预测方法探讨"; u8 "2.1 综合比率分析"]);
    (u8 "6.3 资产负债表项目预测探讨",
     [u8 "6.1 销售预测方法探讨"; u8 "6.2 成本与费用结构预测探讨";
      u8 "2.1 综合比率分析"; u8 "4.4 营运资金充足性与流动性分析"]);
    (u8 "6.4 三表联动模型构建提示",
     [u8 "6.1 销售预测方法探讨"; u8 "6.2 成本与费用结构预测探讨";
      u8 "6.3 资产负债表项目预测探讨"]);
    (u8 "6.5 情景分析与敏感性测试提示", [u8 "6.4 三表联动模型构建提示"]);
    (u8 "7.1 公司自由现金流模型 (FCFF)",
     [u8 "6.4 三表联动模型构建提示";
      u8 "5.3 再投资率 (RR) 与投入资本回报率 (ROIC) 分析"]);
    (u8 "7.2 股权自由现金流模型 (FCFE)", [u8 "6.4 三表联动模型构建提示"]);
    (u8 "7.3 股利贴现模型 (DDM)", [u8 "6.4 三表联动模型构建提示"]);
    (u8 "7.4 剩余收益模型 (RIM)", [u8 "6.4 三表联动模型构建提示"]);
    (u8 "7.5 可比公司分析/市场乘数法",
     [u8 "1.1 波特五力模型"; u8 "1.2 SWOT 分析"; u8 "2.1 综合比率分析"]);
    (u8 "7.6 基于账面价值的估值",
     [u8 "1.5 财务报表结构与趋势分析";
      u8 "3.1 财务报表附注深度解读与关键会计政策评估"]) ].


Definition COMPRESSED_DOC_MAX_CHARS : Z := 5000.

(** [table.get(key, [])] on one of the tables above. *)
Fixpoint table_get (key : pystr) (table : list (pystr * list pystr))
  : list pystr :=
  match table with
  | [] => []
  | (k, v) :: table' => if bool_decide (k = key) then v else table_get key table'
  end.

End Config.

(** ** Session state, collaborators and effects *)

Module Runtime.
Import Py.

(** The exceptions that occur: the one [json.loads] raises, the ones
    the interpreter raises for an operation a value does not support,
    and whatever the LLM client raises.  [str_of_exn] is [str(e)]; for
    the interpreter's exceptions the text is kept to the class name. *)
Inductive exn :=
| JSONDecodeError
| AttributeError
| TypeError
| LLMError (msg : pystr).

Definition str_of_exn (e : exn) : pystr :=
  match e with
  | JSONDecodeError => u8 "JSONDecodeError"
  | AttributeError => u8 "AttributeError"
  | TypeError => u8 "TypeError"
  | LLMError msg => msg
  end.

(** A chunk with its overview, as [preprocess_document_text] builds
    it. *)
Record processed_chunk := {
  chunk_id : pystr;
  original_text : pystr;
  overview_text : pystr
}.

(** [company_info]: the entries the prompts read with
    [.get(key, default)]. *)
Record company_info := {
  name : option pystr;
  industry : option pystr;
  analysis_perspective : option pystr
}.

(** A prompt is a fixed template around interpolated values; a request
    to the LLM is identified by the template and those values.  (The
    first field of [DependencySummary] names the summarised module; it
    is kept for accounting and is not part of the prompt text.) *)
Inductive request :=
| RoutePlanning (info : company_info) (macro_conclusion : pystr)
    (modules : list pystr)
| NeedsPlanning (modules : list pystr) (info : company_info)
    (macro_conclusion industry_conclusion available_docs_summary : pystr)
| ChunkSelection (overall_need : pystr) (overviews : list (pystr * pystr))
| Compression (text context : pystr) (target_max_chars : Z)
| Integration (prev_overall_conclusion : pyval) (module_name : pystr)
    (new_finding_text : pystr) (new_finding_confidence : pyval)
| DependencySummary (dep_module_name current_module_name : pystr)
    (summarization_input_text : pyval)
| IndustrySummary (text : pystr).

(** What [llm.invoke] does: return a message with [content], or
    raise (an exception other than [JSONDecodeError]). *)
Inductive reply :=
| Replied (content : pystr)
| Failed (msg : pystr).

(** The collaborators of one run: the LLM handle of
    [get_llm_instance()] ([None] when it could not be built) with the
    reply it gives at each position of the event trace, [json.loads]
    ([None] for [JSONDecodeError]) and the formatted wall clock. *)
Record world := {
  llm : option (nat -> request -> reply);
  json_loads : pystr -> option pyval;
  now : nat -> pystr
}.

(** What a test double would record: requests sent to the LLM and
    calls of the selector and the compressor. *)
Inductive event :=
| Invoke (r : request)
| CallSelect (analysis_contexts : list pystr) (chunks : list processed_chunk)
| CallCompress (concatenated_text overall_module_context : pystr).

Inductive log_type := ERROR | WARNING | INFO | MODULE_EVENT | CWP_INTERACTION.

Record log_entry := { entry_type : log_type; entry_module : pystr }.

Record contradiction_entry := {
  timestamp : pystr;
  module_name : pystr;
  module_confidence : pyval;
  contradiction_description : pystr;
  module_finding_snippet : pystr;
  previous_overall_conclusion_snippet : pystr
}.

(** An entry of [cwp['analytical_module_outputs']] (the fields the
    modelled functions read or write). *)
Record module_output := {
  text_summary : pyval;
  confidence_score : pyval;
  status : pystr;
  abbreviated_summary : option pystr
}.

(** The part of [st.session_state] the modelled functions touch. *)
Record session := {
  current_overall_financial_conclusion : option pyval;
  contradiction_logbook : list contradiction_entry;
  analytical_module_outputs : gmap pystr module_output;
  industry_analysis_conclusion_text : pystr;
  run_log : list log_entry;
  trace : list event
}.

(** [initialize_cwp()] of [app.py], with an empty run log. *)
Definition initialize_cwp : session :=
  {| current_overall_financial_conclusion :=
       Some (PStr (u8 "分析尚未开始，暂无总体结论。"));
     contradiction_logbook := [];
     analytical_module_outputs := ∅;
     industry_analysis_conclusion_text :=
       u8 "行业分析结论（基于波特五力模型）尚未生成。";
     run_log := [];
     trace := [] |}.

Definition set_conclusion (v : pyval) (s : session) : session :=
  {| current_overall_financial_conclusion := Some v;
     contradiction_logbook := contradiction_logbook s;
     analytical_module_outputs := analytical_module_outputs s;
     industry_analysis_conclusion_text := industry_analysis_conclusion_text s;
     run_log := run_log s;
     trace := trace s |}.

Definition set_logbook (l : list contradiction_entry) (s : session) : session :=
  {| current_overall_financial_conclusion := current_overall_financial_conclusion s;
     contradiction_logbook := l;
     analytical_module_outputs := analytical_module_outputs s;
     industry_analysis_conclusion_text := industry_analysis_conclusion_text s;
     run_log := run_log s;
     trace := trace s |}.

Definition set_outputs (o : gmap pystr module_output) (s : session) : session :=
  {| current_overall_financial_conclusion := current_overall_financial_conclusion s;
     contradiction_logbook := contradiction_logbook s;
     analytical_module_outputs := o;
     industry_analysis_conclusion_text := industry_analysis_conclusion_text s;
     run_log := run_log s;
     trace := trace s |}.

Definition set_industry (t : pystr) (s : session) : session :=
  {| current_overall_financial_conclusion := current_overall_financial_conclusion s;
     contradiction_logbook := contradiction_logbook s;
     analytical_module_outputs := analytical_module_outputs s;
     industry_analysis_conclusion_text := t;
     run_log := run_log s;
     trace := trace s |}.

Definition set_run_log (l : list log_entry) (s : session) : session :=
  {| current_overall_financial_conclusion := current_overall_financial_conclusion s;
     contradiction_logbook := contradiction_logbook s;
     analytical_module_outputs := analytical_module_outputs s;
     industry_analysis_conclusion_text := industry_analysis_conclusion_text s;
     run_log := l;
     trace := trace s |}.

Definition set_trace (t : list event) (s : session) : session :=
  {| current_overall_financial_conclusion := current_overall_financial_conclusion s;
     contradiction_logbook := contradiction_logbook s;
     analytical_module_outputs := analytical_module_outputs s;
     industry_analysis_conclusion_text := industry_analysis_conclusion_text s;
     run_log := run_log s;
     trace := t |}.

(** A computation reads the world, updates the session and returns or
    raises; what it wrote before raising stays written. *)
Inductive outcome (A : Type) :=
| Returned (a : A)
| Raised (e : exn).
Arguments Returned {A} a.
Arguments Raised {A} e.

Definition M (A : Type) : Type := world -> session -> session * outcome A.

Definition ret {A} (a : A) : M A := fun _ s => (s, Returned a).

Definition raise {A} (e : exn) : M A := fun _ s => (s, Raised e).

Definition bind {A B} (m : M A) (k : A -> M B) : M B :=
  fun w s =>
    match m w s with
    | (s', Returned a) => k a w s'
    | (s', Raised e) => (s', Raised e)
    end.

(** [try: m  except ... as e: h e] *)
Definition try_except {A} (m : M A) (h : exn -> M A) : M A :=
  fun w s =>
    match m w s with
    | (s', Raised e) => h e w s'
    | r => r
    end.

Notation "'let*' x ':=' m 'in' k" := (bind m (fun x => k))
  (at level 10, x name, m at level 100, k at level 200).
Notation "'do' m 'then' k" := (bind m (fun _ => k))
  (at level 10, m at level 100, k at level 200).

(** An operation the interpreter refuses raises [e]. *)
Definition expect {A} (e : exn) (o : option A) : M A :=
  match o with
  | Some a => ret a
  | None => raise e
  end.

Definition read {A} (f : session -> A) : M A := fun _ s => (s, Returned (f s)).

Definition write (f : session -> session) : M unit :=
  fun _ s => (f s, Returned tt).

(** [log_event(log_type, message, module_name, details)]: the entry is
    put at the front of [run_log]; the write to the log file is outside
    the model.  [log_event] itself does not raise (it guards its own
    serialisation and file errors); evaluating its arguments may, and
    is modelled at the call. *)
Definition log_event (t : log_type) (module_name : pystr) : M unit :=
  write (fun s => set_run_log ({| entry_type := t; entry_module := module_name |}
                               :: run_log s) s).

Definition record (e : event) : M unit :=
  write (fun s => set_trace (trace s ++ [e]) s).

(** [llm.invoke(messages, ...)] followed by
    [response.content if hasattr(response, 'content') else str(response)]. *)
Definition invoke (r : request) : M pystr :=
  fun w s =>
    match llm w with
    | None => (s, Raised AttributeError)
    | Some respond =>
      let s' := set_trace (trace s ++ [Invoke r]) s in
      match respond (length (trace s)) r with
      | Replied content => (s', Returned content)
      | Failed msg => (s', Raised (LLMError msg))
      end
    end.

(** The fence-stripping every caller of a JSON-mode request repeats:
    [strip()], drop a leading [```json], drop a trailing [```],
    [strip()] again. *)
Definition clean_json (response_content : pystr) : pystr :=
  let c := strip response_content in
  let c := if startswith (u8 "```json") c then slice_from 7 c else c in
  let c := if endswith (u8 "```") c then slice_to (-3) c else c in
  strip c.

(** [json.loads(cleaned_json_str.strip())] *)
Definition loads (response_content : pystr) : M pyval :=
  fun w s =>
    match json_loads w (clean_json response_content) with
    | Some v => (s, Returned v)
    | None => (s, Raised JSONDecodeError)
    end.

Definition or_default {A} (o : option A) (d : A) : A :=
  match o with Some a => a | None => d end.

End Runtime.

(** ** integration_services.py *)

Module IntegrationServices.
Import Py Runtime.

Definition TAG : pystr := Eval vm_compute in u8 "UpdateOverallConclusion".

Definition ELLIPSIS : pystr := Eval vm_compute in u8 "...".

(** The phrasings of "no contradiction" the description is compared
    with. *)
Definition no_contradiction_phrases : list pystr :=
  Eval vm_compute in
  [u8 "无明显矛盾。"; u8 "无明显矛盾"; []; u8 "无矛盾"; u8 "未发现矛盾"].

(** [prev_overall_conclusion] (line 26). *)
Definition previous_conclusion (s : session) : pyval :=
  or_default (current_overall_financial_conclusion s)
             (PStr (u8 "这是首次分析，尚无前期总体结论。")).

(** The [try] block (lines 58-87). *)
Definition update_try_block (module_name new_finding_text : pystr)
    (new_finding_confidence prev_overall_conclusion : pyval) : M unit :=
  let* response_content :=
    invoke (Integration prev_overall_conclusion module_name new_finding_text
                        new_finding_confidence) in
  let* parsed_update := loads response_content in
  let* updated_conclusion :=
    expect AttributeError
      (dict_get parsed_update (u8 "updated_overall_conclusion")
                prev_overall_conclusion) in
  let* contradiction_found :=
    expect AttributeError
      (dict_get parsed_update (u8 "contradiction_found") (PBool false)) in
  let* contradiction_description :=
    expect AttributeError
      (dict_get parsed_update (u8 "contradiction_description")
                (PStr (u8 "未明确说明是否有矛盾。"))) in
  do write (set_conclusion updated_conclusion) then
  let* _ := expect TypeError (snippet 200 ELLIPSIS updated_conclusion) in
  do log_event CWP_INTERACTION TAG then
  let* is_contradiction :=
    if truthy contradiction_found then
      let* lowered := expect AttributeError (lower_of contradiction_description) in
      ret (negb (bool_decide (lowered ∈ no_contradiction_phrases)))
    else ret false in
  if is_contradiction then
    let* stamp := (fun w s => (s, Returned (now w (length (trace s))))) in
    let* prev_snippet :=
      expect TypeError (snippet 300 ELLIPSIS prev_overall_conclusion) in
    let contradiction_entry :=
      {| timestamp := stamp;
         module_name := module_name;
         module_confidence := new_finding_confidence;
         contradiction_description :=
           match contradiction_description with PStr d => d | _ => [] end;
         module_finding_snippet := firstn 300 new_finding_text ++ ELLIPSIS;
         previous_overall_conclusion_snippet := prev_snippet |} in
    do write (fun s => set_logbook (contradiction_logbook s ++ [contradiction_entry]) s) then
    log_event WARNING TAG
  else log_event INFO TAG.

(** [update_overall_conclusion_and_log_contradictions(module_name,
    new_finding_text, new_finding_confidence)] *)
Definition update_overall_conclusion_and_log_contradictions
    (module_name new_finding_text : pystr) (new_finding_confidence : pyval)
  : M unit :=
  fun w =>
    match llm w with
    | None => log_event ERROR TAG w
    | Some _ =>
      (do log_event MODULE_EVENT TAG then
       let* prev_overall_conclusion := read previous_conclusion in
       try_except
         (update_try_block module_name new_finding_text new_finding_confidence
                           prev_overall_conclusion)
         (fun e =>
            match e with
            | JSONDecodeError => log_event ERROR TAG
            | _ => log_event ERROR TAG
            end)) w
    end.

(** One integration per completed module, in execution order. *)
Fixpoint integrate_all (findings : list (pystr * pystr * pyval)) : M unit :=
  match findings with
  | [] => ret tt
  | (module_name, new_finding_text, new_finding_confidence) :: rest =>
    do update_overall_conclusion_and_log_contradictions
         module_name new_finding_text new_finding_confidence then
    integrate_all rest
  end.

End IntegrationServices.

(** ** planning_services.py *)

Module PlanningServices.
Import Py Runtime.

Definition ELLIPSIS : pystr := Eval vm_compute in u8 "...".

(** *** get_ai_planned_analysis_route *)

(** [{"planned_modules": ..., "planning_reasoning": ...}] *)
Record route_plan := {
  planned_modules : list pystr;
  planning_reasoning : pystr
}.

Definition PLANNER : pystr := Eval vm_compute in u8 "AIPlanner".

Definition FALLBACK_NO_LLM : pystr :=
  Eval vm_compute in u8 "LLM不可用，执行所有预定义模块作为后备计划。".
Definition FALLBACK_INVALID_LIST : pystr :=
  Eval vm_compute in u8 "AI规划的模块列表无效，已采用所有预定义模块作为后备计划。".
Definition FALLBACK_BAD_FORMAT : pystr :=
  Eval vm_compute in u8 "AI规划返回格式错误，已采用所有预定义模块作为后备计划。".
Definition FALLBACK_NOT_JSON : pystr :=
  Eval vm_compute in u8 "AI规划返回非JSON格式，已采用所有预定义模块作为后备计划。".
(** [f"AI规划器执行出错 ({e})，已采用所有预定义模块作为后备计划。"] *)
Definition fallback_error (e : exn) : pystr :=
  u8 "AI规划器执行出错 (" ++ str_of_exn e
  ++ u8 ")，已采用所有预定义模块作为后备计划。".

(** The request of [planner_prompt]; the macro conclusion is cut to
    1000 characters. *)
Definition route_request (company_info_dict : company_info)
    (macro_conclusion_str : pystr) (all_available_modules_list : list pystr)
  : request :=
  RoutePlanning company_info_dict
    (if (len macro_conclusion_str >? 1000)%Z
     then firstn 1000 macro_conclusion_str ++ ELLIPSIS
     else macro_conclusion_str)
    all_available_modules_list.

(** The [try] block (lines 65-90). *)
Definition route_try_block (company_info_dict : company_info)
    (macro_conclusion_str : pystr) (all_available_modules_list : list pystr)
  : M route_plan :=
  let* response_content :=
    invoke (route_request company_info_dict macro_conclusion_str
                          all_available_modules_list) in
  let* parsed_plan := loads response_content in
  let* planned_modules :=
    expect AttributeError (dict_get parsed_plan (u8 "planned_modules") PNone) in
  let* planning_reasoning :=
    expect AttributeError
      (dict_get parsed_plan (u8 "planning_reasoning")
                (PStr (u8 "AI未能提供规划理由。"))) in
  if truthy planned_modules && isinstance_list planned_modules
     && forallb isinstance_str (elements planned_modules)
  then
    let names := strs_of (elements planned_modules) in
    let valid_planned_modules :=
      List.filter (fun m => bool_decide (m ∈ all_available_modules_list)) names in
    do (if (length valid_planned_modules <? length names)%nat
        then log_event WARNING PLANNER else ret tt) then
    match valid_planned_modules with
    | [] =>
      do log_event ERROR PLANNER then
      ret {| planned_modules := all_available_modules_list;
             planning_reasoning := FALLBACK_INVALID_LIST |}
    | _ :: _ =>
      let* _ := expect TypeError (snippet 100 ELLIPSIS planning_reasoning) in
      do log_event INFO PLANNER then
      ret {| planned_modules := valid_planned_modules;
             planning_reasoning :=
               match planning_reasoning with PStr r => r | _ => [] end |}
    end
  else
    do log_event ERROR PLANNER then
    ret {| planned_modules := all_available_modules_list;
           planning_reasoning := FALLBACK_BAD_FORMAT |}.

(** [get_ai_planned_analysis_route(company_info_dict,
    macro_conclusion_str, all_available_modules_list)] *)
Definition get_ai_planned_analysis_route (company_info_dict : company_info)
    (macro_conclusion_str : pystr) (all_available_modules_list : list pystr)
  : M route_plan :=
  fun w =>
    match llm w with
    | None =>
      (do log_event ERROR PLANNER then
       ret {| planned_modules := all_available_modules_list;
              planning_reasoning := FALLBACK_NO_LLM |}) w
    | Some _ =>
      (do log_event MODULE_EVENT PLANNER then
       try_except
         (route_try_block company_info_dict macro_conclusion_str
                          all_available_modules_list)
         (fun e =>
            match e with
            | JSONDecodeError =>
              do log_event ERROR PLANNER then
              ret {| planned_modules := all_available_modules_list;
                     planning_reasoning := FALLBACK_NOT_JSON |}
            | _ =>
              do log_event ERROR PLANNER then
              ret {| planned_modules := all_available_modules_list;
                     planning_reasoning := fallback_error e |}
            end)) w
    end.

(** *** plan_all_module_information_needs *)

(** [{"search_queries": [...], "document_extractions": [...]}]; the
    entries that pass validation are kept as they came. *)
Record information_need := {
  search_queries : list pyval;
  document_extractions : list pyval
}.

Definition EMPTY_NEED : information_need :=
  {| search_queries := []; document_extractions := [] |}.

Definition NEEDS : pystr := Eval vm_compute in u8 "InfoNeedsPlanner".

(** [{module_name: {"search_queries": [], "document_extractions": []}
      for module_name in modules_to_plan_for}] *)
Definition default_needs (modules_to_plan_for : list pystr)
  : gmap pystr information_need :=
  foldl (fun acc module_name => <[module_name := EMPTY_NEED]> acc) ∅
        modules_to_plan_for.

Definition DOCUMENT_TYPE : pystr := Eval vm_compute in u8 "document_type".
Definition PERIOD_LABEL : pystr := Eval vm_compute in u8 "period_label".
Definition ANALYSIS_CONTEXT : pystr := Eval vm_compute in u8 "analysis_context".

(** [["document_type", "period_label", "analysis_context"]] *)
Definition REQUIRED_FIELDS : list pystr :=
  [DOCUMENT_TYPE; PERIOD_LABEL; ANALYSIS_CONTEXT].

(** [isinstance(item[k], str)] for a dict [item] that has [k]. *)
Definition str_at (k : pystr) (item : pyval) : bool :=
  match index item k with
  | Some (PStr _) => true
  | _ => false
  end.

(** The condition of the [document_extractions] comprehension
    (lines 195-199). *)
Definition valid_extraction (item : pyval) : bool :=
  isinstance_dict item
  && forallb (fun k => has_key k item) REQUIRED_FIELDS
  && str_at DOCUMENT_TYPE item
  && str_at PERIOD_LABEL item
  && str_at ANALYSIS_CONTEXT item.

(** Lines 188-201, for a [module_plan] that is a dict. *)
Definition validate_module_plan (module_plan : pyval) : option information_need :=
  match dict_get module_plan (u8 "search_queries") (PList []),
        dict_get module_plan (u8 "document_extractions") (PList []) with
  | Some sq, Some de =>
    Some {| search_queries :=
              if isinstance_list sq
              then List.filter isinstance_str (elements sq) else [];
            document_extractions :=
              if isinstance_list de
              then List.filter valid_extraction (elements de) else [] |}
  | _, _ => None
  end.

(** The loop of lines 186-204. *)
Fixpoint validate_needs (planned_needs : pyval) (modules : list pystr)
    (validated_needs : gmap pystr information_need)
  : M (gmap pystr information_need) :=
  match modules with
  | [] => ret validated_needs
  | module_name :: rest =>
    let* present := expect TypeError (contains planned_needs module_name) in
    let* is_plan :=
      if present
      then let* v := expect TypeError (index planned_needs module_name) in
           ret (isinstance_dict v)
      else ret false in
    if is_plan then
      let* module_plan := expect TypeError (index planned_needs module_name) in
      let* need := expect AttributeError (validate_module_plan module_plan) in
      validate_needs planned_needs rest (<[module_name := need]> validated_needs)
    else
      do log_event WARNING NEEDS then
      validate_needs planned_needs rest
                     (<[module_name := EMPTY_NEED]> validated_needs)
  end.

(** The request of the batched call.  The per-module description
    lines of the prompt are computed from [MODULE_PROMPTS]
    ([prompts.py]) and the module names, so the module list stands for
    them. *)
Definition needs_request (modules_to_plan_for : list pystr)
    (info : company_info)
    (macro_conclusion industry_conclusion available_docs_summary : pystr)
  : request :=
  NeedsPlanning modules_to_plan_for info
    (firstn 1000 macro_conclusion) (firstn 1000 industry_conclusion)
    available_docs_summary.

(** The [try] block (lines 176-207). *)
Definition needs_try_block (modules_to_plan_for : list pystr) (r : request)
  : M (gmap pystr information_need) :=
  let* response_content := invoke r in
  let* planned_needs := loads response_content in
  let* validated_needs := validate_needs planned_needs modules_to_plan_for ∅ in
  do log_event INFO NEEDS then
  ret validated_needs.

(** [plan_all_module_information_needs(modules_to_plan_for,
    company_info, macro_conclusion, industry_conclusion,
    available_docs_summary)] *)
Definition plan_all_module_information_needs
    (modules_to_plan_for : list pystr) (info : company_info)
    (macro_conclusion industry_conclusion available_docs_summary : pystr)
  : M (gmap pystr information_need) :=
  fun w =>
    match llm w with
    | None =>
      (do log_event ERROR NEEDS then ret (default_needs modules_to_plan_for)) w
    | Some _ =>
      match modules_to_plan_for with
      | [] => (do log_event INFO NEEDS then ret ∅) w
      | _ :: _ =>
        (do log_event MODULE_EVENT NEEDS then
         try_except
           (needs_try_block modules_to_plan_for
              (needs_request modules_to_plan_for info macro_conclusion
                             industry_conclusion available_docs_summary))
           (fun e =>
              do log_event ERROR NEEDS then
              ret (default_needs modules_to_plan_for))) w
      end
    end.

(** *** select_relevant_chunks_llm *)

Definition SELECTOR : pystr := Eval vm_compute in u8 "SelectRelevantChunks".

(** The request of the selector: the joined needs and, for every
    chunk, its id and the first 200 characters of its overview. *)
Definition selection_request (analysis_contexts : list pystr)
    (valid_overviews : list processed_chunk) : request :=
  ChunkSelection (join (u8 "; ") analysis_contexts)
    (map (fun c => (chunk_id c, firstn 200 (overview_text c))) valid_overviews).

(** The [try] block (lines 247-261). *)
Definition select_try_block (analysis_contexts : list pystr)
    (valid_overviews : list processed_chunk) : M (list pystr) :=
  let* content :=
    invoke (selection_request analysis_contexts valid_overviews) in
  let* parsed := loads content in
  let* selected_ids :=
    expect AttributeError (dict_get parsed (u8 "relevant_chunk_ids") (PList [])) in
  if isinstance_list selected_ids
     && forallb isinstance_str (elements selected_ids)
  then
    do log_event INFO SELECTOR then
    ret (strs_of (elements selected_ids))
  else
    do log_event ERROR SELECTOR then
    ret [].

(** [select_relevant_chunks_llm(analysis_contexts,
    chunk_overviews_with_ids)].  The chunks are the records of
    [preprocess_document_text], all of which are dicts with [chunk_id]
    and [overview_text], so [valid_overviews] keeps every one of
    them. *)
Definition select_relevant_chunks_llm (analysis_contexts : list pystr)
    (chunk_overviews_with_ids : list processed_chunk) : M (list pystr) :=
  do record (CallSelect analysis_contexts chunk_overviews_with_ids) then
  fun w =>
    match llm w, chunk_overviews_with_ids with
    | None, _ | _, [] => ret [] w
    | Some _, _ :: _ =>
      let valid_overviews := chunk_overviews_with_ids in
      match valid_overviews with
      | [] => (do log_event WARNING SELECTOR then ret []) w
      | _ :: _ =>
        try_except (select_try_block analysis_contexts valid_overviews)
                   (fun e => do log_event ERROR SELECTOR then ret []) w
      end
    end.

(** *** compress_selected_text_llm *)

Definition COMPRESSOR : pystr := Eval vm_compute in u8 "CompressSelectedText".

Definition NOTHING_TO_COMPRESS : pystr :=
  Eval vm_compute in u8 "无相关内容可压缩。".

(** [compress_selected_text_llm(concatenated_text,
    overall_module_context, target_max_chars)] *)
Definition compress_selected_text_llm
    (concatenated_text overall_module_context : pystr) (target_max_chars : Z)
  : M pystr :=
  do record (CallCompress concatenated_text overall_module_context) then
  fun w =>
    match llm w with
    | None => ret NOTHING_TO_COMPRESS w
    | Some _ =>
      if bool_decide (strip concatenated_text = []) then ret NOTHING_TO_COMPRESS w
      else
        let max_compressor_input := (target_max_chars * 4)%Z in
        (let* text_to_compress :=
           if (len concatenated_text >? max_compressor_input)%Z
           then do log_event WARNING COMPRESSOR then
                ret (slice_to max_compressor_input concatenated_text)
           else ret concatenated_text in
         try_except
           (let* compressed_text :=
              invoke (Compression text_to_compress overall_module_context
                                  target_max_chars) in
            do log_event INFO COMPRESSOR then
            ret compressed_text)
           (fun e =>
              do log_event ERROR COMPRESSOR then
              ret (u8 "压缩文本时出错: " ++ str_of_exn e
                   ++ u8 ". 原始文本片段(部分): "
                   ++ firstn 500 concatenated_text ++ ELLIPSIS))) w
    end.

End PlanningServices.

(** ** utils.py *)

Module Utils.
Import Py Runtime Config.

Definition ELLIPSIS : pystr := Eval vm_compute in u8 "...".

Definition COMPLETED : pystr := Eval vm_compute in u8 "Completed".

(** [f"来自模块“{dep}”的缩略摘要：\n{summary}"] *)
Definition summary_part (dep_module_name summary : pystr) : pystr :=
  u8 "来自模块“" ++ dep_module_name ++ u8 "”的缩略摘要：" ++ [10%N] ++ summary.

(** The two replacement parts built from [original_text[:300]]. *)
Definition failed_part (dep_module_name snip : pystr) : pystr :=
  u8 "来自模块“" ++ dep_module_name
  ++ u8 "”的结论摘要 (生成缩略版失败，使用部分原文)：" ++ [10%N] ++ snip.

Definition unavailable_part (dep_module_name snip : pystr) : pystr :=
  u8 "来自模块“" ++ dep_module_name
  ++ u8 "”的结论摘要 (LLM不可用，使用部分原文)：" ++ [10%N] ++ snip.

(** [outputs[dep]['abbreviated_summary'] = text], on the entry in
    place. *)
Definition store_abbreviated_summary (dep_module_name text : pystr)
    (s : session) : session :=
  set_outputs
    (alter (fun o => {| text_summary := text_summary o;
                        confidence_score := confidence_score o;
                        status := status o;
                        abbreviated_summary := Some text |})
           dep_module_name (analytical_module_outputs s)) s.

(** [bool(entry.get('abbreviated_summary'))] *)
Definition has_summary (o : module_output) : bool :=
  match abbreviated_summary o with
  | Some (_ :: _) => true
  | _ => false
  end.

(** Body of [for dep_module_name in dependencies:] (lines 130-165);
    the result is what the round appends to [summary_parts]. *)
Definition summarize_dependency (current_module_name dep_module_name : pystr)
  : M (list pystr) :=
  let* outputs := read analytical_module_outputs in
  match outputs !! dep_module_name with
  | None => do log_event WARNING current_module_name then ret []
  | Some dep_output_entry =>
    if bool_decide (status dep_output_entry = COMPLETED) then
      if has_summary dep_output_entry then
        do log_event CWP_INTERACTION current_module_name then
        ret [summary_part dep_module_name
               (or_default (abbreviated_summary dep_output_entry) [])]
      else if truthy (text_summary dep_output_entry) then
        do log_event MODULE_EVENT current_module_name then
        let original_text := text_summary dep_output_entry in
        let* summarization_input_text :=
          expect TypeError (slice_value 15000 original_text) in
        let* original_length := expect TypeError (len_value original_text) in
        do (if (original_length >? 15000)%Z
            then log_event WARNING current_module_name else ret tt) then
        fun w =>
          match llm w with
          | Some _ =>
            try_except
              (let* abbreviated_summary_text :=
                 invoke (DependencySummary dep_module_name current_module_name
                                           summarization_input_text) in
               do write (store_abbreviated_summary dep_module_name
                                                   abbreviated_summary_text) then
               do log_event CWP_INTERACTION current_module_name then
               ret [summary_part dep_module_name abbreviated_summary_text])
              (fun e =>
                 do log_event ERROR current_module_name then
                 let* snip := expect TypeError (snippet 300 ELLIPSIS original_text) in
                 ret [failed_part dep_module_name snip]) w
          | None =>
            (do log_event WARNING current_module_name then
             let* snip := expect TypeError (snippet 300 ELLIPSIS original_text) in
             ret [unavailable_part dep_module_name snip]) w
          end
      else
        do log_event WARNING current_module_name then ret []
    else
      do log_event WARNING current_module_name then ret []
  end.

Fixpoint summarize_dependencies (current_module_name : pystr)
    (dependencies : list pystr) (summary_parts : list pystr)
  : M (list pystr) :=
  match dependencies with
  | [] => ret summary_parts
  | dep_module_name :: rest =>
    let* part := summarize_dependency current_module_name dep_module_name in
    summarize_dependencies current_module_name rest (summary_parts ++ part)
  end.

(** [get_prior_analyses_summary(current_module_name)] *)
Definition get_prior_analyses_summary (current_module_name : pystr) : M pystr :=
  let dependencies := table_get current_module_name MODULE_DEPENDENCIES in
  match dependencies with
  | [] => ret (u8 "无特定的前序模块分析结论可供直接参考，或依赖关系未定义。")
  | _ :: _ =>
    let* summary_parts :=
      summarize_dependencies current_module_name dependencies [] in
    match summary_parts with
    | [] => ret (u8 "未能获取任何相关的前序模块分析结论摘要。")
    | _ :: _ => ret (join [10; 10]%N summary_parts)
    end
  end.

End Utils.

(** ** core_analysis_engine.py *)

Module CoreAnalysisEngine.
Import Py Runtime Config PlanningServices IntegrationServices.

Definition ELLIPSIS : pystr := Eval vm_compute in u8 "...".

(** An entry of [cwp['base_data']['financial_reports']]: its
    ['period_label'] and the two lists of preprocessed chunks (an
    absent key reads as the empty list). *)
Record financial_report := {
  report_period_label : pystr;
  footnotes_processed_chunks : list processed_chunk;
  mda_processed_chunks : list processed_chunk
}.

(** An entry of a module's [document_extractions] as it is stored in
    the CWP, that is, after the validation of
    [plan_all_module_information_needs]. *)
Record extraction_request := {
  document_type : pystr;
  period_label : pystr;
  analysis_context : pystr
}.

(** Reading a validated entry of the plan. *)
Definition as_extraction (item : pyval) : option extraction_request :=
  match index item (u8 "document_type"), index item (u8 "period_label"),
        index item (u8 "analysis_context") with
  | Some (PStr d), Some (PStr p), Some (PStr c) =>
    Some {| document_type := d; period_label := p; analysis_context := c |}
  | _, _, _ => None
  end.

Definition group_key : Type := pystr * pystr.

(** [if key not in grouped: grouped[key] = []] followed by
    [grouped[key].append(context)]; a dict keeps its keys in insertion
    order. *)
Fixpoint add_to_group (key : group_key) (context : pystr)
    (grouped : list (group_key * list pystr)) : list (group_key * list pystr) :=
  match grouped with
  | [] => [(key, [context])]
  | (k, contexts) :: rest =>
    if bool_decide (k = key) then (k, contexts ++ [context]) :: rest
    else (k, contexts) :: add_to_group key context rest
  end.

(** Lines 66-70. *)
Definition group_extractions (document_extractions : list extraction_request)
  : list (group_key * list pystr) :=
  foldl (fun grouped extr_spec =>
           add_to_group (document_type extr_spec, period_label extr_spec)
                        (analysis_context extr_spec) grouped)
        [] document_extractions.

Definition PREFETCH : pystr := Eval vm_compute in u8 "InfoPreFetching".

(** Lines 73-77: the preprocessed chunks of the document of a group. *)
Definition chunks_of_document (all_reports : list financial_report)
    (key : group_key) : list processed_chunk :=
  match List.find (fun r => bool_decide (report_period_label r = snd key))
                  all_reports with
  | Some target_report_entry =>
    if bool_decide (fst key = u8 "footnotes")
    then footnotes_processed_chunks target_report_entry
    else mda_processed_chunks target_report_entry
  | None => []
  end.

(** [f"... '{doc_type}' ({period_label}) ..."] *)
Definition document_label (key : group_key) : pystr :=
  u8 "'" ++ fst key ++ u8 "' (" ++ snd key ++ u8 ")".

(** Lines 87-91. *)
Fixpoint concatenate_selected (selected_chunk_ids : list pystr)
    (doc_chunks_with_overviews : list processed_chunk)
    (concatenated_original_text : pystr) : M pystr :=
  match selected_chunk_ids with
  | [] => ret concatenated_original_text
  | chunk_id_to_fetch :: rest =>
    match List.find (fun c => bool_decide (chunk_id c = chunk_id_to_fetch))
                    doc_chunks_with_overviews with
    | Some found_chunk =>
      concatenate_selected rest doc_chunks_with_overviews
        (concatenated_original_text ++ original_text found_chunk ++ [10; 10]%N)
    | None =>
      do log_event WARNING PREFETCH then
      concatenate_selected rest doc_chunks_with_overviews
                           concatenated_original_text
    end
  end.

(** [f"为模块 '{module_name_full}' 分析以下方面：{'; '.join(analysis_contexts)}"] *)
Definition combined_analysis_context (module_name_full : pystr)
    (analysis_contexts : list pystr) : pystr :=
  u8 "为模块 '" ++ module_name_full ++ u8 "' 分析以下方面："
  ++ join (u8 "; ") analysis_contexts.

(** Body of [for (doc_type, period_label), analysis_contexts in
    grouped_extractions.items():] (lines 73-99); the result is the
    text appended to [all_extracted_contents_for_module]. *)
Definition resolve_group (module_name_full : pystr)
    (all_reports : list financial_report)
    (group : group_key * list pystr) : M pystr :=
  let '(key, analysis_contexts) := group in
  let doc_chunks_with_overviews := chunks_of_document all_reports key in
  let contexts := join (u8 "; ") analysis_contexts in
  match doc_chunks_with_overviews with
  | [] =>
    do log_event WARNING PREFETCH then
    ret (u8 "未能提取文档 " ++ document_label key
         ++ u8 " 的内容：未找到预处理分块数据。")
  | _ :: _ =>
    let* selected_chunk_ids :=
      select_relevant_chunks_llm analysis_contexts doc_chunks_with_overviews in
    match selected_chunk_ids with
    | [] =>
      ret (u8 "未能从文档 " ++ document_label key ++ u8 " 中为上下文 '"
           ++ contexts ++ u8 "' 确定相关内容块。")
    | _ :: _ =>
      let* concatenated_original_text :=
        concatenate_selected selected_chunk_ids doc_chunks_with_overviews [] in
      if bool_decide (strip concatenated_original_text = []) then
        ret (u8 "未能从文档 " ++ document_label key ++ u8 " 中为上下文 '"
             ++ contexts ++ u8 "' 提取到有效内容（选中的块为空）。")
      else
        let* compressed_text :=
          compress_selected_text_llm concatenated_original_text
            (combined_analysis_context module_name_full analysis_contexts)
            COMPRESSED_DOC_MAX_CHARS in
        ret (u8 "从文档 " ++ document_label key ++ u8 " 中针对上下文 '"
             ++ contexts ++ u8 "' 提取并压缩的内容：" ++ [10%N]
             ++ compressed_text ++ [10%N] ++ u8 "---")
    end
  end.

Fixpoint resolve_groups (module_name_full : pystr)
    (all_reports : list financial_report)
    (groups : list (group_key * list pystr))
    (all_extracted_contents_for_module : list pystr) : M (list pystr) :=
  match groups with
  | [] => ret all_extracted_contents_for_module
  | group :: rest =>
    let* content := resolve_group module_name_full all_reports group in
    resolve_groups module_name_full all_reports rest
                   (all_extracted_contents_for_module ++ [content])
  end.

(** Step 2 of [run_llm_module_analysis] (lines 62-105): the value of
    [pre_fetched_document_contents_str] for a module whose plan lists
    [document_extractions]. *)
Definition prefetch_document_contents (module_name_full : pystr)
    (all_reports : list financial_report)
    (document_extractions : list extraction_request) : M pystr :=
  match document_extractions with
  | [] => ret (u8 "未规划或执行任何文档内容提取。")
  | _ :: _ =>
    do log_event INFO PREFETCH then
    let* all_extracted_contents_for_module :=
      resolve_groups module_name_full all_reports
                     (group_extractions document_extractions) [] in
    do log_event CWP_INTERACTION PREFETCH then
    match all_extracted_contents_for_module with
    | [] => ret (u8 "所有为本模块预规划的文档提取均未返回有效内容。")
    | _ :: _ => ret (join [10%N] all_extracted_contents_for_module)
    end
  end.

Definition COMPLETED : pystr := Eval vm_compute in u8 "Completed".
Definition INCOMPLETE : pystr := Eval vm_compute in u8 "Error/Incomplete".
Definition PORTER : pystr := Eval vm_compute in u8 "1.1 波特五力模型".

(** The [status] expression of line 182; [None] stands for the
    [AttributeError] of [startswith] on a value that is not a
    string. *)
Definition completion_status (final_analysis_text_content : pyval)
  : option pystr :=
  if truthy final_analysis_text_content then
    match final_analysis_text_content with
    | PStr t =>
      Some (if negb (startswith (u8 "LLM未能生成有效响应") t)
               && negb (is_substring (u8 "LLM response format error") t)
            then COMPLETED else INCOMPLETE)
    | _ => None
    end
  else Some INCOMPLETE.

Definition store_output (module_name_full : pystr) (o : module_output)
    (s : session) : session :=
  set_outputs (<[module_name_full := o]> (analytical_module_outputs s)) s.

Definition set_abbreviated_summary (module_name_full text : pystr)
    (s : session) : session :=
  set_outputs
    (alter (fun o => {| text_summary := text_summary o;
                        confidence_score := confidence_score o;
                        status := status o;
                        abbreviated_summary := Some text |})
           module_name_full (analytical_module_outputs s)) s.

(** Lines 182-198, inside the [try] that starts at line 150. *)
Definition record_module_output (module_name_full : pystr)
    (final_analysis_text_content confidence_score_from_llm : pyval) : M unit :=
  let* module_status :=
    expect AttributeError (completion_status final_analysis_text_content) in
  do write (store_output module_name_full
              {| text_summary := final_analysis_text_content;
                 confidence_score := confidence_score_from_llm;
                 status := module_status;
                 abbreviated_summary := None |}) then
  do log_event CWP_INTERACTION module_name_full then
  match final_analysis_text_content with
  | PStr finding =>
    if bool_decide (module_status = COMPLETED) then
      do update_overall_conclusion_and_log_contradictions
           module_name_full finding confidence_score_from_llm then
      if bool_decide (module_name_full = PORTER) then
        do log_event MODULE_EVENT module_name_full then
        fun w =>
          match llm w with
          | Some _ =>
            try_except
              (let* industry_conclusion_summary :=
                 invoke (IndustrySummary (slice_to 15000 finding)) in
               do write (set_industry industry_conclusion_summary) then
               do write (set_abbreviated_summary module_name_full
                                                 industry_conclusion_summary) then
               log_event CWP_INTERACTION module_name_full)
              (fun e =>
                 do log_event ERROR module_name_full then
                 write (set_industry (u8 "行业分析结论摘要生成失败。"))) w
          | None =>
            write (set_industry (u8 "LLM不可用，无法生成行业分析结论摘要。")) w
          end
      else ret tt
    else ret tt
  | _ => ret tt
  end.

(** Lines 182-202: the module output is written, integrated and, for
    the five-forces module, summarised; the handler of line 199
    replaces the output by an error record. *)
Definition finish_module_analysis (module_name_full : pystr)
    (final_analysis_text_content confidence_score_from_llm : pyval) : M unit :=
  try_except
    (record_module_output module_name_full final_analysis_text_content
                          confidence_score_from_llm)
    (fun e =>
       do log_event ERROR module_name_full then
       write (store_output module_name_full
                {| text_summary := PStr (u8 "分析执行失败: " ++ str_of_exn e);
                   confidence_score := PStr (u8 "N/A (执行错误)");
                   status := u8 "Error";
                   abbreviated_summary := None |})).

End CoreAnalysisEngine.

(** ** Vocabulary of the statements *)

Module Vocabulary.
Import Py Re DocumentProcessing Runtime PlanningServices.

(** A word: a non-empty run of characters none of which is
    whitespace. *)
Definition word (w : pystr) : Prop :=
  w <> [] /\ Forall (fun c => isspace c = false) w.

Definition blank (s : pystr) : Prop := Forall (fun c => isspace c = true) s.

(** Strictly increasing lists of indices. *)
Fixpoint increasing (l : list nat) : Prop :=
  match l with
  | [] => True
  | a :: rest => Forall (fun b => a < b) rest /\ increasing rest
  end.

(** A pattern all of whose matches begin with a newline. *)
Definition starts_with_newline (r : regex) : Prop :=
  forall s rest, match_at r s = Some rest -> exists s', s = 10%N :: s'.

(** The texts of the chunks emitted so far. *)
Definition texts (p : packer) : list pystr := map text (chunks p).

Definition bounded (max_chars : Z) (ts : list pystr) : Prop :=
  Forall (fun t => (len t <= max_chars)%Z) ts.

(** The words the packer holds: those of the chunks already emitted,
    then the ones waiting in [temp_chunk]. *)
Definition held (p : packer) : list pystr :=
  concat (map split (texts p)) ++ temp_chunk p.

(** What the word loop keeps true: [temp_chunk] holds words, their
    join fits in [max_chars], [current_len] is the length of that join
    plus one, and no emitted chunk is longer than [max_chars]. *)
Definition packer_inv (max_chars : Z) (p : packer) : Prop :=
  Forall word (temp_chunk p)
  /\ bounded max_chars (texts p)
  /\ match temp_chunk p with
     | [] => current_len p = 0%Z
     | _ :: _ =>
       current_len p = (len (join [32%N] (temp_chunk p)) + 1)%Z
       /\ (len (join [32%N] (temp_chunk p)) <= max_chars)%Z
     end.

(** What the LLM answers to the integration request of a call made in
    session [s]; [None] when there is no LLM. *)
Definition integration_reply (w : world) (s : session)
    (module_name new_finding_text : pystr) (new_finding_confidence : pyval)
  : option reply :=
  match llm w with
  | None => None
  | Some respond =>
    Some (respond (length (trace s))
            (Integration (IntegrationServices.previous_conclusion s) module_name
                         new_finding_text new_finding_confidence))
  end.

(** The failures that happen before line 72 assigns the conclusion:
    there is no LLM, the call raises, the response is not JSON, or it
    is JSON but not an object. *)
Definition fails_before_assignment (w : world) (s : session)
    (module_name new_finding_text : pystr) (new_finding_confidence : pyval)
  : Prop :=
  match integration_reply w s module_name new_finding_text
                          new_finding_confidence with
  | None => True
  | Some (Failed _) => True
  | Some (Replied content) =>
    match json_loads w (clean_json content) with
    | None => True
    | Some parsed => isinstance_dict parsed = false
    end
  end.

(** The parsed answer of the LLM to request [r] made in session [s]:
    [None] when there is no LLM, the call raises or the answer is not
    JSON. *)
Definition parsed_reply (w : world) (s : session) (r : request) : option pyval :=
  match llm w with
  | None => None
  | Some respond =>
    match respond (length (trace s)) r with
    | Failed _ => None
    | Replied content => json_loads w (clean_json content)
    end
  end.



(** The need planned for [module_name] by a parsed batch answer: the
    validated entry when the answer is an object that maps the module
    to an object, the empty need otherwise. *)
Definition planned_need (reply : option pyval) (module_name : pystr)
  : information_need :=
  match reply with
  | Some (PDict d) =>
    match lookup_item module_name d with
    | Some (PDict p) => or_default (validate_module_plan (PDict p)) EMPTY_NEED
    | _ => EMPTY_NEED
    end
  | _ => EMPTY_NEED
  end.

(** An object with the three required fields, each a string. *)
Definition has_required_string_fields (item : pyval) : Prop :=
  exists d a b c,
    item = PDict d
    /\ lookup_item DOCUMENT_TYPE d = Some (PStr a)
    /\ lookup_item PERIOD_LABEL d = Some (PStr b)
    /\ lookup_item ANALYSIS_CONTEXT d = Some (PStr c).

(** The parsed answer to the selector's request, which is sent after
    the call of the selector has been recorded in the trace. *)
Definition selection_reply (w : world) (s : session)
    (analysis_contexts : list pystr) (chunks : list processed_chunk)
  : option pyval :=
  parsed_reply w (set_trace (trace s ++ [CallSelect analysis_contexts chunks]) s)
               (selection_request analysis_contexts chunks).

(** Two test worlds: an LLM whose answer is not JSON, and an LLM
    whose answer parses to the object [d]. *)
Definition not_json_world : world :=
  {| llm := Some (fun _ _ => Replied (u8 "I am sorry, no JSON today"));
     json_loads := fun _ => None;
     now := fun _ => u8 "2025-01-01 00:00:00" |}.

Definition object_world (d : list (pystr * pyval)) : world :=
  {| llm := Some (fun _ _ => Replied (u8 "{...}"));
     json_loads := fun _ => Some (PDict d);
     now := fun _ => u8 "2025-01-01 00:00:00" |}.


(** A batch of three modules and an answer that plans two of them. *)
Definition three_modules : list pystr :=
  Eval vm_compute in
  [u8 "1.1 波特五力模型"; u8 "1.2 SWOT 分析"; u8 "2.1 综合比率分析"].

Definition liquidity_extraction : pyval :=
  Eval vm_compute in
  PDict [(u8 "document_type", PStr (u8 "mda"));
         (u8 "period_label", PStr (u8 "2023 Annual"));
         (u8 "analysis_context", PStr (u8 "liquidity risk"))].

Definition two_plans : list (pystr * pyval) :=
  Eval vm_compute in
  [(u8 "1.1 波特五力模型",
    PDict [(u8 "search_queries", PList [PStr (u8 "industry concentration")]);
           (u8 "document_extractions", PList [liquidity_extraction])]);
   (u8 "2.1 综合比率分析",
    PDict [(u8 "search_queries", PList []);
           (u8 "document_extractions", PList [])])].

(** An extraction entry that carries a fourth field. *)
Definition extra_field_extraction : pyval :=
  Eval vm_compute in
  PDict [(u8 "document_type", PStr (u8 "mda"));
         (u8 "period_label", PStr (u8 "2023 Annual"));
         (u8 "analysis_context", PStr (u8 "liquidity risk"));
         (u8 "priority", PInt 1)].

Definition number_of_fields (item : pyval) : nat :=
  match item with PDict d => length d | _ => 0 end.

Definition one_chunk : list processed_chunk :=
  [ {| chunk_id := u8 "mda_2023_Annual_0";
       original_text := u8 "Cash fell by a third.";
       overview_text := u8 "cash position" |} ].

End Vocabulary.

(** ** Vocabulary of the statements about calls *)

Module TraceVocabulary.
Import Py Runtime PlanningServices CoreAnalysisEngine.
Import Vocabulary.

Definition is_select (e : event) : bool :=
  match e with CallSelect _ _ => true | _ => false end.

Definition is_compress (e : event) : bool :=
  match e with CallCompress _ _ => true | _ => false end.

Definition is_invoke (e : event) : bool :=
  match e with Invoke _ => true | _ => false end.




(** Two requests for the same document with different contexts. *)
Definition two_requests : list extraction_request :=
  [ {| document_type := u8 "mda"; period_label := u8 "2023 Annual";
       analysis_context := u8 "liquidity risk" |};
    {| document_type := u8 "mda"; period_label := u8 "2023 Annual";
       analysis_context := u8 "capital expenditure plans" |} ].

Definition report_2023 : financial_report :=
  {| report_period_label := u8 "2023 Annual";
     footnotes_processed_chunks := [];
     mda_processed_chunks :=
       [ {| chunk_id := u8 "mda_2023_Annual_0";
            original_text := u8 "Cash fell by a third.";
            overview_text := u8 "cash position" |} ] |}.

Definition selecting_world : world :=
  object_world [(u8 "relevant_chunk_ids", PList [PStr (u8 "mda_2023_Annual_0")])].



(** The abbreviated summary stored for a module. *)
Definition summary_of (s : session) (module_name_full : pystr) : option pystr :=
  match analytical_module_outputs s !! module_name_full with
  | Some o => abbreviated_summary o
  | None => None
  end.








Definition steady_world : world :=
  {| llm := Some (fun _ _ => Replied (u8 "Liquidity is weak."));
     json_loads := fun _ => None;
     now := fun _ => u8 "2025-01-01 00:00:00" |}.

End TraceVocabulary.

(** ** utils.py: file names *)

Module Filenames.
Import Py Re.

(** [re.sub(r, repl, s)] for a pattern [r] that matches no empty
    string: the text is read from the left, every match is replaced by
    [repl] and the search goes on after it.  [skip] counts the
    characters of the last match still to be passed over. *)
Fixpoint sub (r : regex) (repl : pystr) (skip : nat) (s : pystr) : pystr :=
  match s with
  | [] => []
  | c :: s' =>
    match skip with
    | S k => sub r repl k s'
    | O =>
      match match_at r s with
      | Some rest => repl ++ sub r repl (length s - length rest - 1) s'
      | None => c :: sub r repl 0 s'
      end
    end
  end.

Section Sanitizing.

(** [\w] in a [str] pattern: the alphanumeric characters and the
    underscore.  In ASCII the alphanumerics are the digits and the
    letters; beyond, they are read from the interpreter's Unicode
    database, a table outside this repository. *)
Variable unicode_alnum : N -> bool.

Definition word_char (c : N) : bool :=
  (if c <? 128
   then (48 <=? c) && (c <=? 57) || (65 <=? c) && (c <=? 90)
        || (97 <=? c) && (c <=? 122) || (c =? 95)
   else unicode_alnum c)%N.

(** [[^\w\s-]] *)
Definition unsafe_char (c : N) : bool :=
  negb (word_char c || isspace c || (c =? 45)%N).

(** [[-\s]] *)
Definition separator (c : N) : bool := (c =? 45)%N || isspace c.

Definition UNTITLED : pystr := Eval vm_compute in u8 "untitled".

(** [sanitize_filename(name)] for a string [name]. *)
Definition sanitize_filename (name : pystr) : pystr :=
  let name := strip (sub (Cls unsafe_char) [] 0 name) in
  let name := sub (Plus (Cls separator)) [45%N] 0 name in
  match name with
  | [] => UNTITLED
  | _ :: _ => name
  end.

End Sanitizing.

(** No alphanumerics beyond ASCII: enough to run the function on
    ASCII names. *)
Definition ascii_only (c : N) : bool := false.

End Filenames.

(** ** core_analysis_engine.py: from the response to the module output *)

Module ResponseHandling.
Import Py Runtime IntegrationServices CoreAnalysisEngine.

Definition FORMAT_ERROR : pystr := Eval vm_compute in u8 "LLM response format error".
Definition NOT_AVAILABLE : pystr := Eval vm_compute in u8 "LLM not available".
Definition NO_RESPONSE : pystr := Eval vm_compute in u8 "LLM未能生成有效响应。".
Definition CONFIDENCE_MISSING : pystr := Eval vm_compute in u8 "N/A (JSON中未提供)".
Definition CONFIDENCE_NOT_JSON : pystr := Eval vm_compute in u8 "N/A (JSON解析失败)".
Definition CONFIDENCE_NO_RESPONSE : pystr := Eval vm_compute in u8 "N/A (无响应或错误)".

(** Lines 168-180: [final_analysis_text_content] and
    [confidence_score_from_llm] for the text [llm_response_text] that
    lines 150-166 left.  The inner [try] catches [JSONDecodeError]
    only. *)
Definition interpret_response (module_name_full llm_response_text : pystr)
  : M (pyval * pyval) :=
  if negb (bool_decide (llm_response_text = []))
     && negb (is_substring FORMAT_ERROR llm_response_text)
     && negb (is_substring NOT_AVAILABLE llm_response_text)
  then
    try_except
      (let* parsed_response := loads llm_response_text in
       let* final_analysis_text_content :=
         expect AttributeError
           (dict_get parsed_response (u8 "analysis_text") (PStr llm_response_text)) in
       let* confidence_score_from_llm :=
         expect AttributeError
           (dict_get parsed_response (u8 "confidence_score")
                     (PStr CONFIDENCE_MISSING)) in
       do log_event INFO module_name_full then
       ret (final_analysis_text_content, confidence_score_from_llm))
      (fun e =>
         match e with
         | JSONDecodeError =>
           do log_event WARNING module_name_full then
           ret (PStr llm_response_text, PStr CONFIDENCE_NOT_JSON)
         | _ => raise e
         end)
  else
    let final_analysis_text_content :=
      if bool_decide (llm_response_text = []) then NO_RESPONSE
      else llm_response_text in
    do log_event ERROR module_name_full then
    ret (PStr final_analysis_text_content, PStr CONFIDENCE_NO_RESPONSE).

(** Lines 168-204: the response is interpreted, the output written,
    integrated and, for the five-forces module, summarised; the handler
    of line 199 replaces the output by an error record; line 204 logs
    the end of the module. *)
Definition conclude_module_analysis (module_name_full llm_response_text : pystr)
  : M unit :=
  do try_except
       (let* interpreted := interpret_response module_name_full llm_response_text in
        record_module_output module_name_full (fst interpreted) (snd interpreted))
       (fun e =>
          do log_event ERROR module_name_full then
          write (store_output module_name_full
                   {| text_summary := PStr (u8 "分析执行失败: " ++ str_of_exn e);
                      confidence_score := PStr (u8 "N/A (执行错误)");
                      status := u8 "Error";
                      abbreviated_summary := None |}))
  then log_event MODULE_EVENT module_name_full.

End ResponseHandling.

(** ** Vocabulary of the further statements *)

Module Observations.
Import Py Re DocumentProcessing Runtime PlanningServices Utils.
Import CoreAnalysisEngine ResponseHandling.

(** The number a string of decimal digits writes. *)
Definition decimal_value (s : pystr) : N :=
  fold_left (fun a c => (10 * a + (c - 48))%N) s 0%N.

(** The ids of the first [n] chunks of a document. *)
Definition chunk_ids (doc_type period_label : pystr) (n : nat) : list pystr :=
  map (make_chunk_id doc_type period_label) (seq 0 n).

(** The chunks of a packer are numbered from zero in the order of the
    list, and [chunk_idx] is the next number. *)
Definition numbered (doc_type period_label : pystr) (p : packer) : Prop :=
  chunk_idx p = length (chunks p)
  /\ map DocumentProcessing.chunk_id (chunks p)
     = chunk_ids doc_type period_label (length (chunks p)).

(** A text in normal form: at least one word, the words separated by
    single spaces, nothing before the first or after the last. *)
Definition normal (t : pystr) : Prop :=
  t <> [] /\ join [32%N] (split t) = t.

(** What the packing loops keep true of the texts: the emitted ones
    are in normal form and the held ones are words. *)
Definition tidy (p : packer) : Prop :=
  Forall Vocabulary.word (temp_chunk p) /\ Forall normal (Vocabulary.texts p).

(** What is left of [s] after its longest prefix of characters in the
    class [p]. *)
Fixpoint skip_run (p : N -> bool) (s : pystr) : pystr :=
  match s with
  | [] => []
  | c :: s' => if p c then skip_run p s' else s
  end.

(** A text in which the characters of the class [p] are single
    occurrences of [d]: none is followed by another one. *)
Fixpoint squeezed (p : N -> bool) (d : N) (t : pystr) : Prop :=
  match t with
  | [] => True
  | x :: t' =>
    (p x = true ->
     x = d /\ match t' with
              | y :: _ => p y = false
              | [] => True
              end)
    /\ squeezed p d t'
  end.

(** Two sessions hold the same working paper: they differ at most in
    the run log and in the trace of calls. *)
Definition same_workpaper (s s' : session) : Prop :=
  current_overall_financial_conclusion s' = current_overall_financial_conclusion s
  /\ contradiction_logbook s' = contradiction_logbook s
  /\ analytical_module_outputs s' = analytical_module_outputs s
  /\ industry_analysis_conclusion_text s' = industry_analysis_conclusion_text s.

(** The entry [o'] carries the analysis of the entry [o], and its
    abbreviated summary if [o] has one. *)
Definition keeps_analysis (o o' : module_output) : Prop :=
  text_summary o' = text_summary o
  /\ confidence_score o' = confidence_score o
  /\ status o' = status o
  /\ (has_summary o = true -> abbreviated_summary o' = abbreviated_summary o).

(** The module outputs of [s'] are those of [s], for the same
    modules, up to summaries filled in. *)
Definition outputs_kept (s s' : session) : Prop :=
  forall m,
    match analytical_module_outputs s !! m, analytical_module_outputs s' !! m with
    | Some o, Some o' => keeps_analysis o o'
    | None, None => True
    | _, _ => False
    end.

(** The record the handler of line 199 writes for the exception [e]. *)
Definition error_record (e : exn) : module_output :=
  {| text_summary := PStr (u8 "分析执行失败: " ++ str_of_exn e);
     confidence_score := PStr (u8 "N/A (执行错误)");
     status := u8 "Error";
     abbreviated_summary := None |}.

(** The session [s'] is [s] with the error record for [e] as the
    output of the module: no request was sent, and the rest of the
    working paper is as it was. *)
Definition error_recorded (module_name_full : pystr) (e : exn)
    (s s' : session) : Prop :=
  analytical_module_outputs s'
  = <[module_name_full := error_record e]> (analytical_module_outputs s)
  /\ trace s' = trace s
  /\ current_overall_financial_conclusion s'
     = current_overall_financial_conclusion s
  /\ contradiction_logbook s' = contradiction_logbook s
  /\ industry_analysis_conclusion_text s' = industry_analysis_conclusion_text s.

(** A response text that line 169 sends to the JSON parser: not
    empty, and without the two error markers. *)
Definition parsed_as_json (llm_response_text : pystr) : Prop :=
  llm_response_text <> []
  /\ is_substring FORMAT_ERROR llm_response_text = false
  /\ is_substring NOT_AVAILABLE llm_response_text = false.

(** A parsed response the engine cannot use: it is not an object, or
    its [analysis_text] is neither a string nor falsy. *)
Definition unusable_analysis (v : pyval) : Prop :=
  match v with
  | PDict d =>
    exists a,
      lookup_item (u8 "analysis_text") d = Some a
      /\ truthy a = true /\ isinstance_str a = false
  | _ => True
  end.

(** An answer of the integration LLM that reports a contradiction. *)
Definition contradicting_answer : list (pystr * pyval) :=
  [(u8 "updated_overall_conclusion", PStr (u8 "liquidity is weak"));
   (u8 "contradiction_found", PBool true);
   (u8 "contradiction_description",
    PStr (u8 "The ratio fell, liquidity was called sound"))].

End Observations.

Import Observations.

(** * Properties *)

Import Vocabulary TraceVocabulary.

(** Split the conjunctions of the goal, leaving definitions folded. *)
Ltac conj := repeat match goal with |- _ /\ _ => split end.

(** Open the effect combinators, and project the session fields of
    the records that result. *)
Ltac unfold_monad :=
  unfold Runtime.log_event, Runtime.record, Runtime.expect in *;
  unfold Runtime.bind, Runtime.ret, Runtime.raise, Runtime.try_except,
         Runtime.read, Runtime.write, Runtime.invoke, Runtime.loads in *.

Ltac project_session :=
  cbn [fst snd Runtime.contradiction_logbook Runtime.set_run_log
       Runtime.set_trace Runtime.set_conclusion Runtime.set_logbook
       Runtime.trace Runtime.current_overall_financial_conclusion
       Runtime.analytical_module_outputs Runtime.set_outputs
       Runtime.set_industry Runtime.run_log
       Runtime.industry_analysis_conclusion_text
       PlanningServices.planned_modules PlanningServices.planning_reasoning] in *.

(** ** Whitespace, words and joins *)

Section Words.
Import Py.

Lemma split_blank s : blank s -> split s = [].
Proof.
  induction 1 as [|c s Hc _ IH]; [reflexivity|].
  simpl. rewrite Hc. exact IH.
Qed.

Lemma split_nil_blank s : split s = [] -> blank s.
Proof.
  induction s as [|c s IH]; intros H; [constructor|].
  simpl in H. destruct (isspace c) eqn:Hc.
  - constructor; [exact Hc|exact (IH H)].
  - destruct s as [|d s']; [discriminate|].
    destruct (isspace d); [discriminate|].
    destruct (split (d :: s')); discriminate.
Qed.

Lemma split_head_word c s :
  isspace c = false -> exists w ws, split (c :: s) = (c :: w) :: ws.
Proof.
  intros Hc. simpl. rewrite Hc.
  destruct s as [|d s']; [by exists [], []|].
  destruct (isspace d); [by eexists [], _|].
  destruct (split (d :: s')) as [|w ws]; [by exists [], []|by exists w, ws].
Qed.

(** Cutting a text in front of a whitespace character (or at its end)
    cuts no word. *)
Lemma split_app a b :
  match b with [] => True | c :: _ => isspace c = true end ->
  split (a ++ b) = split a ++ split b.
Proof.
  intros Hb. induction a as [|c a IH]; [reflexivity|].
  change ((c :: a) ++ b) with (c :: (a ++ b)).
  cbn [split]. destruct (isspace c) eqn:Hc; [exact IH|].
  destruct a as [|d a'].
  - cbn [app]. destruct b as [|e b']; [reflexivity|].
    rewrite Hb. reflexivity.
  - change ((d :: a') ++ b) with (d :: (a' ++ b)) in *. cbn iota.
    destruct (isspace d) eqn:Hd.
    + rewrite IH. reflexivity.
    + rewrite IH.
      destruct (split_head_word d a' Hd) as (w & ws & ->). reflexivity.
Qed.

Lemma split_app_blank a b : blank b -> split (a ++ b) = split a.
Proof.
  intros Hb. rewrite split_app.
  - rewrite (split_blank b Hb). apply app_nil_r.
  - destruct Hb; auto.
Qed.

Lemma lstrip_decompose s : exists b, blank b /\ s = b ++ lstrip s.
Proof.
  induction s as [|c s (b & Hb & IH)];
    [exists []; split; [constructor|reflexivity]|].
  simpl. destruct (isspace c) eqn:Hc.
  - exists (c :: b). split; [by constructor|]. simpl. by f_equal.
  - exists []. split; [constructor|reflexivity].
Qed.

Lemma split_lstrip s : split (lstrip s) = split s.
Proof.
  induction s as [|c s IH]; [reflexivity|].
  simpl lstrip. destruct (isspace c) eqn:Hc; [|reflexivity].
  rewrite IH. simpl. by rewrite Hc.
Qed.

Lemma blank_rev b : blank b -> blank (rev b).
Proof. apply List.Forall_rev. Qed.

Lemma split_rstrip s : split (rstrip s) = split s.
Proof.
  unfold rstrip. destruct (lstrip_decompose (rev s)) as (b & Hb & E).
  assert (s = rev (lstrip (rev s)) ++ rev b) as Hs.
  { rewrite <- rev_app_distr, <- E. symmetry. apply rev_involutive. }
  rewrite Hs at 2. symmetry. apply split_app_blank. by apply blank_rev.
Qed.

Lemma split_strip s : split (strip s) = split s.
Proof. unfold strip. by rewrite split_rstrip, split_lstrip. Qed.

Lemma strip_nil_split s : strip s = [] -> split s = [].
Proof. intros H. rewrite <- split_strip, H. reflexivity. Qed.

Lemma lstrip_blank s : blank s -> lstrip s = [].
Proof. induction 1 as [|c s Hc _ IH]; [reflexivity|]. simpl. by rewrite Hc. Qed.

Lemma split_nil_strip s : split s = [] -> strip s = [].
Proof.
  intros H. apply split_nil_blank in H. unfold strip.
  by rewrite (lstrip_blank s H).
Qed.

(** Every element of [s.split()] is a word. *)
Lemma split_words s : Forall word (split s).
Proof.
  induction s as [|c s IH]; [constructor|].
  simpl. destruct (isspace c) eqn:Hc; [exact IH|].
  destruct s as [|d s'].
  - repeat constructor; [discriminate|done].
  - destruct (isspace d) eqn:Hd.
    + constructor; [|exact IH]. split; [discriminate|by repeat constructor].
    + destruct (split (d :: s')) as [|w ws].
      * repeat constructor; [discriminate|done].
      * inversion IH as [|? ? [Hw1 Hw2] Hws]; subst.
        constructor; [|exact Hws]. split; [discriminate|by constructor].
Qed.

Lemma split_word w : word w -> split w = [w].
Proof.
  intros [Hne Hw]. induction Hw as [|c w Hc Hw IH]; [done|].
  simpl. rewrite Hc. destruct w as [|d w']; [reflexivity|].
  inversion Hw as [|? ? Hd _]; subst. rewrite Hd.
  rewrite IH by discriminate. reflexivity.
Qed.

(** Joining words by single spaces and splitting again gives the
    words back. *)
Lemma split_join ws : Forall word ws -> split (join [32%N] ws) = ws.
Proof.
  induction 1 as [|w ws Hw Hws IH]; [reflexivity|].
  destruct ws as [|w2 ws'].
  - simpl. by apply split_word.
  - change (join [32%N] (w :: w2 :: ws'))
      with (w ++ [32%N] ++ join [32%N] (w2 :: ws')).
    rewrite split_app by reflexivity.
    rewrite (split_word w Hw).
    change ([32%N] ++ join [32%N] (w2 :: ws')) with (32%N :: join [32%N] (w2 :: ws')).
    cbn [split]. change (isspace 32) with true. cbn iota.
    by rewrite IH.
Qed.

Lemma join_length (ws : list pystr) w :
  ws <> [] ->
  len (join [32%N] (ws ++ [w])) = (len (join [32%N] ws) + 1 + len w)%Z.
Proof.
  unfold len. induction ws as [|a ws IH]; [done|]. intros _.
  destruct ws as [|b ws'].
  - simpl. rewrite length_app. simpl. lia.
  - change (join [32%N] ((a :: b :: ws') ++ [w]))
      with (a ++ [32%N] ++ join [32%N] ((b :: ws') ++ [w])).
    change (join [32%N] (a :: b :: ws'))
      with (a ++ [32%N] ++ join [32%N] (b :: ws')).
    rewrite !length_app. specialize (IH ltac:(discriminate)).
    simpl length in *. lia.
Qed.

End Words.

(** ** Section boundaries *)

Section Sections.
Import Py Re DocumentProcessing.

Lemma elem_of_insert_point x l y :
  y ∈ insert_point x l <-> y = x \/ y ∈ l.
Proof.
  induction l as [|z l IH]; simpl.
  - rewrite list_elem_of_singleton, elem_of_nil. tauto.
  - destruct (Nat.ltb_spec x z); [apply elem_of_cons|].
    destruct (Nat.eqb_spec x z) as [->|Hne].
    + rewrite elem_of_cons. tauto.
    + rewrite !elem_of_cons, IH. tauto.
Qed.

Lemma insert_point_increasing x l : increasing l -> increasing (insert_point x l).
Proof.
  induction l as [|z l IH]; simpl; [by repeat constructor|].
  intros [Hz Hl].
  destruct (Nat.ltb_spec x z).
  - simpl. split; [|by split].
    constructor; [done|]. eapply Forall_impl; [exact Hz|]. simpl. lia.
  - destruct (Nat.eqb_spec x z); [by split|].
    simpl. split; [|by apply IH].
    rewrite Forall_forall. intros y Hy. apply elem_of_insert_point in Hy.
    destruct Hy as [->|Hy]; [lia|]. rewrite Forall_forall in Hz. by apply Hz.
Qed.

Lemma elem_of_sorted_set l y : y ∈ sorted_set l <-> y ∈ l.
Proof.
  induction l as [|x l IH]; simpl; [done|].
  rewrite elem_of_insert_point, elem_of_cons, IH. done.
Qed.

Lemma sorted_set_increasing l : increasing (sorted_set l).
Proof. induction l; simpl; [done|]. by apply insert_point_increasing. Qed.

Lemma increasing_head_zero l : increasing l -> 0 ∈ l -> exists r, l = 0 :: r.
Proof.
  destruct l as [|a r]; simpl; [intros _ H; by apply elem_of_nil in H|].
  intros [Ha _] H. apply elem_of_cons in H. destruct H as [<-|H]; [by eexists|].
  rewrite Forall_forall in Ha. apply Ha in H. lia.
Qed.

Lemma increasing_last l m :
  increasing l -> m ∈ l -> Forall (fun p => p <= m) l -> last l = Some m.
Proof.
  induction l as [|a r IH]; simpl; [intros _ H; by apply elem_of_nil in H|].
  intros [Ha Hr] Hm Hle. destruct r as [|b r'].
  - apply list_elem_of_singleton in Hm. by subst.
  - change (last (a :: b :: r')) with (last (b :: r')).
    inversion Hle as [|? ? _ Hle']; subst.
    apply IH; [done| |done].
    apply elem_of_cons in Hm. destruct Hm as [->|Hm]; [|done].
    inversion Ha as [|? ? Hab _]; subst. inversion Hle' as [|? ? Hb _]; subst. lia.
Qed.

(** Cutting a text at indices that carry whitespace cuts no word. *)
Lemma cut_words (text : pystr) pts : forall a,
  increasing (a :: pts) ->
  last (a :: pts) = Some (length text) ->
  (forall p, p ∈ pts -> p < length text ->
             exists c, text !! p = Some c /\ isspace c = true) ->
  concat (map split (cut (a :: pts) text)) = split (drop a text).
Proof.
  induction pts as [|b pts IH]; intros a Hinc Hlast Hws.
  - simpl in *. injection Hlast as ->. by rewrite drop_all.
  - destruct Hinc as [Hab Hinc]. inversion Hab as [|? ? Hlt _]; subst.
    change (cut (a :: b :: pts) text)
      with (slice a b text :: cut (b :: pts) text).
    cbn [map concat]. rewrite IH; [|done|done|].
    2:{ intros p Hp. apply Hws. by right. }
    unfold slice.
    rewrite <- (take_drop (b - a) (drop a text)) at 2.
    rewrite drop_drop. replace (a + (b - a)) with b by lia.
    symmetry. apply split_app.
    destruct (decide (b < length text)) as [Hb|Hb].
    + destruct (Hws b ltac:(by left) Hb) as (c & Hc & Hsp).
      by rewrite (drop_S _ _ _ Hc).
    + by rewrite drop_ge by lia.
Qed.

Lemma stripped_nonempty_words parts :
  concat (map split (stripped_nonempty parts)) = concat (map split parts).
Proof.
  unfold stripped_nonempty. induction parts as [|p parts IH]; [reflexivity|].
  cbn [map List.filter]. case_bool_decide as E; cbn [negb map concat].
  - by rewrite IH, (strip_nil_split p E).
  - by rewrite IH, split_strip.
Qed.

Lemma cat_chr_starts c r s :
  forall rest, match_at (Cat (Chr c) r) s = Some rest -> exists s', s = c :: s'.
Proof.
  unfold match_at. simpl. intros rest H.
  destruct s as [|x s']; [discriminate|].
  destruct (N.eqb_spec x c); [subst; by eexists|discriminate].
Qed.

Lemma scan_newlines r :
  starts_with_newline r ->
  forall s pos skip p,
    p ∈ scan r pos skip s ->
    exists k, p = pos + k /\ s !! k = Some 10%N.
Proof.
  intros Hr. induction s as [|c s IH]; intros pos skip p Hp; simpl in Hp.
  - destruct skip; [|by apply elem_of_nil in Hp].
    destruct (match_at r []) eqn:E; [|by apply elem_of_nil in Hp].
    apply Hr in E. destruct E as [? ?]. discriminate.
  - destruct skip as [|k].
    + destruct (match_at r (c :: s)) eqn:E.
      * apply elem_of_cons in Hp. destruct Hp as [->|Hp].
        -- apply Hr in E. destruct E as [s' E]. injection E as -> _.
           exists 0. split; [lia|reflexivity].
        -- apply IH in Hp. destruct Hp as (k & -> & Hk).
           exists (S k). split; [lia|exact Hk].
      * apply IH in Hp. destruct Hp as (k & -> & Hk).
        exists (S k). split; [lia|exact Hk].
    + apply IH in Hp. destruct Hp as (k' & -> & Hk).
      exists (S k'). split; [lia|exact Hk].
Qed.

Lemma finditer_starts_newline r text p :
  starts_with_newline r -> p ∈ finditer_starts r text -> text !! p = Some 10%N.
Proof.
  intros Hr Hp. destruct (scan_newlines r Hr text 0 0 p Hp) as (k & -> & Hk).
  exact Hk.
Qed.

Variable unicode_decimal : N -> bool.

Lemma section_patterns_newline r :
  r ∈ section_patterns unicode_decimal -> starts_with_newline r.
Proof.
  unfold section_patterns. intros H.
  repeat (apply elem_of_cons in H; destruct H as [->|H];
          [intros s rest; apply cat_chr_starts|]).
  by apply elem_of_nil in H.
Qed.

Lemma split_points_spec text p :
  p ∈ split_points unicode_decimal text ->
  p = 0 \/ p = length text \/ text !! p = Some 10%N.
Proof.
  unfold split_points. rewrite elem_of_sorted_set.
  rewrite !elem_of_app, !list_elem_of_singleton.
  intros [->|[H| ->]]; [by left| |by right; left].
  right; right.
  apply list_elem_of_In, in_flat_map in H. destruct H as (r & Hr & Hp).
  apply list_elem_of_In in Hr, Hp.
  eapply finditer_starts_newline; [|exact Hp].
  by apply section_patterns_newline.
Qed.

(** The sections found by the patterns carry exactly the words of the
    text. *)
Lemma cut_split_points_words text :
  concat (map split (cut (split_points unicode_decimal text) text)) = split text.
Proof.
  pose proof (sorted_set_increasing
    ([0] ++ flat_map (fun pattern => finditer_starts pattern text)
                     (section_patterns unicode_decimal) ++ [length text])) as Hinc.
  fold (split_points unicode_decimal text) in Hinc.
  assert (0 ∈ split_points unicode_decimal text) as H0.
  { unfold split_points. rewrite elem_of_sorted_set, elem_of_app.
    left. by apply list_elem_of_singleton. }
  assert (length text ∈ split_points unicode_decimal text) as Hlen.
  { unfold split_points. rewrite elem_of_sorted_set, !elem_of_app.
    right; right. by apply list_elem_of_singleton. }
  assert (Forall (fun p => p <= length text) (split_points unicode_decimal text))
    as Hle.
  { rewrite Forall_forall. intros p Hp. apply split_points_spec in Hp.
    destruct Hp as [->|[->|Hp]]; [lia|lia|].
    apply lookup_lt_Some in Hp. lia. }
  pose proof (increasing_last _ _ Hinc Hlen Hle) as Hlast.
  destruct (increasing_head_zero _ Hinc H0) as [pts E].
  rewrite E in *. rewrite (cut_words text pts 0 Hinc Hlast); [reflexivity|].
  intros p Hp Hlt.
  assert (p ∈ 0 :: pts) as Hp' by (by right).
  rewrite <- E in Hp'. apply split_points_spec in Hp'.
  destruct Hinc as [Hpos _]. rewrite Forall_forall in Hpos. apply Hpos in Hp.
  destruct Hp' as [->|[->|Hp']]; [lia|lia|].
  exists 10%N. split; [exact Hp'|reflexivity].
Qed.

Lemma raw_sections_words text max_chars :
  strip text <> [] ->
  concat (map split (raw_sections unicode_decimal text max_chars)) = split text
  /\ raw_sections unicode_decimal text max_chars <> [].
Proof.
  intros Hne. unfold raw_sections.
  pose proof (stripped_nonempty_words
                (cut (split_points unicode_decimal text) text)) as H.
  rewrite cut_split_points_words in H.
  destruct (stripped_nonempty (cut (split_points unicode_decimal text) text))
    as [|s ss] eqn:E.
  - simpl in H. symmetry in H. apply split_nil_strip in H. done.
  - split; [exact H|discriminate].
Qed.

End Sections.

(** ** Packing words into chunks *)

Section Packing.
Import Py Re DocumentProcessing.

Variable unicode_decimal : N -> bool.
Variables doc_type period_label : pystr.
Variable max_chars : Z.
Hypothesis max_chars_pos : (1 <= max_chars)%Z.

#[local] Abbreviation emit := (emit doc_type period_label).
#[local] Abbreviation flush := (flush doc_type period_label).
#[local] Abbreviation hard_split := (hard_split doc_type period_label).
#[local] Abbreviation add_word := (add_word doc_type period_label).
#[local] Abbreviation add_words := (add_words doc_type period_label).
#[local] Abbreviation pack_section := (pack_section doc_type period_label).
#[local] Abbreviation pack_sections := (pack_sections doc_type period_label).
#[local] Abbreviation bounded := (bounded max_chars).
#[local] Abbreviation packer_inv := (packer_inv max_chars).

Lemma texts_emit t p : texts (emit t p) = texts p ++ [t].
Proof. unfold texts, emit. simpl. by rewrite map_app. Qed.

Lemma concat_split_words ws : Forall word ws -> concat (map split ws) = ws.
Proof.
  induction 1 as [|w ws Hw _ IH]; [reflexivity|].
  simpl. by rewrite (split_word w Hw), IH.
Qed.

(** The hard-splitting loop ends, and cuts the word into pieces of at
    most [max_chars] characters. *)
Lemma hard_split_spec fuel : forall w p,
  length w <= fuel ->
  exists w' p' pieces,
    hard_split fuel max_chars w p = Some (w', p')
    /\ temp_chunk p' = temp_chunk p
    /\ current_len p' = current_len p
    /\ texts p' = texts p ++ pieces
    /\ concat pieces ++ w' = w
    /\ Forall (fun t => t <> []) pieces
    /\ bounded pieces
    /\ (len w' <= max_chars)%Z
    /\ (w <> [] -> w' <> [])
    /\ ((len w <= max_chars)%Z -> pieces = []).
Proof.
  induction fuel as [|fuel IH]; intros w p Hfuel; cbn [DocumentProcessing.hard_split].
  - destruct w; [|simpl in Hfuel; lia].
    destruct (Z.gtb_spec (len []) max_chars) as [H|H]; [unfold len in H; simpl in H; lia|].
    exists [], p, []. rewrite app_nil_r. repeat split; try done; constructor.
  - destruct (Z.gtb_spec (len w) max_chars) as [H|H].
    + unfold len in H.
      assert (slice_to max_chars w = take (Z.to_nat max_chars) w) as Eto.
      { unfold slice_to. destruct (Z.ltb_spec max_chars 0); [lia|done]. }
      assert (slice_from max_chars w = drop (Z.to_nat max_chars) w) as Efrom.
      { unfold slice_from. destruct (Z.ltb_spec max_chars 0); [lia|done]. }
      rewrite Eto, Efrom.
      destruct (IH (drop (Z.to_nat max_chars) w)
                   (emit (take (Z.to_nat max_chars) w) p))
        as (w' & p' & pieces & E & Ht & Hc & Htx & Hcat & Hne & Hb & Hw' & Hnn & _).
      { rewrite length_drop. lia. }
      exists w', p', (take (Z.to_nat max_chars) w :: pieces).
      rewrite E, Ht, Hc, Htx, texts_emit, <- app_assoc. cbn [concat app].
      rewrite <- app_assoc, Hcat, take_drop.
      repeat split; try done.
      * constructor; [|done]. intros E0.
        apply (f_equal length) in E0. rewrite length_take in E0. simpl in E0. lia.
      * constructor; [|done]. unfold len. rewrite length_take. lia.
      * intros _. apply Hnn. intros E0. apply (f_equal length) in E0.
        rewrite length_drop in E0. simpl in E0. lia.
      * unfold len. lia.
    + exists w, p, []. rewrite app_nil_r. repeat split; try done; constructor.
Qed.

Lemma flush_spec p :
  packer_inv p ->
  packer_inv (flush p) /\ held (flush p) = held p /\ temp_chunk (flush p) = []
  /\ current_len (flush p) = 0%Z.
Proof.
  intros (Hw & Hb & Hlen). unfold DocumentProcessing.flush.
  destruct (temp_chunk p) as [|w ws] eqn:E.
  - split; [|by repeat split].
    unfold packer_inv. rewrite E. by split.
  - destruct Hlen as [_ Hle].
    set (p' := {| chunks := chunks (emit (join [32%N] (w :: ws)) p);
                  chunk_idx := chunk_idx (emit (join [32%N] (w :: ws)) p);
                  temp_chunk := []; current_len := 0 |}).
    assert (texts p' = texts p ++ [join [32%N] (w :: ws)]) as Htx
      by apply texts_emit.
    split; [split; [constructor|split; [|reflexivity]]
           |split; [|split; reflexivity]].
    + rewrite Htx. apply Forall_app. split; [done|]. by repeat constructor.
    + unfold held. rewrite Htx, map_app, concat_app, E. cbn [map concat temp_chunk p'].
      rewrite (split_join (w :: ws) Hw). by rewrite !app_nil_r.
Qed.

Lemma word_pieces w w' pieces :
  word w -> concat pieces ++ w' = w -> Forall (fun t => t <> []) pieces ->
  w' <> [] -> Forall word (pieces ++ [w']).
Proof.
  intros [_ Hns] E Hne Hw'. subst w.
  apply Forall_app in Hns. destruct Hns as [Hp Hw].
  apply Forall_app. split; [|by repeat constructor].
  induction pieces as [|t ts IH]; [constructor|].
  inversion Hne; subst. simpl in Hp. apply Forall_app in Hp. destruct Hp.
  constructor; [by split|]. by apply IH.
Qed.

(** One round of the word loop. *)
Lemma add_word_spec p w :
  packer_inv p -> word w ->
  exists p' pieces,
    add_word max_chars p w = Some p'
    /\ packer_inv p'
    /\ held p' = held p ++ pieces
    /\ concat pieces = w
    /\ ((len w <= max_chars)%Z -> pieces = [w]).
Proof.
  intros Hinv Hw. unfold DocumentProcessing.add_word.
  destruct (Z.gtb_spec (current_len p + len w + 1) max_chars) as [Hgt|Hle].
  - destruct (flush_spec p Hinv) as ((_ & Hfb & _) & Hheld & Htemp & Hcur).
    destruct (hard_split_spec (length w) w (flush p) (le_n _))
      as (w' & p' & pieces & E & Ht & Hc & Htx & Hcat & Hne & Hb & Hw' & Hnn & Hshort).
    rewrite E. eexists _, (pieces ++ [w']). split; [reflexivity|].
    pose proof (word_pieces w w' pieces Hw Hcat Hne (Hnn (proj1 Hw))) as Hwords.
    rewrite Htemp in Ht. rewrite Hcur in Hc.
    apply Forall_app in Hwords. destruct Hwords as [Hpw Hw'w].
    match goal with |- packer_inv ?q /\ _ => set (p2 := q) end.
    assert (temp_chunk p2 = [w']) as Ht2 by (cbn; by rewrite Ht).
    assert (texts p2 = texts (flush p) ++ pieces) as Htx2 by exact Htx.
    assert (current_len p2 = (len w' + 1)%Z) as Hc2 by (cbn; rewrite Hc; lia).
    split; [|split; [|split]].
    + unfold packer_inv. rewrite Ht2, Htx2, Hc2. split; [done|]. split.
      * apply Forall_app. by split.
      * cbn [join]. lia.
    + rewrite <- Hheld. unfold held.
      rewrite Ht2, Htx2, Htemp, map_app, concat_app.
      rewrite (concat_split_words pieces Hpw), app_nil_r.
      by rewrite <- app_assoc.
    + rewrite concat_app. simpl. by rewrite app_nil_r.
    + intros Hs. rewrite (Hshort Hs) in *. simpl in Hcat. by subst.
  - eexists _, [w]. split; [reflexivity|].
    destruct Hinv as (Htw & Hb & Hlen).
    match goal with |- packer_inv ?q /\ _ => set (p2 := q) end.
    assert (temp_chunk p2 = temp_chunk p ++ [w]) as Ht2 by reflexivity.
    assert (texts p2 = texts p) as Htx2 by reflexivity.
    assert (current_len p2 = (current_len p + len w + 1)%Z) as Hc2 by reflexivity.
    split; [|split; [|split]].
    + unfold packer_inv. rewrite Ht2, Htx2, Hc2. split; [|split; [done|]].
      * apply Forall_app. split; [done|]. constructor; [exact Hw|constructor].
      * destruct (temp_chunk p) as [|a ws] eqn:Et.
        -- cbn [app join]. lia.
        -- destruct Hlen as [Hc Hj].
           assert (len (join [32%N] ((a :: ws) ++ [w]))
                   = (len (join [32%N] (a :: ws)) + 1 + len w)%Z) as Ej
             by (by apply join_length).
           change ((a :: ws) ++ [w]) with (a :: (ws ++ [w])) in *.
           rewrite Ej. lia.
    + unfold held. rewrite Ht2, Htx2. by rewrite app_assoc.
    + simpl. by rewrite app_nil_r.
    + done.
Qed.

Lemma add_words_spec ws : forall p,
  packer_inv p -> Forall word ws ->
  exists p' pieces,
    add_words max_chars p ws = Some p'
    /\ packer_inv p'
    /\ held p' = held p ++ pieces
    /\ concat pieces = concat ws
    /\ (bounded ws -> pieces = ws).
Proof.
  induction ws as [|w ws IH]; intros p Hinv Hws.
  - exists p, []. rewrite app_nil_r. by conj.
  - apply Forall_cons in Hws. destruct Hws as [Hw Hws'].
    destruct (add_word_spec p w Hinv Hw) as (p1 & pc1 & E1 & Hinv1 & Hh1 & Hc1 & Hs1).
    destruct (IH p1 Hinv1 Hws') as (p2 & pc2 & E2 & Hinv2 & Hh2 & Hc2 & Hs2).
    exists p2, (pc1 ++ pc2). cbn [DocumentProcessing.add_words]. rewrite E1, E2.
    conj; try done.
    + by rewrite Hh2, Hh1, app_assoc.
    + rewrite concat_app, Hc1, Hc2. reflexivity.
    + intros Hb. apply Forall_cons in Hb. destruct Hb as [Hbw Hbws].
      rewrite Hs1, Hs2 by done. reflexivity.
Qed.

(** One section: what it adds to the chunks carries the words of the
    section, cut only where a word is longer than [max_chars]. *)
Lemma pack_section_spec p section_content :
  bounded (texts p) ->
  exists p' pieces,
    pack_section max_chars p section_content = Some p'
    /\ bounded (texts p')
    /\ concat (map split (texts p')) = concat (map split (texts p)) ++ pieces
    /\ concat pieces = concat (split section_content)
    /\ (bounded (split section_content) -> pieces = split section_content).
Proof.
  intros Hb. unfold DocumentProcessing.pack_section.
  set (start := {| chunks := chunks p; chunk_idx := chunk_idx p;
                   temp_chunk := []; current_len := 0 |}).
  assert (packer_inv start) as Hstart by (by conj; [constructor|..]).
  destruct (add_words_spec (split section_content) start Hstart
                           (split_words section_content))
    as (p1 & pieces & E & Hinv & Hh & Hc & Hs).
  rewrite E. exists (flush p1), pieces. split; [reflexivity|].
  destruct (flush_spec p1 Hinv) as ((_ & Hfb & _) & Hheld & Htemp & _).
  conj; try done.
  unfold held in Hheld at 1. rewrite Htemp, app_nil_r in Hheld.
  rewrite Hheld, Hh. unfold held. by rewrite app_nil_r.
Qed.

Lemma pack_sections_spec sections : forall p,
  bounded (texts p) ->
  exists p' pieces,
    pack_sections max_chars p sections = Some p'
    /\ bounded (texts p')
    /\ concat (map split (texts p')) = concat (map split (texts p)) ++ pieces
    /\ concat pieces = concat (concat (map split sections))
    /\ (bounded (concat (map split sections))
        -> pieces = concat (map split sections)).
Proof.
  induction sections as [|s sections IH]; intros p Hb.
  - exists p, []. rewrite app_nil_r. by conj.
  - destruct (pack_section_spec p s Hb) as (p1 & pc1 & E1 & Hb1 & Hh1 & Hc1 & Hs1).
    destruct (IH p1 Hb1) as (p2 & pc2 & E2 & Hb2 & Hh2 & Hc2 & Hs2).
    exists p2, (pc1 ++ pc2). cbn [DocumentProcessing.pack_sections]. rewrite E1, E2.
    conj; try done.
    + by rewrite Hh2, Hh1, app_assoc.
    + cbn [map concat]. rewrite !concat_app, Hc1, Hc2. reflexivity.
    + cbn [map concat]. intros Hbs. apply Forall_app in Hbs. destruct Hbs.
      rewrite Hs1, Hs2 by done. reflexivity.
Qed.

(** The whole document. *)
Lemma smart_chunk_document_spec text :
  exists cs,
    smart_chunk_document unicode_decimal doc_type period_label text max_chars
    = Some cs
    /\ bounded (map DocumentProcessing.text cs)
    /\ concat (concat (map split (map DocumentProcessing.text cs)))
       = concat (split text)
    /\ (bounded (split text)
        -> concat (map split (map DocumentProcessing.text cs)) = split text)
    /\ (strip text = [] -> cs = [])
    /\ (strip text <> [] -> cs <> []).
Proof.
  unfold smart_chunk_document.
  destruct (decide (strip text = [])) as [Eb|Eb].
  - assert (bool_decide (text = []) || bool_decide (strip text = []) = true) as ->.
    { rewrite (bool_decide_eq_true_2 _ Eb). apply orb_true_r. }
    exists []. rewrite (strip_nil_split text Eb).
    conj; try done. constructor.
  - assert (bool_decide (text = []) || bool_decide (strip text = []) = false) as ->.
    { rewrite (bool_decide_eq_false_2 _ Eb).
      rewrite bool_decide_eq_false_2; [done|]. intros ->. by apply Eb. }
    destruct (raw_sections_words unicode_decimal text max_chars Eb) as [Hwords _].
    set (start := {| chunks := []; chunk_idx := 0; temp_chunk := [];
                     current_len := 0 |}).
    destruct (pack_sections_spec (raw_sections unicode_decimal text max_chars)
                                 start ltac:(constructor))
      as (p & pieces & E & Hb & Hh & Hc & Hs).
    rewrite E. exists (chunks p). change (map DocumentProcessing.text (chunks p))
      with (texts p). cbn [texts start chunks map concat app] in Hh.
    rewrite Hwords in Hc, Hs. rewrite Hh.
    conj; try done.
    intros _ En. unfold texts in Hh. rewrite En in Hh. simpl in Hh.
    rewrite <- Hh in Hc. simpl in Hc.
    destruct (split text) as [|w ws] eqn:Esp; [by apply split_nil_strip in Esp|].
    pose proof (split_words text) as Hw. rewrite Esp in Hw.
    inversion Hw as [|? ? [Hne _] _]; subst. simpl in Hc.
    destruct w; [done|discriminate].
Qed.

End Packing.

(** ** Claims on [smart_chunk_document] *)

Section ChunkingClaims.
Import Py DocumentProcessing.

(** C2 (as amended): on an empty or whitespace-only text
    [smart_chunk_document] returns the empty sequence; on any other
    text, with [max_chars >= 1], it returns a non-empty sequence of
    chunks whose texts, split on whitespace, carry the characters of
    the input's tokens exactly once and in order, and carry exactly the
    input's token sequence when no token is longer than [max_chars]
    (a longer token appears cut into consecutive pieces). *)
Theorem chunk_tokens_preserved unicode_decimal doc_type period_label text max_chars :
  (strip text = [] ->
   smart_chunk_document unicode_decimal doc_type period_label text max_chars
   = Some [])
  /\ ((1 <= max_chars)%Z -> strip text <> [] ->
      exists cs,
        smart_chunk_document unicode_decimal doc_type period_label text max_chars
        = Some cs
        /\ cs <> []
        /\ concat (concat (map split (map DocumentProcessing.text cs)))
           = concat (split text)
        /\ (Forall (fun w => (len w <= max_chars)%Z) (split text) ->
            concat (map split (map DocumentProcessing.text cs)) = split text)).
Proof.
  split.
  - intros Eb. unfold smart_chunk_document.
    rewrite (bool_decide_eq_true_2 _ Eb). by rewrite orb_true_r.
  - intros Hmax Hne.
    destruct (smart_chunk_document_spec unicode_decimal doc_type period_label
                                        max_chars Hmax text)
      as (cs & E & _ & Hchars & Htokens & _ & Hnonempty).
    exists cs. conj; auto.
Qed.

Lemma chunk_tokens_preserved_witness :
  smart_chunk_document ascii_decimal (u8 "mda") (u8 "2023 Annual")
                       [32; 10; 9]%N 10 = Some []
  /\ exists cs,
       smart_chunk_document ascii_decimal (u8 "mda") (u8 "2023 Annual")
                            (u8 "net revenue  grew") 11 = Some cs
       /\ cs <> []
       /\ concat (map split (map DocumentProcessing.text cs))
          = split (u8 "net revenue  grew").
Proof.
  split.
  - apply (proj1 (chunk_tokens_preserved ascii_decimal (u8 "mda")
                    (u8 "2023 Annual") [32; 10; 9]%N 10)).
    reflexivity.
  - destruct (proj2 (chunk_tokens_preserved ascii_decimal (u8 "mda")
                       (u8 "2023 Annual") (u8 "net revenue  grew") 11))
      as (cs & E & Hne & _ & Htokens).
    + lia.
    + vm_compute. discriminate.
    + exists cs. conj; [exact E|exact Hne|]. apply Htokens.
      vm_compute. repeat constructor; discriminate.
Defined.

(** C2 as stated fails where a token is longer than [max_chars]: the
    token [abcdef] comes back as the two tokens [abcd] and [ef]. *)
Lemma chunk_tokens_counterexample :
  strip (u8 "abcdef") <> []
  /\ exists cs,
       smart_chunk_document ascii_decimal (u8 "mda") (u8 "2023 Annual")
                            (u8 "abcdef") 4 = Some cs
       /\ map DocumentProcessing.text cs = [u8 "abcd"; u8 "ef"]
       /\ concat (map split (map DocumentProcessing.text cs))
          <> split (u8 "abcdef").
Proof.
  split; [vm_compute; discriminate|].
  eexists. split; [vm_compute; reflexivity|].
  split; [reflexivity|vm_compute; discriminate].
Qed.

(** C3: for every text and every [max_chars >= 1],
    [smart_chunk_document] returns, and every chunk it returns has a
    text of at most [max_chars] characters; the chunks carry all the
    characters of the input's tokens, so a token longer than
    [max_chars] is present as pieces of at most [max_chars]
    characters each. *)
Theorem chunk_size_bound unicode_decimal doc_type period_label text max_chars :
  (1 <= max_chars)%Z ->
  exists cs,
    smart_chunk_document unicode_decimal doc_type period_label text max_chars
    = Some cs
    /\ Forall (fun c => (len (DocumentProcessing.text c) <= max_chars)%Z) cs
    /\ concat (concat (map split (map DocumentProcessing.text cs)))
       = concat (split text).
Proof.
  intros Hmax.
  destruct (smart_chunk_document_spec unicode_decimal doc_type period_label
                                      max_chars Hmax text)
    as (cs & E & Hb & Hchars & _).
  exists cs. conj; [exact E| |exact Hchars].
  unfold bounded in Hb. rewrite List.Forall_map in Hb. exact Hb.
Qed.

Lemma chunk_size_bound_witness :
  exists cs,
    smart_chunk_document ascii_decimal (u8 "footnotes") (u8 "2023 Annual")
                         (u8 "abcdefghij kl") 4 = Some cs
    /\ Forall (fun c => (len (DocumentProcessing.text c) <= 4)%Z) cs
    /\ concat (concat (map split (map DocumentProcessing.text cs)))
       = concat (split (u8 "abcdefghij kl")).
Proof.
  apply (chunk_size_bound ascii_decimal (u8 "footnotes") (u8 "2023 Annual")
                          (u8 "abcdefghij kl") 4).
  lia.
Defined.

(** With [max_chars = 0] the hard-splitting loop never shortens the
    word: the model runs out of rounds, as the Python loop would not
    end. *)
Example hard_split_zero_diverges :
  smart_chunk_document ascii_decimal (u8 "mda") (u8 "2023") (u8 "ab") 0 = None.
Proof. reflexivity. Qed.

End ChunkingClaims.

(** ** Claims on the conclusion integrator *)

Section IntegrationClaims.
Import Py Runtime IntegrationServices.

(** Whatever the LLM answers, one integration leaves the log as it was
    or adds one entry at its end. *)
Lemma update_appends_at_most_one module_name new_finding_text
    new_finding_confidence w s :
  let s' := fst (update_overall_conclusion_and_log_contradictions
                   module_name new_finding_text new_finding_confidence w s) in
  contradiction_logbook s' = contradiction_logbook s
  \/ exists entry,
       contradiction_logbook s' = contradiction_logbook s ++ [entry].
Proof.
  unfold update_overall_conclusion_and_log_contradictions, update_try_block.
  unfold_monad. cbn zeta.
  repeat (case_match; simplify_eq; cbn [fst snd contradiction_logbook
           set_run_log set_trace set_conclusion set_logbook trace
           current_overall_financial_conclusion] in *);
    try (left; reflexivity); right; eexists; reflexivity.
Qed.

(** Once the response has parsed to an object, line 72 assigns the
    object's [updated_overall_conclusion] (the previous conclusion when
    the key is absent), whatever the remaining steps do. *)
Lemma conclusion_assigned_once_parsed module_name new_finding_text
    new_finding_confidence w s content d :
  integration_reply w s module_name new_finding_text new_finding_confidence
  = Some (Replied content) ->
  json_loads w (clean_json content) = Some (PDict d) ->
  current_overall_financial_conclusion
    (fst (update_overall_conclusion_and_log_contradictions
            module_name new_finding_text new_finding_confidence w s))
  = Some (or_default (lookup_item (u8 "updated_overall_conclusion") d)
                     (previous_conclusion s)).
Proof.
  unfold integration_reply.
  unfold update_overall_conclusion_and_log_contradictions, update_try_block.
  unfold_monad. unfold previous_conclusion. cbn zeta. project_session.
  intros Hreply Hparsed.
  repeat (case_match; simplify_eq; project_session); try reflexivity;
    match goal with
    | H : dict_get (PDict d) (u8 "updated_overall_conclusion") _ = Some _ |- _ =>
      unfold dict_get, or_default in *; by simplify_eq
    end.
Qed.

(** C1 (as amended): when the LLM is not available, the LLM call
    raises, the response fails JSON parsing or the parsed response is
    not a JSON object, the overall conclusion and the contradiction log
    after the call are what they were before it. *)
Theorem conclusion_kept_on_early_failure module_name new_finding_text
    new_finding_confidence w s :
  fails_before_assignment w s module_name new_finding_text
                          new_finding_confidence ->
  let s' := fst (update_overall_conclusion_and_log_contradictions
                   module_name new_finding_text new_finding_confidence w s) in
  current_overall_financial_conclusion s'
  = current_overall_financial_conclusion s
  /\ contradiction_logbook s' = contradiction_logbook s.
Proof.
  unfold fails_before_assignment, integration_reply.
  unfold update_overall_conclusion_and_log_contradictions, update_try_block.
  unfold_monad. unfold previous_conclusion. cbn zeta. project_session.
  intros Hfail.
  repeat (case_match; simplify_eq; project_session);
    try (split; reflexivity); try discriminate; try contradiction;
    match goal with
    | H : isinstance_dict ?p = false, H' : dict_get ?p _ _ = Some _ |- _ =>
      destruct p; discriminate
    end.
Qed.

Lemma conclusion_kept_on_early_failure_witness :
  fails_before_assignment not_json_world initialize_cwp
                          (u8 "2.1") (u8 "the ratio fell") (PInt 85)
  /\ let s' := fst (update_overall_conclusion_and_log_contradictions
                      (u8 "2.1") (u8 "the ratio fell") (PInt 85)
                      not_json_world initialize_cwp) in
     current_overall_financial_conclusion s'
     = current_overall_financial_conclusion initialize_cwp
     /\ contradiction_logbook s' = contradiction_logbook initialize_cwp.
Proof.
  split; [exact I|].
  apply (conclusion_kept_on_early_failure
           (u8 "2.1") (u8 "the ratio fell") (PInt 85)
           not_json_world initialize_cwp).
  exact I.
Defined.

(** C1 as stated fails for an exception raised after line 72: the
    response [{"updated_overall_conclusion": 5}] is assigned, then the
    slice of line 73 raises [TypeError]; the handler logs the error and
    the conclusion stays [5]. *)
Lemma conclusion_changed_on_late_exception :
  let w := object_world [(u8 "updated_overall_conclusion", PInt 5)] in
  (exists s1,
     update_try_block (u8 "2.1") (u8 "the ratio fell") (PInt 85)
                      (previous_conclusion initialize_cwp) w initialize_cwp
     = (s1, Raised TypeError))
  /\ current_overall_financial_conclusion
       (fst (update_overall_conclusion_and_log_contradictions
               (u8 "2.1") (u8 "the ratio fell") (PInt 85) w initialize_cwp))
     = Some (PInt 5)
  /\ current_overall_financial_conclusion initialize_cwp <> Some (PInt 5).
Proof.
  split; [eexists; vm_compute; reflexivity|].
  split; [vm_compute; reflexivity|discriminate].
Qed.

Lemma integrate_all_grows findings w : forall s,
  exists added,
    contradiction_logbook (fst (integrate_all findings w s))
    = contradiction_logbook s ++ added
    /\ length added <= length findings.
Proof.
  induction findings as [|[[module_name finding] confidence] rest IH]; intros s.
  - exists []. by rewrite app_nil_r.
  - cbn [integrate_all]. unfold bind.
    pose proof (update_appends_at_most_one module_name finding confidence w s) as H.
    cbn zeta in H.
    destruct (update_overall_conclusion_and_log_contradictions
                module_name finding confidence w s) as [s1 [[]|e]].
    + cbn [fst] in H. destruct (IH s1) as (added & E & Hlen). rewrite E.
      destruct H as [->|[entry ->]].
      * exists added. split; [done|simpl; lia].
      * exists (entry :: added). rewrite <- app_assoc. split; [done|simpl; lia].
    + cbn [fst] in *. destruct H as [->|[entry ->]].
      * exists []. rewrite app_nil_r. split; [done|simpl; lia].
      * exists [entry]. split; [done|simpl; lia].
Qed.

(** C8: after the integrations of N completed modules the
    contradiction log is the log from before followed by at most N new
    entries (so an entry once written is neither removed nor changed,
    and one integration appends at most one entry); in a run, which
    starts from the empty log of [initialize_cwp], its length is at
    most N. *)
Theorem contradiction_log_append_only findings w s :
  (exists added,
     contradiction_logbook (fst (integrate_all findings w s))
     = contradiction_logbook s ++ added
     /\ length added <= length findings)
  /\ length (contradiction_logbook (fst (integrate_all findings w initialize_cwp)))
     <= length findings.
Proof.
  split; [apply integrate_all_grows|].
  destruct (integrate_all_grows findings w initialize_cwp) as (added & -> & H).
  exact H.
Qed.

End IntegrationClaims.

(** ** Claims on the planners and the selector *)

Section RoutePlannerClaims.
Import Py Runtime PlanningServices.




End RoutePlannerClaims.

Section NeedsPlannerClaims.
Import Py Runtime PlanningServices.

(** *** The batched needs planner *)

Lemma default_needs_other modules m : forall acc : gmap pystr information_need,
  m ∉ modules ->
  foldl (fun acc module_name => <[module_name := EMPTY_NEED]> acc) acc modules !! m
  = acc !! m.
Proof.
  induction modules as [|x rest IH]; intros acc Hm; [reflexivity|].
  cbn [foldl]. rewrite IH.
  - apply lookup_insert_ne. intros ->. apply Hm. by left.
  - intros H. apply Hm. by right.
Qed.

Lemma default_needs_lookup modules m :
  m ∈ modules -> default_needs modules !! m = Some EMPTY_NEED.
Proof.
  unfold default_needs. generalize (∅ : gmap pystr information_need).
  induction modules as [|x rest IH]; intros acc Hm; [by apply elem_of_nil in Hm|].
  cbn [foldl]. destruct (decide (m ∈ rest)) as [Hin|Hout]; [by apply IH|].
  rewrite default_needs_other by done.
  apply elem_of_cons in Hm. destruct Hm as [->|Hm]; [|done].
  apply lookup_insert_eq.
Qed.

Lemma validate_module_plan_dict p :
  exists need, validate_module_plan (PDict p) = Some need.
Proof. unfold validate_module_plan, dict_get. by eexists. Qed.

(** The validation loop on an answer that is an object. *)
Lemma validate_needs_dict d modules w : forall acc s,
  exists s' acc',
    validate_needs (PDict d) modules acc w s = (s', Returned acc')
    /\ (forall m, m ∈ modules ->
                  acc' !! m = Some (planned_need (Some (PDict d)) m))
    /\ (forall m, m ∉ modules -> acc' !! m = acc !! m).
Proof.
  induction modules as [|x rest IH]; intros acc s.
  - exists s, acc. conj; [reflexivity| |done].
    intros m Hm. by apply elem_of_nil in Hm.
  - cbn [validate_needs]. unfold_monad. cbn [contains has_key index].
    set (need := planned_need (Some (PDict d)) x).
    destruct (lookup_item x d) as [v|] eqn:Ex.
    + destruct v; cbn [isinstance_dict];
        try (destruct (IH (<[x:=EMPTY_NEED]> acc)
                          (set_run_log ({| entry_type := WARNING;
                                           entry_module := NEEDS |} :: run_log s) s))
               as (s' & acc' & E & Hin & Hout);
             exists s', acc'; conj; [exact E| |];
             [intros m Hm; destruct (decide (m ∈ rest)) as [?|Hnot]; [by apply Hin|];
              rewrite (Hout m Hnot);
              apply elem_of_cons in Hm; destruct Hm as [->|?]; [|done];
              rewrite lookup_insert_eq; unfold planned_need; by rewrite Ex
             |intros m Hm; rewrite Hout by (intros ?; apply Hm; by right);
              apply lookup_insert_ne; intros ->; apply Hm; by left]; fail).
      destruct (validate_module_plan_dict d0) as [nd End]. rewrite End.
      destruct (IH (<[x:=nd]> acc) s) as (s' & acc' & E & Hin & Hout).
      exists s', acc'. conj; [exact E| |].
      * intros m Hm. destruct (decide (m ∈ rest)) as [?|Hnot]; [by apply Hin|].
        rewrite (Hout m Hnot).
        apply elem_of_cons in Hm. destruct Hm as [->|?]; [|done].
        rewrite lookup_insert_eq. unfold planned_need. by rewrite Ex, End.
      * intros m Hm. rewrite Hout by (intros ?; apply Hm; by right).
        apply lookup_insert_ne. intros ->. apply Hm. by left.
    + destruct (IH (<[x:=EMPTY_NEED]> acc)
                   (set_run_log ({| entry_type := WARNING;
                                    entry_module := NEEDS |} :: run_log s) s))
        as (s' & acc' & E & Hin & Hout).
      exists s', acc'. conj; [exact E| |].
      * intros m Hm. destruct (decide (m ∈ rest)) as [?|Hnot]; [by apply Hin|].
        rewrite (Hout m Hnot).
        apply elem_of_cons in Hm. destruct Hm as [->|?]; [|done].
        rewrite lookup_insert_eq. unfold planned_need. by rewrite Ex.
      * intros m Hm. rewrite Hout by (intros ?; apply Hm; by right).
        apply lookup_insert_ne. intros ->. apply Hm. by left.
Qed.

(** The validation loop on an answer that is not an object: it raises,
    or it ends with the empty need for every module. *)
Lemma validate_needs_other v modules w :
  isinstance_dict v = false ->
  forall acc s,
    match validate_needs v modules acc w s with
    | (_, Raised _) => True
    | (_, Returned acc') =>
      (forall m, m ∈ modules -> acc' !! m = Some EMPTY_NEED)
      /\ (forall m, m ∉ modules -> acc' !! m = acc !! m)
    end.
Proof.
  intros Hv. induction modules as [|x rest IH]; intros acc s.
  - cbn. split; [|done]. intros m Hm. by apply elem_of_nil in Hm.
  - cbn [validate_needs]. unfold_monad.
    destruct v; try discriminate; cbn [contains index]; try exact I.
    + destruct (is_substring x s0); [exact I|].
      specialize (IH (<[x:=EMPTY_NEED]> acc)
                     (set_run_log ({| entry_type := WARNING;
                                      entry_module := NEEDS |} :: run_log s) s)).
      destruct (validate_needs (PStr s0) rest _ w _) as [s' [acc'|e]]; [|exact I].
      destruct IH as [Hin Hout]. split.
      * intros m Hm. destruct (decide (m ∈ rest)) as [?|Hnot]; [by apply Hin|].
        rewrite (Hout m Hnot).
        apply elem_of_cons in Hm. destruct Hm as [->|?]; [|done].
        apply lookup_insert_eq.
      * intros m Hm. rewrite Hout by (intros ?; apply Hm; by right).
        apply lookup_insert_ne. intros ->. apply Hm. by left.
    + destruct (existsb _ l); [exact I|].
      specialize (IH (<[x:=EMPTY_NEED]> acc)
                     (set_run_log ({| entry_type := WARNING;
                                      entry_module := NEEDS |} :: run_log s) s)).
      destruct (validate_needs (PList l) rest _ w _) as [s' [acc'|e]]; [|exact I].
      destruct IH as [Hin Hout]. split.
      * intros m Hm. destruct (decide (m ∈ rest)) as [?|Hnot]; [by apply Hin|].
        rewrite (Hout m Hnot).
        apply elem_of_cons in Hm. destruct Hm as [->|?]; [|done].
        apply lookup_insert_eq.
      * intros m Hm. rewrite Hout by (intros ?; apply Hm; by right).
        apply lookup_insert_ne. intros ->. apply Hm. by left.
Qed.

(** What the planner returns for every requested module, whatever the
    LLM does. *)
Lemma plan_needs_lookup modules info macro_conclusion industry_conclusion
    available_docs_summary w s :
  exists needs,
    snd (plan_all_module_information_needs modules info macro_conclusion
           industry_conclusion available_docs_summary w s) = Returned needs
    /\ forall m, m ∈ modules ->
         needs !! m
         = Some (planned_need
                   (parsed_reply w s
                      (needs_request modules info macro_conclusion
                                     industry_conclusion available_docs_summary))
                   m).
Proof.
  unfold plan_all_module_information_needs, parsed_reply.
  set (r := needs_request _ _ _ _ _).
  destruct (llm w) as [respond|] eqn:Ellm.
  - destruct modules as [|x rest].
    { eexists. split; [reflexivity|]. intros m Hm. by apply elem_of_nil in Hm. }
    set (modules := x :: rest) in *.
    unfold needs_try_block. unfold_monad. rewrite Ellm. project_session.
    destruct (respond (length (trace s)) r) as [content|msg].
    + destruct (json_loads w (clean_json content)) as [v|].
      * destruct (isinstance_dict v) eqn:Hv.
        -- destruct v; try discriminate.
           match goal with
           | |- context [validate_needs (PDict d) modules ?acc w ?s0] =>
             destruct (validate_needs_dict d modules w acc s0)
               as (s' & acc' & E & Hin & _)
           end.
           rewrite E. eexists. split; [reflexivity|exact Hin].
        -- match goal with
           | |- context [validate_needs v modules ?acc w ?s0] =>
             pose proof (validate_needs_other v modules w Hv acc s0) as H;
             destruct (validate_needs v modules acc w s0) as [s' [acc'|e]]
           end.
           ++ eexists. split; [reflexivity|]. intros m Hm.
              rewrite (proj1 H m Hm). unfold planned_need.
              by destruct v.
           ++ eexists. split; [reflexivity|]. intros m Hm.
              rewrite (default_needs_lookup modules m Hm). unfold planned_need.
              by destruct v.
      * eexists. split; [reflexivity|]. intros m Hm.
        by rewrite (default_needs_lookup modules m Hm).
    + eexists. split; [reflexivity|]. intros m Hm.
      by rewrite (default_needs_lookup modules m Hm).
  - unfold_monad. eexists. split; [reflexivity|]. intros m Hm.
    by rewrite (default_needs_lookup modules m Hm).
Qed.





End NeedsPlannerClaims.

Section ExtractionClaims.
Import Py Runtime PlanningServices.

(** *** Validation of extraction entries *)

Lemma valid_extraction_iff item :
  valid_extraction item = true <-> has_required_string_fields item.
Proof.
  unfold valid_extraction, has_required_string_fields, str_at, REQUIRED_FIELDS.
  split.
  - destruct item; cbn [isinstance_dict andb]; try discriminate.
    cbn [forallb has_key index]. intros H.
    destruct (lookup_item DOCUMENT_TYPE d) as [[]|] eqn:Ea;
      destruct (lookup_item PERIOD_LABEL d) as [[]|] eqn:Eb;
      destruct (lookup_item ANALYSIS_CONTEXT d) as [[]|] eqn:Ec;
      cbn in H; try discriminate.
    by eexists _, _, _, _.
  - intros (d & a & b & c & -> & Ha & Hb & Hc).
    cbn [isinstance_dict forallb has_key index andb].
    by rewrite Ha, Hb, Hc.
Qed.

(** The extractions of the plan returned for a module that the
    response maps to an object. *)
Lemma plan_extractions_lookup modules info macro_conclusion
    industry_conclusion available_docs_summary w s m d p :
  m ∈ modules ->
  parsed_reply w s (needs_request modules info macro_conclusion
                                  industry_conclusion available_docs_summary)
  = Some (PDict d) ->
  lookup_item m d = Some (PDict p) ->
  exists needs need,
    snd (plan_all_module_information_needs modules info macro_conclusion
           industry_conclusion available_docs_summary w s) = Returned needs
    /\ needs !! m = Some need
    /\ document_extractions need
       = match lookup_item (u8 "document_extractions") p with
         | Some (PList l) => List.filter valid_extraction l
         | _ => []
         end.
Proof.
  intros Hm Hreply Hl.
  destruct (plan_needs_lookup modules info macro_conclusion industry_conclusion
                              available_docs_summary w s) as (needs & E & H).
  exists needs. eexists. conj; [exact E|by apply H|].
  rewrite Hreply. unfold planned_need. rewrite Hl.
  unfold validate_module_plan, dict_get. cbn [or_default document_extractions].
  destruct (lookup_item (u8 "document_extractions") p) as [[]|]; reflexivity.
Qed.

(** C9 (as amended): in the plan returned for a module that the
    response maps to an object, [document_extractions] is the
    response's list filtered by the validation, and empty when the
    response's value is not a list (or absent); an entry passes the
    validation if and only if it is an object that has the three
    fields [document_type], [period_label] and [analysis_context],
    each with a string value.  (Further fields do not matter.) *)
Theorem extraction_entries_validated modules info macro_conclusion
    industry_conclusion available_docs_summary w s m d p :
  m ∈ modules ->
  parsed_reply w s (needs_request modules info macro_conclusion
                                  industry_conclusion available_docs_summary)
  = Some (PDict d) ->
  lookup_item m d = Some (PDict p) ->
  exists needs need,
    snd (plan_all_module_information_needs modules info macro_conclusion
           industry_conclusion available_docs_summary w s) = Returned needs
    /\ needs !! m = Some need
    /\ document_extractions need
       = match lookup_item (u8 "document_extractions") p with
         | Some (PList l) => List.filter valid_extraction l
         | _ => []
         end
    /\ forall item,
         valid_extraction item = true <-> has_required_string_fields item.
Proof.
  intros Hm Hreply Hl.
  destruct (plan_extractions_lookup modules info macro_conclusion
              industry_conclusion available_docs_summary w s m d p Hm Hreply Hl)
    as (needs & need & E & Hneed & Hde).
  exists needs, need. conj; [exact E|exact Hneed|exact Hde|].
  apply valid_extraction_iff.
Qed.

Lemma extraction_entries_validated_witness :
  exists needs need,
    snd (plan_all_module_information_needs three_modules
           {| name := Some (u8 "ACME"); industry := None;
              analysis_perspective := None |}
           (u8 "macro") (u8 "industry") (u8 "docs")
           (object_world two_plans) initialize_cwp) = Returned needs
    /\ needs !! u8 "1.1 波特五力模型" = Some need
    /\ document_extractions need = [liquidity_extraction].
Proof.
  destruct (extraction_entries_validated three_modules
              {| name := Some (u8 "ACME"); industry := None;
                 analysis_perspective := None |}
              (u8 "macro") (u8 "industry") (u8 "docs")
              (object_world two_plans) initialize_cwp
              (u8 "1.1 波特五力模型") two_plans
              [(u8 "search_queries", PList [PStr (u8 "industry concentration")]);
               (u8 "document_extractions", PList [liquidity_extraction])])
    as (needs & need & E & Hneed & Hde & _).
  - by repeat constructor.
  - reflexivity.
  - reflexivity.
  - exists needs, need. conj; [exact E|exact Hneed|]. rewrite Hde. reflexivity.
Defined.

(** C9 as stated fails for an entry with a further field: it has four
    fields, not exactly three, and is kept. *)
Lemma extra_field_entry_kept :
  number_of_fields extra_field_extraction = 4
  /\ exists needs need,
       snd (plan_all_module_information_needs [u8 "2.2"]
              {| name := None; industry := None; analysis_perspective := None |}
              (u8 "macro") (u8 "industry") (u8 "docs")
              (object_world
                 [(u8 "2.2",
                   PDict [(u8 "document_extractions",
                           PList [extra_field_extraction])])])
              initialize_cwp) = Returned needs
       /\ needs !! u8 "2.2" = Some need
       /\ document_extractions need = [extra_field_extraction].
Proof.
  split; [reflexivity|].
  destruct (plan_extractions_lookup [u8 "2.2"]
              {| name := None; industry := None; analysis_perspective := None |}
              (u8 "macro") (u8 "industry") (u8 "docs")
              (object_world
                 [(u8 "2.2",
                   PDict [(u8 "document_extractions",
                           PList [extra_field_extraction])])])
              initialize_cwp (u8 "2.2")
              [(u8 "2.2",
                PDict [(u8 "document_extractions", PList [extra_field_extraction])])]
              [(u8 "document_extractions", PList [extra_field_extraction])])
    as (needs & need & E & Hneed & Hde);
    [by repeat constructor|reflexivity|reflexivity|].
  exists needs, need. conj; [exact E|exact Hneed|]. rewrite Hde. reflexivity.
Qed.

End ExtractionClaims.

Section SelectorClaims.
Import Py Runtime PlanningServices.

(** *** The selector *)

Lemma strs_of_all_strings l :
  forallb isinstance_str l = true -> map PStr (strs_of l) = l.
Proof.
  induction l as [|v l IH]; [reflexivity|]. simpl.
  intros H. apply andb_true_iff in H. destruct H as [Hv H].
  destruct v; try discriminate. simpl. by rewrite IH.
Qed.

(** C10: when the selector's response parses to an object whose
    [relevant_chunk_ids] is a list, the selector returns the list as
    given if every element is a string, whether or not the ids name
    chunks of the inventory, and the empty list if any element is not
    a string. *)
Theorem selection_all_or_nothing analysis_contexts chunks w s d l :
  chunks <> [] ->
  selection_reply w s analysis_contexts chunks = Some (PDict d) ->
  lookup_item (u8 "relevant_chunk_ids") d = Some (PList l) ->
  snd (select_relevant_chunks_llm analysis_contexts chunks w s)
  = Returned (if forallb isinstance_str l then strs_of l else [])
  /\ (forallb isinstance_str l = true -> map PStr (strs_of l) = l).
Proof.
  intros Hchunks Hreply Hl. split; [|apply strs_of_all_strings].
  unfold selection_reply, parsed_reply in Hreply.
  unfold select_relevant_chunks_llm, select_try_block.
  unfold_monad. project_session.
  destruct (llm w) as [respond|]; [|discriminate].
  destruct chunks as [|c chunks]; [done|].
  destruct (respond _ _) as [content|msg]; [|discriminate].
  rewrite Hreply. unfold dict_get. rewrite Hl.
  cbn [isinstance_list elements andb].
  by destruct (forallb isinstance_str l).
Qed.

Lemma selection_all_or_nothing_witness :
  snd (select_relevant_chunks_llm [u8 "revenue recognition policy"] one_chunk
         (object_world [(u8 "relevant_chunk_ids",
                         PList [PStr (u8 "no_such_chunk"); PInt 7])])
         initialize_cwp)
  = Returned []
  /\ snd (select_relevant_chunks_llm [u8 "revenue recognition policy"] one_chunk
            (object_world [(u8 "relevant_chunk_ids",
                            PList [PStr (u8 "no_such_chunk")])])
            initialize_cwp)
     = Returned [u8 "no_such_chunk"].
Proof.
  split.
  - apply (selection_all_or_nothing
             [u8 "revenue recognition policy"] one_chunk
             (object_world [(u8 "relevant_chunk_ids",
                             PList [PStr (u8 "no_such_chunk"); PInt 7])])
             initialize_cwp
             [(u8 "relevant_chunk_ids", PList [PStr (u8 "no_such_chunk"); PInt 7])]
             [PStr (u8 "no_such_chunk"); PInt 7]);
      [discriminate|reflexivity|reflexivity].
  - apply (selection_all_or_nothing
             [u8 "revenue recognition policy"] one_chunk
             (object_world [(u8 "relevant_chunk_ids",
                             PList [PStr (u8 "no_such_chunk")])])
             initialize_cwp
             [(u8 "relevant_chunk_ids", PList [PStr (u8 "no_such_chunk")])]
             [PStr (u8 "no_such_chunk")]);
      [discriminate|reflexivity|reflexivity].
Defined.

End SelectorClaims.

(** ** Claims on the document pre-fetching of a module *)

Section PrefetchClaims.
Import Py Runtime PlanningServices CoreAnalysisEngine.


(** The selector returns, having recorded its call and at most one
    request to the LLM. *)
Lemma select_trace analysis_contexts chunks w s :
  exists s' ids evs,
    select_relevant_chunks_llm analysis_contexts chunks w s = (s', Returned ids)
    /\ trace s' = trace s ++ CallSelect analysis_contexts chunks :: evs
    /\ Forall (fun e => is_invoke e = true) evs.
Proof.
  unfold select_relevant_chunks_llm, select_try_block.
  unfold_monad. project_session.
  repeat (case_match; simplify_eq; project_session);
    eexists _, _, _; (split; [reflexivity|]); project_session;
    try (split; [by rewrite <- app_assoc|by repeat constructor]);
    (split; [symmetry; apply app_nil_r|constructor]) || idtac.
  all: split; [reflexivity|constructor].
Qed.

(** So does the compressor. *)
Lemma compress_trace concatenated_text context target w s :
  exists s' out evs,
    compress_selected_text_llm concatenated_text context target w s
    = (s', Returned out)
    /\ trace s' = trace s ++ CallCompress concatenated_text context :: evs
    /\ Forall (fun e => is_invoke e = true) evs.
Proof.
  unfold compress_selected_text_llm.
  unfold_monad. project_session.
  repeat (case_match; simplify_eq; project_session);
    eexists _, _, _; (split; [reflexivity|]); project_session;
    try (split; [by rewrite <- app_assoc|by repeat constructor]).
  all: split; [reflexivity|constructor].
Qed.











(** With chunks present, the same two requests cost one selector call
    and one compressor call. *)
Example one_pass_for_two_contexts :
  map (fun e => (is_select e, is_compress e))
      (trace (fst (prefetch_document_contents (u8 "4.4") [report_2023]
                     two_requests selecting_world initialize_cwp)))
  = [(true, false); (false, false); (false, true); (false, false)].
Proof. vm_compute. reflexivity. Qed.

End PrefetchClaims.

(** ** Claims on the abbreviated summaries *)

Section SummaryClaims.
Import Py Runtime Config Utils.












End SummaryClaims.

Section CreationClaims.
Import Py Runtime Config IntegrationServices CoreAnalysisEngine.



End CreationClaims.

Section MemoizationClaims.
Import Py Runtime Config IntegrationServices CoreAnalysisEngine Utils.







(** The five-forces module has its summary from the start: with an
    LLM that answers, it is stored by [run_llm_module_analysis]
    itself. *)
Example porter_summarized_at_creation :
  summary_of (fst (finish_module_analysis PORTER
                     (PStr (u8 "Rivalry is intense.")) (PInt 80)
                     steady_world initialize_cwp)) PORTER
  = Some (u8 "Liquidity is weak.").
Proof. vm_compute. reflexivity. Qed.

End MemoizationClaims.

(** * Further properties *)

(** ** Chunk identifiers and chunk texts *)

Section ChunkObservations.
Import Py Re DocumentProcessing.

Variable unicode_decimal : N -> bool.
Variables doc_type period_label : pystr.

#[local] Abbreviation numbered := (numbered doc_type period_label).

Lemma value_of_digits fuel : forall n acc,
  (n < 10 ^ N.of_nat fuel)%N ->
  fold_left (fun a c => (10 * a + (c - 48))%N) (digits fuel n acc) 0%N
  = fold_left (fun a c => (10 * a + (c - 48))%N) acc n.
Proof.
  induction fuel as [|fuel IH]; intros n acc Hn.
  - change (n < 1)%N in Hn. assert (n = 0%N) as -> by lia. reflexivity.
  - cbn [digits]. cbn zeta.
    assert ((48 + n mod 10 - 48 = n mod 10)%N) as Hd
      by (generalize (n mod 10)%N; intros; lia).
    destruct (N.ltb_spec n 10) as [Hlt|Hge].
    + cbn [fold_left]. rewrite Hd, N.mod_small by done.
      f_equal.
    + rewrite IH.
      * cbn [fold_left]. rewrite Hd. f_equal.
        rewrite (N.div_mod n 10) at 3 by done. reflexivity.
      * rewrite Nat2N.inj_succ, N.pow_succ_r' in Hn.
        apply N.Div0.div_lt_upper_bound. exact Hn.
Qed.

Lemma size_nat_bound p : (N.pos p < 10 ^ N.of_nat (Pos.size_nat p))%N.
Proof.
  induction p as [p IH|p IH|]; cbn [Pos.size_nat];
    rewrite ?Nat2N.inj_succ, ?N.pow_succ_r'; [| |reflexivity].
  - change (N.pos p~1) with (2 * N.pos p + 1)%N. lia.
  - change (N.pos p~0) with (2 * N.pos p)%N. lia.
Qed.

Lemma decimal_value_str_of_nat n : decimal_value (str_of_nat n) = N.of_nat n.
Proof.
  unfold decimal_value, str_of_nat. rewrite value_of_digits; [reflexivity|].
  rewrite Nat2N.inj_succ, N.pow_succ_r'.
  destruct (N.of_nat n) as [|p]; [reflexivity|].
  pose proof (size_nat_bound p). cbn [N.size_nat]. lia.
Qed.

Lemma make_chunk_id_inj i j :
  make_chunk_id doc_type period_label i = make_chunk_id doc_type period_label j ->
  i = j.
Proof.
  unfold make_chunk_id. intros H.
  repeat apply app_inv_head in H.
  apply (f_equal decimal_value) in H.
  rewrite !decimal_value_str_of_nat in H. lia.
Qed.

Lemma chunk_ids_NoDup n : NoDup (chunk_ids doc_type period_label n).
Proof.
  unfold chunk_ids. apply NoDup_fmap_2; [|apply NoDup_seq].
  intros i j. apply make_chunk_id_inj.
Qed.

Lemma numbered_ext p p' :
  chunks p' = chunks p -> chunk_idx p' = chunk_idx p -> numbered p -> numbered p'.
Proof. unfold Observations.numbered. intros -> ->. done. Qed.

Lemma numbered_emit t p : numbered p -> numbered (emit doc_type period_label t p).
Proof.
  unfold Observations.numbered, emit, chunk_ids. cbn [chunks chunk_idx].
  intros [Hidx Hids]. rewrite length_app, Nat.add_1_r. split; [by rewrite Hidx|].
  rewrite map_app, Hids, seq_S, map_app, Hidx. reflexivity.
Qed.

Lemma numbered_flush p : numbered p -> numbered (flush doc_type period_label p).
Proof.
  intros H. unfold flush. destruct (temp_chunk p); [done|].
  eapply numbered_ext; [| |eapply numbered_emit, H]; reflexivity.
Qed.

Lemma numbered_hard_split max_chars fuel : forall w p w' p',
  hard_split doc_type period_label fuel max_chars w p = Some (w', p') ->
  numbered p -> numbered p'.
Proof.
  induction fuel as [|fuel IH]; intros w p w' p'; cbn [hard_split];
    destruct (len w >? max_chars)%Z; intros H Hp; simplify_eq; try done.
  eapply IH; [exact H|]. by apply numbered_emit.
Qed.

Lemma numbered_add_word max_chars p w p' :
  add_word doc_type period_label max_chars p w = Some p' ->
  numbered p -> numbered p'.
Proof.
  unfold add_word. intros H Hp.
  destruct (current_len p + len w + 1 >? max_chars)%Z.
  - destruct (hard_split _ _ _ _ _ _) as [[w1 p1]|] eqn:E; simplify_eq.
    eapply numbered_ext; [| |eapply numbered_hard_split;
                              [exact E|by apply numbered_flush]]; reflexivity.
  - simplify_eq. eapply numbered_ext; [| |exact Hp]; reflexivity.
Qed.

Lemma numbered_add_words max_chars ws : forall p p',
  add_words doc_type period_label max_chars p ws = Some p' ->
  numbered p -> numbered p'.
Proof.
  induction ws as [|w ws IH]; intros p p' H Hp; cbn [add_words] in H.
  - by simplify_eq.
  - destruct (add_word _ _ _ _ _) as [p1|] eqn:E; [|done].
    eapply IH; [exact H|]. eapply numbered_add_word; [exact E|exact Hp].
Qed.

Lemma numbered_pack_section max_chars p s p' :
  pack_section doc_type period_label max_chars p s = Some p' ->
  numbered p -> numbered p'.
Proof.
  unfold pack_section. intros H Hp.
  destruct (add_words _ _ _ _ _) as [p1|] eqn:E; simplify_eq.
  apply numbered_flush. eapply numbered_add_words; [exact E|].
  eapply numbered_ext; [| |exact Hp]; reflexivity.
Qed.

Lemma numbered_pack_sections max_chars ss : forall p p',
  pack_sections doc_type period_label max_chars p ss = Some p' ->
  numbered p -> numbered p'.
Proof.
  induction ss as [|s ss IH]; intros p p' H Hp; cbn [pack_sections] in H.
  - by simplify_eq.
  - destruct (pack_section _ _ _ _ _) as [p1|] eqn:E; [|done].
    eapply IH; [exact H|]. eapply numbered_pack_section; [exact E|exact Hp].
Qed.

Lemma smart_chunk_document_numbered text max_chars cs :
  smart_chunk_document unicode_decimal doc_type period_label text max_chars
  = Some cs ->
  map DocumentProcessing.chunk_id cs = chunk_ids doc_type period_label (length cs).
Proof.
  unfold smart_chunk_document. intros H.
  destruct (_ || _); [by simplify_eq|].
  destruct (pack_sections _ _ _ _ _) as [p|] eqn:E; simplify_eq.
  apply (numbered_pack_sections _ _ _ _ E). split; reflexivity.
Qed.

End ChunkObservations.

Section ChunkTexts.
Import Py Re DocumentProcessing.

Variable unicode_decimal : N -> bool.
Variables doc_type period_label : pystr.
Variable max_chars : Z.
Hypothesis max_chars_pos : (1 <= max_chars)%Z.

Lemma normal_join ws : ws <> [] -> Forall word ws -> normal (join [32%N] ws).
Proof.
  intros Hne Hws. split; [|by rewrite split_join].
  destruct Hws as [|w ws [Hw _] _]; [done|].
  destruct w; [done|]. by destruct ws.
Qed.

Lemma normal_word w : word w -> normal w.
Proof.
  intros Hw. apply (normal_join [w]); [done|]. by constructor.
Qed.

Lemma tidy_flush p :
  tidy p ->
  tidy (flush doc_type period_label p)
  /\ temp_chunk (flush doc_type period_label p) = [].
Proof.
  intros Hp. unfold flush. destruct (temp_chunk p) as [|w ws] eqn:E.
  - split; [exact Hp|exact E].
  - destruct Hp as [Hw Ht]. rewrite E in Hw.
    split; [|reflexivity]. split; [constructor|].
    unfold texts, emit. cbn [chunks]. rewrite map_app. cbn [map text].
    apply Forall_app. split; [exact Ht|]. constructor; [|constructor].
    by apply normal_join.
Qed.

Lemma tidy_hard_split fuel w p w' p' :
  word w -> length w <= fuel -> tidy p ->
  hard_split doc_type period_label fuel max_chars w p = Some (w', p') ->
  tidy p' /\ word w' /\ temp_chunk p' = temp_chunk p.
Proof.
  intros Hw Hfuel [Htemp Ht] E.
  destruct (hard_split_spec doc_type period_label max_chars max_chars_pos
              fuel w p Hfuel)
    as (w1 & p1 & pieces & E1 & Htc & _ & Htexts & Hcat & Hne & _ & _ & Hw' & _).
  rewrite E in E1. simplify_eq.
  assert (Forall word (pieces ++ [w1])) as Hall.
  { apply (word_pieces (concat pieces ++ w1)); [done|done|done|].
    apply Hw'. by destruct Hw. }
  apply Forall_app in Hall. destruct Hall as [Hpieces Hw1].
  conj; [split|by apply Forall_cons in Hw1 as [? _]|done].
  - by rewrite Htc.
  - rewrite Htexts. apply Forall_app. split; [done|].
    eapply Forall_impl; [exact Hpieces|]. apply normal_word.
Qed.

Lemma tidy_add_word p w p' :
  word w -> tidy p ->
  add_word doc_type period_label max_chars p w = Some p' -> tidy p'.
Proof.
  unfold add_word. intros Hw Hp H.
  destruct (current_len p + len w + 1 >? max_chars)%Z.
  - destruct (hard_split _ _ _ _ _ _) as [[w1 p1]|] eqn:E; simplify_eq.
    destruct (tidy_flush p Hp) as [Hf Hnil].
    destruct (tidy_hard_split _ _ _ _ _ Hw (le_n _) Hf E) as ([_ Ht] & Hw1 & Htc).
    split; [|exact Ht]. cbn [temp_chunk]. rewrite Htc, Hnil. by constructor.
  - simplify_eq. destruct Hp as [Htemp Ht]. split; [|exact Ht].
    cbn [temp_chunk]. apply Forall_app. split; [done|by constructor].
Qed.

Lemma tidy_add_words ws : forall p p',
  Forall word ws -> tidy p ->
  add_words doc_type period_label max_chars p ws = Some p' -> tidy p'.
Proof.
  induction ws as [|w ws IH]; intros p p' Hws Hp H; cbn [add_words] in H.
  - by simplify_eq.
  - apply Forall_cons in Hws as [Hw Hws].
    destruct (add_word _ _ _ _ _) as [p1|] eqn:E; [|done].
    eapply IH; [exact Hws| |exact H]. by eapply tidy_add_word.
Qed.

Lemma normal_pack_section p s p' :
  Forall normal (texts p) ->
  pack_section doc_type period_label max_chars p s = Some p' ->
  Forall normal (texts p').
Proof.
  unfold pack_section. intros Hp H.
  destruct (add_words _ _ _ _ _) as [p1|] eqn:E; simplify_eq.
  eapply tidy_flush, tidy_add_words; [apply split_words| |exact E].
  split; [constructor|exact Hp].
Qed.

Lemma normal_pack_sections ss : forall p p',
  Forall normal (texts p) ->
  pack_sections doc_type period_label max_chars p ss = Some p' ->
  Forall normal (texts p').
Proof.
  induction ss as [|s ss IH]; intros p p' Hp H; cbn [pack_sections] in H.
  - by simplify_eq.
  - destruct (pack_section _ _ _ _ _) as [p1|] eqn:E; [|done].
    eapply IH; [|exact H]. by eapply normal_pack_section.
Qed.

Lemma smart_chunk_document_normal text cs :
  smart_chunk_document unicode_decimal doc_type period_label text max_chars
  = Some cs ->
  Forall (fun c => normal (DocumentProcessing.text c)) cs.
Proof.
  unfold smart_chunk_document. intros H.
  destruct (_ || _); [by simplify_eq|].
  destruct (pack_sections _ _ _ _ _) as [p|] eqn:E; simplify_eq.
  assert (Forall normal (texts p)) as Ht
    by (eapply normal_pack_sections; [|exact E]; constructor).
  unfold texts in Ht. by apply (proj1 (List.Forall_map DocumentProcessing.text normal (chunks p))) in Ht.
Qed.

End ChunkTexts.

Section ChunkLoop.
Import Py Re DocumentProcessing.

Variable unicode_decimal : N -> bool.
Variables doc_type period_label : pystr.
Variable max_chars : Z.
Hypothesis max_chars_nonpos : (max_chars <= 0)%Z.

Lemma slice_from_nonempty (w : pystr) : w <> [] -> slice_from max_chars w <> [].
Proof.
  intros Hw. unfold slice_from.
  assert (0 < length w) by (destruct w; [done|simpl; lia]).
  intros E. apply (f_equal (@length N)) in E. revert E.
  destruct (max_chars <? 0)%Z eqn:Hneg; rewrite length_skipn; simpl; lia.
Qed.

Lemma hard_split_never_ends fuel : forall w p,
  w <> [] -> hard_split doc_type period_label fuel max_chars w p = None.
Proof.
  induction fuel as [|fuel IH]; intros w p Hw; cbn [hard_split];
    assert ((len w >? max_chars)%Z = true) as ->
      by (apply Z.gtb_lt; unfold len; destruct w; [done|simpl length; lia]);
    [reflexivity|].
  apply IH. by apply slice_from_nonempty.
Qed.

Lemma stripped_nonempty_split s parts :
  s ∈ stripped_nonempty parts -> split s <> [].
Proof.
  unfold stripped_nonempty. rewrite list_elem_of_In, filter_In, in_map_iff.
  intros [(part & <- & _) Hne] Hsplit.
  rewrite split_strip in Hsplit. apply split_nil_strip in Hsplit.
  rewrite Hsplit in Hne. done.
Qed.

Lemma raw_sections_split text s :
  s ∈ raw_sections unicode_decimal text max_chars -> split s <> [].
Proof.
  assert (exists parts,
            raw_sections unicode_decimal text max_chars = stripped_nonempty parts)
    as [parts ->]; [|apply stripped_nonempty_split].
  unfold raw_sections.
  destruct (stripped_nonempty (cut _ _)) as [|a l] eqn:E.
  - destruct (stripped_nonempty (split_on [10; 10]%N text)) as [|p [|q l]] eqn:E2.
    + by eexists.
    + destruct (_ >? _)%Z; [by eexists|]. exists (split_on [10; 10]%N text).
      by rewrite E2.
    + exists (split_on [10; 10]%N text). by rewrite E2.
  - eexists. by rewrite E.
Qed.

End ChunkLoop.

Section ChunkProperties.
Import Py Re DocumentProcessing.

(** X1: for [max_chars >= 1], [smart_chunk_document] returns chunks
    whose ids are [<doc_type>_<period_label with spaces as
    underscores>_<i>] with [i] the position of the chunk in the
    returned list, counted from zero; so no two chunks of a document
    share an id. *)
Theorem chunk_ids_numbered unicode_decimal doc_type period_label text max_chars :
  (1 <= max_chars)%Z ->
  exists cs,
    smart_chunk_document unicode_decimal doc_type period_label text max_chars
    = Some cs
    /\ map DocumentProcessing.chunk_id cs
       = map (make_chunk_id doc_type period_label) (seq 0 (length cs))
    /\ NoDup (map DocumentProcessing.chunk_id cs).
Proof.
  intros Hmax.
  destruct (smart_chunk_document_spec unicode_decimal doc_type period_label
                                      max_chars Hmax text) as (cs & E & _).
  exists cs. pose proof (smart_chunk_document_numbered _ _ _ _ _ _ E) as Hids.
  conj; [exact E|exact Hids|]. rewrite Hids. apply chunk_ids_NoDup.
Qed.

Lemma chunk_ids_numbered_witness :
  exists cs,
    smart_chunk_document ascii_decimal (u8 "mda") (u8 "2023 Annual")
                         (u8 "abcdefghij kl") 4 = Some cs
    /\ map DocumentProcessing.chunk_id cs
       = map (make_chunk_id (u8 "mda") (u8 "2023 Annual")) (seq 0 (length cs))
    /\ NoDup (map DocumentProcessing.chunk_id cs).
Proof.
  apply (chunk_ids_numbered ascii_decimal (u8 "mda") (u8 "2023 Annual")
                            (u8 "abcdefghij kl") 4).
  lia.
Defined.

(** X2: for [max_chars >= 1], every chunk text that
    [smart_chunk_document] returns is non-empty and is its own words
    joined by single spaces: it has no leading or trailing whitespace,
    no line break, no tab and no run of spaces. *)
Theorem chunk_texts_normal unicode_decimal doc_type period_label text max_chars :
  (1 <= max_chars)%Z ->
  exists cs,
    smart_chunk_document unicode_decimal doc_type period_label text max_chars
    = Some cs
    /\ Forall (fun c => DocumentProcessing.text c <> []
                        /\ join [32%N] (split (DocumentProcessing.text c))
                           = DocumentProcessing.text c) cs.
Proof.
  intros Hmax.
  destruct (smart_chunk_document_spec unicode_decimal doc_type period_label
                                      max_chars Hmax text) as (cs & E & _).
  exists cs. split; [exact E|].
  exact (smart_chunk_document_normal _ _ _ _ Hmax _ _ E).
Qed.

Lemma chunk_texts_normal_witness :
  exists cs,
    smart_chunk_document ascii_decimal (u8 "mda") (u8 "2023 Annual")
                         ([10; 10]%N ++ u8 "net   revenue" ++ [9; 10]%N
                          ++ u8 "grew") 11 = Some cs
    /\ Forall (fun c => DocumentProcessing.text c <> []
                        /\ join [32%N] (split (DocumentProcessing.text c))
                           = DocumentProcessing.text c) cs.
Proof.
  apply (chunk_texts_normal ascii_decimal (u8 "mda") (u8 "2023 Annual")
           ([10; 10]%N ++ u8 "net   revenue" ++ [9; 10]%N ++ u8 "grew") 11).
  lia.
Defined.

(** X3: with [max_chars <= 0] and a text that is not blank,
    [smart_chunk_document] does not return: the test of the
    hard-splitting loop stays true for a non-empty word, whatever the
    number of rounds. *)
Theorem nonpositive_limit_never_returns unicode_decimal doc_type period_label
    text max_chars :
  (max_chars <= 0)%Z -> strip text <> [] ->
  smart_chunk_document unicode_decimal doc_type period_label text max_chars
  = None
  /\ forall fuel w p,
       w <> [] -> hard_split doc_type period_label fuel max_chars w p = None.
Proof.
  intros Hmax Hne. split; [|intros fuel w p; by apply hard_split_never_ends].
  unfold smart_chunk_document.
  rewrite (bool_decide_eq_false_2 (strip text = [])) by done.
  rewrite bool_decide_eq_false_2 by (intros ->; done).
  cbn [orb].
  destruct (raw_sections_words unicode_decimal text max_chars Hne) as [_ Hsections].
  destruct (raw_sections unicode_decimal text max_chars) as [|s rest] eqn:E; [done|].
  assert (split s <> []) as Hs.
  { apply (raw_sections_split unicode_decimal max_chars text). rewrite E. by left. }
  cbn [pack_sections]. unfold pack_section.
  pose proof (split_words s) as Hwords.
  destruct (split s) as [|w ws]; [done|].
  apply Forall_cons in Hwords as [[Hw _] _].
  cbn [add_words]. unfold add_word. cbn [current_len].
  assert ((0 + len w + 1 >? max_chars)%Z = true) as ->
    by (apply Z.gtb_lt; unfold len; lia).
  by rewrite hard_split_never_ends.
Qed.

Lemma nonpositive_limit_never_returns_witness :
  smart_chunk_document ascii_decimal (u8 "mda") (u8 "2023") (u8 "net revenue") (-3)
  = None
  /\ forall fuel w p,
       w <> [] -> hard_split (u8 "mda") (u8 "2023") fuel (-3) w p = None.
Proof.
  apply (nonpositive_limit_never_returns ascii_decimal (u8 "mda") (u8 "2023")
                                         (u8 "net revenue") (-3)).
  - lia.
  - vm_compute. discriminate.
Defined.

End ChunkProperties.

(** ** File names *)

Section FilenameObservations.
Import Py Re Filenames.

Variable unicode_alnum : N -> bool.

#[local] Abbreviation word_char := (word_char unicode_alnum).
#[local] Abbreviation unsafe_char := (unsafe_char unicode_alnum).
#[local] Abbreviation sanitize_filename := (sanitize_filename unicode_alnum).

(** Removing the matches of a one-character class is filtering. *)
Lemma sub_class_filter p s :
  sub (Cls p) [] 0 s = List.filter (fun c => negb (p c)) s.
Proof.
  induction s as [|c s IH]; [reflexivity|].
  cbn [sub List.filter]. unfold match_at. cbn [run].
  destruct (p c); cbn [negb app].
  - replace (length (c :: s) - length s - 1) with 0 by (simpl; lia). exact IH.
  - by rewrite IH.
Qed.

Lemma sub_skip r repl s : forall k,
  sub r repl k s = sub r repl 0 (skipn k s).
Proof.
  induction s as [|c s IH]; intros [|k]; try reflexivity.
  cbn [sub skipn]. apply IH.
Qed.

(** The greedy repetition of a class passes over the whole run. *)
Lemma star_class p n : forall s,
  length s <= n -> star_loop (run (Cls p)) n s Some = Some (skip_run p s).
Proof.
  induction n as [|n IH]; intros s Hn.
  - destruct s; [reflexivity|simpl in Hn; lia].
  - cbn [star_loop]. destruct s as [|c s]; [reflexivity|].
    cbn [run skip_run]. destruct (p c); [|reflexivity].
    replace (length s <? length (c :: s))%nat with true
      by (symmetry; apply Nat.ltb_lt; simpl; lia).
    rewrite IH by (simpl in Hn; lia). reflexivity.
Qed.

Lemma skip_run_length p s : length (skip_run p s) <= length s.
Proof.
  induction s as [|c s IH]; [reflexivity|].
  cbn [skip_run]. destruct (p c); simpl in *; lia.
Qed.

Lemma skipn_skip_run p s :
  skipn (length s - length (skip_run p s)) s = skip_run p s.
Proof.
  induction s as [|c s IH]; [reflexivity|].
  cbn [skip_run]. destruct (p c).
  - pose proof (skip_run_length p s).
    replace (length (c :: s) - length (skip_run p s))
      with (S (length s - length (skip_run p s))) by (simpl; lia).
    exact IH.
  - by rewrite Nat.sub_diag.
Qed.

Lemma skip_run_head p s :
  match skip_run p s with
  | y :: _ => p y = false
  | [] => True
  end.
Proof.
  induction s as [|c s IH]; [exact I|].
  cbn [skip_run]. by destruct (p c) eqn:E.
Qed.

Lemma skip_run_subset p s x : x ∈ skip_run p s -> x ∈ s.
Proof.
  induction s as [|c s IH]; [done|].
  cbn [skip_run]. destruct (p c); [|done]. intros H. right. by apply IH.
Qed.

(** One step of the replacement of runs. *)
Lemma sub_runs_cons p repl c s :
  sub (Plus (Cls p)) repl 0 (c :: s)
  = if p c then repl ++ sub (Plus (Cls p)) repl 0 (skip_run p s)
    else c :: sub (Plus (Cls p)) repl 0 s.
Proof.
  cbn [sub]. unfold match_at.
  change (run (Plus (Cls p)) (c :: s) Some)
    with (if p c then star_loop (run (Cls p)) (length s) s Some else None).
  destruct (p c); [|reflexivity].
  rewrite star_class by done. f_equal.
  rewrite sub_skip.
  replace (length (c :: s) - length (skip_run p s) - 1)
    with (length s - length (skip_run p s)) by (simpl; lia).
  by rewrite skipn_skip_run.
Qed.

Lemma sub_runs_spec p d (Hd : p d = true) n : forall s,
  length s <= n ->
  let t := sub (Plus (Cls p)) [d] 0 s in
  (forall x, x ∈ t -> x = d \/ (p x = false /\ x ∈ s))
  /\ squeezed p d t
  /\ match s, t with
     | y :: _, z :: _ => p y = false -> p z = false
     | _, _ => True
     end.
Proof.
  induction n as [|n IH]; intros s Hn; cbn zeta.
  - destruct s; [|simpl in Hn; lia]. cbn. conj; [|done|done].
    intros x H. by apply elem_of_nil in H.
  - destruct s as [|c s]; [cbn; conj; [|done|done];
                           intros x H; by apply elem_of_nil in H|].
    rewrite sub_runs_cons. simpl in Hn. destruct (p c) eqn:Ec.
    + pose proof (skip_run_length p s) as Hlen.
      destruct (IH (skip_run p s)) as (Hin & Hsq & Hhead); [lia|].
      cbn zeta in *. cbn [app]. conj.
      * intros x Hx. apply elem_of_cons in Hx as [->|Hx]; [by left|].
        destruct (Hin x Hx) as [->|[Hp Hs]]; [by left|].
        right. split; [done|]. right. by apply skip_run_subset in Hs.
      * cbn [squeezed]. split; [|exact Hsq]. intros _. split; [done|].
        pose proof (skip_run_head p s) as Hy.
        destruct (skip_run p s) as [|y rest]; [exact I|].
        destruct (sub _ _ _ (y :: rest)); [done|]. by apply Hhead.
      * congruence.
    + destruct (IH s) as (Hin & Hsq & _); [lia|]. cbn zeta in *. conj.
      * intros x Hx. apply elem_of_cons in Hx as [->|Hx].
        -- right. split; [done|by left].
        -- destruct (Hin x Hx) as [->|[Hp Hs]]; [by left|].
           right. split; [done|by right].
      * cbn [squeezed]. split; [congruence|exact Hsq].
      * done.
Qed.

(** A text that is already squeezed is left as it is. *)
Lemma sub_runs_squeezed p d t :
  squeezed p d t -> sub (Plus (Cls p)) [d] 0 t = t.
Proof.
  induction t as [|x t IH]; [reflexivity|].
  cbn [squeezed]. intros [Hx Hsq]. rewrite sub_runs_cons.
  destruct (p x) eqn:Ex.
  - destruct (Hx eq_refl) as [-> Hnext]. cbn [app]. f_equal.
    destruct t as [|y t]; [reflexivity|].
    cbn [skip_run]. rewrite Hnext. by apply IH.
  - f_equal. by apply IH.
Qed.

Lemma lstrip_subset s x : x ∈ lstrip s -> x ∈ s.
Proof.
  induction s as [|c s IH]; [done|].
  cbn [lstrip]. destruct (isspace c); [|done]. intros H. right. by apply IH.
Qed.

Lemma strip_subset s x : x ∈ strip s -> x ∈ s.
Proof.
  unfold strip, rstrip. intros H.
  apply list_elem_of_In, in_rev, list_elem_of_In, lstrip_subset in H.
  apply list_elem_of_In, in_rev, list_elem_of_In in H. by apply lstrip_subset.
Qed.

Lemma lstrip_no_space s :
  Forall (fun c => isspace c = false) s -> lstrip s = s.
Proof. destruct 1 as [|c s Hc _]; [reflexivity|]. cbn [lstrip]. by rewrite Hc. Qed.

Lemma strip_no_space s :
  Forall (fun c => isspace c = false) s -> strip s = s.
Proof.
  intros H. unfold strip, rstrip. rewrite (lstrip_no_space s H).
  rewrite lstrip_no_space by (by apply List.Forall_rev). apply rev_involutive.
Qed.

(** The characters of the text before the final test: hyphens and
    word characters, the hyphens single. *)
Lemma squeezed_name name :
  let t := sub (Plus (Cls separator)) [45%N] 0
               (strip (sub (Cls unsafe_char) [] 0 name)) in
  Forall (fun c => (word_char c = true \/ c = 45%N) /\ isspace c = false) t
  /\ squeezed separator 45 t.
Proof.
  cbn zeta.
  destruct (sub_runs_spec separator 45 eq_refl _
              (strip (sub (Cls unsafe_char) [] 0 name)) (le_n _))
    as (Hin & Hsq & _).
  cbn zeta in Hin, Hsq. split; [|exact Hsq].
  apply List.Forall_forall. intros c Hc. apply list_elem_of_In in Hc.
  destruct (Hin c Hc) as [->|[Hsep Hfrom]]; [split; [by right|reflexivity]|].
  apply strip_subset in Hfrom. rewrite sub_class_filter in Hfrom.
  apply list_elem_of_In, filter_In in Hfrom. destruct Hfrom as [_ Hsafe].
  unfold Filenames.unsafe_char in Hsafe. rewrite negb_involutive in Hsafe.
  unfold separator in Hsep. apply orb_false_elim in Hsep as [Hdash Hspace].
  rewrite Hdash, Hspace, !orb_false_r in Hsafe. split; [by left|exact Hspace].
Qed.

(** A text the function has nothing to do on. *)
Lemma sanitize_fixed t :
  t <> [] ->
  Forall (fun c => (word_char c = true \/ c = 45%N) /\ isspace c = false) t ->
  squeezed separator 45 t ->
  sanitize_filename t = t.
Proof.
  intros Hne Hchars Hsq. unfold Filenames.sanitize_filename. cbn zeta.
  rewrite sub_class_filter.
  rewrite (forallb_filter_id _ t).
  - rewrite strip_no_space
      by (eapply Forall_impl; [exact Hchars|]; by intros c [_ ?]).
    rewrite sub_runs_squeezed by done. by destruct t.
  - apply forallb_forall. intros c Hc.
    rewrite List.Forall_forall in Hchars. destruct (Hchars c Hc) as [Hw _].
    unfold Filenames.unsafe_char. rewrite negb_involutive.
    destruct Hw as [->| ->]; [reflexivity|]. by rewrite orb_true_r.
Qed.

Lemma squeezed_no_pair p d t :
  p d = true -> squeezed p d t ->
  forall i, t !! i = Some d -> t !! S i <> Some d.
Proof.
  intros Hd. induction t as [|x t IH]; intros Hsq i Hi; [done|].
  cbn [squeezed] in Hsq. destruct Hsq as [Hx Hsq]. destruct i as [|i].
  - cbn in Hi. simplify_eq. destruct (Hx Hd) as [_ Hnext].
    destruct t as [|y t]; [done|]. cbn. intros E. simplify_eq. congruence.
  - cbn in Hi |- *. by apply IH.
Qed.

Lemma untitled_chars :
  Forall (fun c => (word_char c = true \/ c = 45%N) /\ isspace c = false) UNTITLED
  /\ squeezed separator 45 UNTITLED.
Proof.
  split.
  - repeat constructor.
  - cbn. repeat split; discriminate.
Qed.

(** The result of [sanitize_filename]: not empty, hyphens and word
    characters only, the hyphens single. *)
Lemma sanitize_filename_spec name :
  let r := sanitize_filename name in
  r <> []
  /\ Forall (fun c => (word_char c = true \/ c = 45%N) /\ isspace c = false) r
  /\ squeezed separator 45 r.
Proof.
  cbn zeta. unfold Filenames.sanitize_filename. cbn zeta.
  destruct (squeezed_name name) as [Hchars Hsq]. cbn zeta in Hchars, Hsq.
  destruct (sub (Plus (Cls separator)) [45%N] 0 _) as [|c t].
  - split; [done|]. apply untitled_chars.
  - done.
Qed.

End FilenameObservations.

Section FilenameProperties.
Import Py Re Filenames.

(** X4: [sanitize_filename] never returns the empty string; every
    character of its result is a hyphen or a word character ([\w]), so
    the result holds no whitespace, no path separator, no dot, no colon
    and no NUL; and no two hyphens follow each other. *)
Theorem sanitized_name_is_safe unicode_alnum name :
  let r := sanitize_filename unicode_alnum name in
  r <> []
  /\ (forall c, c ∈ r ->
                (word_char unicode_alnum c = true \/ c = 45%N)
                /\ isspace c = false)
  /\ (forall c, c ∈ [47; 92; 46; 58; 0]%N -> c ∉ r)
  /\ (forall i, r !! i = Some 45%N -> r !! S i <> Some 45%N).
Proof.
  cbn zeta.
  destruct (sanitize_filename_spec unicode_alnum name) as (Hne & Hchars & Hsq).
  cbn zeta in *.
  assert (forall c, c ∈ sanitize_filename unicode_alnum name ->
                    (word_char unicode_alnum c = true \/ c = 45%N)
                    /\ isspace c = false) as Hall.
  { intros c Hc. rewrite List.Forall_forall in Hchars.
    apply Hchars. by apply list_elem_of_In. }
  conj; [exact Hne|exact Hall| |by apply (squeezed_no_pair separator)].
  intros c Hc Hin. destruct (Hall c Hin) as [[Hw|Hd] _].
  - repeat (apply elem_of_cons in Hc as [->|Hc]; [discriminate|]).
    by apply elem_of_nil in Hc.
  - subst c. repeat (apply elem_of_cons in Hc as [Hc|Hc]; [discriminate|]).
    by apply elem_of_nil in Hc.
Qed.

(** X5: [sanitize_filename] is idempotent: a name that came out of it
    goes through it unchanged. *)
Theorem sanitize_filename_idempotent unicode_alnum name :
  sanitize_filename unicode_alnum (sanitize_filename unicode_alnum name)
  = sanitize_filename unicode_alnum name.
Proof.
  destruct (sanitize_filename_spec unicode_alnum name) as (Hne & Hchars & Hsq).
  by apply sanitize_fixed.
Qed.

End FilenameProperties.

(** ** Integration of the findings *)

Section IntegrationObservations.
Import Py Runtime IntegrationServices.

(** One integration: what is appended to the log, if anything, names
    the module and carries snippets of at most 303 characters. *)
Lemma update_appends_bounded module_name new_finding_text
    new_finding_confidence w s :
  let s' := fst (update_overall_conclusion_and_log_contradictions
                   module_name new_finding_text new_finding_confidence w s) in
  contradiction_logbook s' = contradiction_logbook s
  \/ exists entry,
       contradiction_logbook s' = contradiction_logbook s ++ [entry]
       /\ Runtime.module_name entry = module_name
       /\ module_confidence entry = new_finding_confidence
       /\ module_finding_snippet entry = firstn 300 new_finding_text ++ ELLIPSIS
       /\ length (previous_overall_conclusion_snippet entry) <= 303.
Proof.
  unfold update_overall_conclusion_and_log_contradictions, update_try_block.
  unfold_monad. cbn zeta.
  repeat (case_match; simplify_eq; project_session);
    try (left; reflexivity); right; eexists; (split; [reflexivity|]);
    cbn [Runtime.module_name module_confidence module_finding_snippet
         previous_overall_conclusion_snippet]; conj; try reflexivity.
  all: match goal with
       | H : snippet _ _ _ = Some _ |- _ =>
         unfold snippet in H; case_match; simplify_eq
       end.
  all: rewrite length_app, length_firstn; cbn [length ELLIPSIS]; lia.
Qed.

Lemma integrate_all_entries findings w : forall s,
  exists added,
    contradiction_logbook (fst (integrate_all findings w s))
    = contradiction_logbook s ++ added
    /\ Forall (fun entry =>
                 (exists finding,
                    finding ∈ findings
                    /\ Runtime.module_name entry = fst (fst finding)
                    /\ module_confidence entry = snd finding
                    /\ module_finding_snippet entry
                       = firstn 300 (snd (fst finding)) ++ ELLIPSIS)
                 /\ length (previous_overall_conclusion_snippet entry) <= 303)
              added.
Proof.
  induction findings as [|[[module_name finding] confidence] rest IH]; intros s.
  - exists []. split; [by rewrite app_nil_r|constructor].
  - cbn [integrate_all]. unfold bind.
    pose proof (update_appends_bounded module_name finding confidence w s) as H.
    cbn zeta in H.
    destruct (update_overall_conclusion_and_log_contradictions
                module_name finding confidence w s) as [s1 [[]|e]];
      cbn [fst] in H |- *.
    + destruct (IH s1) as (added & E & Hall). rewrite E.
      assert (Forall (fun entry =>
                 (exists f,
                    f ∈ (module_name, finding, confidence) :: rest
                    /\ Runtime.module_name entry = fst (fst f)
                    /\ module_confidence entry = snd f
                    /\ module_finding_snippet entry
                       = firstn 300 (snd (fst f)) ++ ELLIPSIS)
                 /\ length (previous_overall_conclusion_snippet entry) <= 303)
              added) as Hall'.
      { eapply Forall_impl; [exact Hall|]. intros entry [(f & Hf & Hrest) Hlen].
        split; [|exact Hlen]. exists f. split; [by right|exact Hrest]. }
      destruct H as [->|(entry & -> & Hm & Hc & Hs & Hlen)].
      * by exists added.
      * exists (entry :: added). rewrite <- app_assoc. split; [done|].
        constructor; [|exact Hall']. split; [|exact Hlen].
        exists (module_name, finding, confidence). split; [by left|done].
    + destruct H as [->|(entry & -> & Hm & Hc & Hs & Hlen)].
      * exists []. split; [by rewrite app_nil_r|constructor].
      * exists [entry]. split; [done|]. constructor; [|constructor].
        split; [|exact Hlen].
        exists (module_name, finding, confidence). split; [by left|done].
Qed.

(** What one integration leaves alone. *)
Lemma update_frame module_name new_finding_text
    new_finding_confidence w s :
  let r := update_overall_conclusion_and_log_contradictions
             module_name new_finding_text new_finding_confidence w s in
  snd r = Returned tt
  /\ analytical_module_outputs (fst r) = analytical_module_outputs s
  /\ industry_analysis_conclusion_text (fst r)
     = industry_analysis_conclusion_text s
  /\ (trace (fst r) = trace s
      \/ trace (fst r)
         = trace s ++ [Invoke (Integration (previous_conclusion s) module_name
                                           new_finding_text
                                           new_finding_confidence)])
  /\ exists added, run_log (fst r) = added ++ run_log s.
Proof.
  unfold update_overall_conclusion_and_log_contradictions, update_try_block.
  unfold_monad. unfold previous_conclusion. cbn zeta. project_session.
  repeat (case_match; simplify_eq; project_session);
    conj; try reflexivity; try (by left); try (by right);
    match goal with
    | |- exists added, ?l = added ++ ?l0 =>
      match l with
      | ?a :: ?b :: ?c :: ?d :: l0 => exists [a; b; c; d]
      | ?a :: ?b :: ?c :: l0 => exists [a; b; c]
      | ?a :: ?b :: l0 => exists [a; b]
      | ?a :: l0 => exists [a]
      end; reflexivity
    end.
Qed.

End IntegrationObservations.

Section IntegrationProperties.
Import Py Runtime IntegrationServices.


(** X7: when the LLM's answer parses to an object whose updated
    conclusion and contradiction description are strings (defaults
    included) and the conclusion held before is a string, the overall
    conclusion becomes the updated one, and the contradiction log
    gains exactly one entry if [contradiction_found] is truthy and the
    description, lower-cased, is none of the phrases that say "no
    contradiction"; otherwise it gains none.  The entry names the
    module, its confidence and the description, and carries the first
    300 characters of the finding and of the previous conclusion, each
    followed by [...]. *)
Theorem contradiction_logged_iff module_name new_finding_text
    new_finding_confidence w s content d updated description prev :
  integration_reply w s module_name new_finding_text new_finding_confidence
  = Some (Replied content) ->
  json_loads w (clean_json content) = Some (PDict d) ->
  or_default (lookup_item (u8 "updated_overall_conclusion") d)
             (previous_conclusion s) = PStr updated ->
  or_default (lookup_item (u8 "contradiction_description") d)
             (PStr (u8 "未明确说明是否有矛盾。")) = PStr description ->
  previous_conclusion s = PStr prev ->
  let found :=
    or_default (lookup_item (u8 "contradiction_found") d) (PBool false) in
  let s' := fst (update_overall_conclusion_and_log_contradictions
                   module_name new_finding_text new_finding_confidence w s) in
  current_overall_financial_conclusion s' = Some (PStr updated)
  /\ contradiction_logbook s'
     = contradiction_logbook s
       ++ (if truthy found
              && negb (bool_decide (lower description ∈ no_contradiction_phrases))
           then [ {| timestamp := now w (length (trace s) + 1);
                     Runtime.module_name := module_name;
                     module_confidence := new_finding_confidence;
                     contradiction_description := description;
                     module_finding_snippet :=
                       firstn 300 new_finding_text ++ ELLIPSIS;
                     previous_overall_conclusion_snippet :=
                       firstn 300 prev ++ ELLIPSIS |} ]
           else []).
Proof.
  unfold integration_reply.
  unfold update_overall_conclusion_and_log_contradictions, update_try_block.
  unfold_monad. unfold dict_get, snippet, lower_of. cbn zeta.
  intros Hreply Hparsed Hupdated Hdescription Hprev.
  destruct (llm w) as [respond|]; [|done]. simplify_eq.
  unfold previous_conclusion in *. project_session.
  rewrite Hreply, Hparsed. rewrite Hprev in *.
  unfold or_default in Hupdated, Hdescription |- *.
  rewrite Hupdated, Hdescription. project_session.
  destruct (truthy _); cbn [andb]; project_session.
  - destruct (bool_decide _); cbn [negb]; project_session.
    + split; [reflexivity|by rewrite app_nil_r].
    + split; [reflexivity|]. by rewrite length_app.
  - split; [reflexivity|by rewrite app_nil_r].
Qed.

Lemma contradiction_logged_iff_witness :
  let s' := fst (update_overall_conclusion_and_log_contradictions
                   (u8 "2.1") (u8 "the ratio fell") (PInt 85)
                   (object_world contradicting_answer) initialize_cwp) in
  current_overall_financial_conclusion s' = Some (PStr (u8 "liquidity is weak"))
  /\ map Runtime.module_name (contradiction_logbook s') = [u8 "2.1"].
Proof.
  cbn zeta.
  destruct (contradiction_logged_iff
              (u8 "2.1") (u8 "the ratio fell") (PInt 85)
              (object_world contradicting_answer) initialize_cwp
              (u8 "{...}") contradicting_answer (u8 "liquidity is weak")
              (u8 "The ratio fell, liquidity was called sound")
              (u8 "分析尚未开始，暂无总体结论。")
              eq_refl eq_refl eq_refl eq_refl eq_refl) as [Hc Hl].
  split; [exact Hc|]. rewrite Hl. reflexivity.
Defined.

(** X8: whatever the LLM answers in a sequence of integrations, every
    entry added to the contradiction log belongs to one of the
    integrated findings: it names that module and its confidence, its
    finding snippet is the first 300 characters of that finding
    followed by [...], and its snippet of the previous conclusion has
    at most 303 characters. *)
Theorem logged_entries_attributed findings w s :
  exists added,
    contradiction_logbook (fst (integrate_all findings w s))
    = contradiction_logbook s ++ added
    /\ Forall (fun entry =>
                 (exists finding,
                    finding ∈ findings
                    /\ Runtime.module_name entry = fst (fst finding)
                    /\ module_confidence entry = snd finding
                    /\ module_finding_snippet entry
                       = firstn 300 (snd (fst finding)) ++ ELLIPSIS)
                 /\ length (previous_overall_conclusion_snippet entry) <= 303)
              added.
Proof. apply integrate_all_entries. Qed.

End IntegrationProperties.

(** ** Planning, selection and compression *)

Section PlanningObservations.
Import Py Runtime PlanningServices CoreAnalysisEngine.

Lemma same_workpaper_refl s : same_workpaper s s.
Proof. by repeat split. Qed.

Lemma same_workpaper_trans s1 s2 s3 :
  same_workpaper s1 s2 -> same_workpaper s2 s3 -> same_workpaper s1 s3.
Proof.
  unfold same_workpaper. intros (-> & -> & -> & ->) (-> & -> & -> & ->).
  by repeat split.
Qed.

Lemma validate_needs_frame planned_needs modules : forall validated w s,
  same_workpaper s (fst (validate_needs planned_needs modules validated w s)).
Proof.
  induction modules as [|m modules IH]; intros validated w s;
    cbn [validate_needs]; [apply same_workpaper_refl|].
  unfold_monad.
  repeat (case_match; simplify_eq; cbn [fst]);
    try apply same_workpaper_refl;
    match goal with
    | |- same_workpaper _ (fst (validate_needs _ _ ?v _ ?s1)) =>
      eapply same_workpaper_trans; [|apply (IH v w s1)]
    end;
    by repeat split.
Qed.

Lemma route_frame company_info_dict macro_conclusion_str
    all_available_modules_list w s :
  same_workpaper s
    (fst (get_ai_planned_analysis_route company_info_dict macro_conclusion_str
                                        all_available_modules_list w s)).
Proof.
  unfold get_ai_planned_analysis_route, route_try_block.
  unfold_monad. cbn zeta.
  repeat (case_match; simplify_eq; cbn [fst]); by repeat split.
Qed.

Lemma needs_frame modules info macro_conclusion industry_conclusion
    available_docs_summary w s :
  same_workpaper s
    (fst (plan_all_module_information_needs modules info macro_conclusion
            industry_conclusion available_docs_summary w s)).
Proof.
  unfold plan_all_module_information_needs, needs_try_block.
  unfold bind at 1 2 3. unfold try_except, log_event, write, ret.
  destruct (llm w) as [respond|] eqn:Ellm; [|by repeat split].
  destruct modules as [|m modules]; [by repeat split|].
  unfold bind at 1. unfold invoke. rewrite Ellm.
  destruct (respond _ _); [|by repeat split].
  unfold bind at 1. unfold loads.
  destruct (json_loads w _) as [planned|]; [|by repeat split].
  unfold bind at 1.
  match goal with
  | |- context [validate_needs ?p ?ms ?v w ?s1] =>
    pose proof (validate_needs_frame p ms v w s1) as H;
    destruct (validate_needs p ms v w s1) as [s2 [needs|e]]
  end; cbn [fst] in *;
    (eapply same_workpaper_trans; [|eapply same_workpaper_trans; [exact H|]]);
    by repeat split.
Qed.

Lemma select_frame analysis_contexts chunks w s :
  same_workpaper s (fst (select_relevant_chunks_llm analysis_contexts chunks w s)).
Proof.
  unfold select_relevant_chunks_llm, select_try_block.
  unfold_monad. cbn zeta.
  repeat (case_match; simplify_eq; cbn [fst]); by repeat split.
Qed.

Lemma compress_frame text context target w s :
  same_workpaper s (fst (compress_selected_text_llm text context target w s)).
Proof.
  unfold compress_selected_text_llm.
  unfold_monad. cbn zeta.
  repeat (case_match; simplify_eq; cbn [fst]); by repeat split.
Qed.

Lemma concatenate_frame ids chunks w : forall acc s,
  exists s' text,
    concatenate_selected ids chunks acc w s = (s', Returned text)
    /\ same_workpaper s s'.
Proof.
  induction ids as [|i ids IH]; intros acc s; cbn [concatenate_selected].
  - eexists _, _. split; [reflexivity|apply same_workpaper_refl].
  - destruct (List.find _ chunks); [apply IH|].
    unfold_monad.
    destruct (IH acc (set_run_log ({| entry_type := WARNING;
                                      entry_module := PREFETCH |} :: run_log s) s))
      as (s' & text & -> & H).
    eexists _, _. split; [reflexivity|].
    eapply same_workpaper_trans; [|exact H]. by repeat split.
Qed.

Lemma select_returns analysis_contexts chunks w s :
  exists ids,
    snd (select_relevant_chunks_llm analysis_contexts chunks w s) = Returned ids.
Proof.
  destruct (select_trace analysis_contexts chunks w s) as (s' & ids & evs & -> & _).
  by exists ids.
Qed.

Lemma compress_returns text context target w s :
  exists out,
    snd (compress_selected_text_llm text context target w s) = Returned out.
Proof.
  destruct (compress_trace text context target w s) as (s' & out & evs & -> & _).
  by exists out.
Qed.

Lemma resolve_group_frame module_name_full all_reports group w s :
  exists s' content,
    resolve_group module_name_full all_reports group w s = (s', Returned content)
    /\ same_workpaper s s'.
Proof.
  destruct group as [key contexts]. unfold resolve_group.
  destruct (chunks_of_document all_reports key) as [|c cs].
  - unfold_monad. eexists _, _. split; [reflexivity|by repeat split].
  - unfold bind.
    pose proof (select_frame contexts (c :: cs) w s) as F1.
    destruct (select_returns contexts (c :: cs) w s) as [ids E1].
    destruct (select_relevant_chunks_llm contexts (c :: cs) w s) as [s1 o1].
    cbn [fst snd] in *. subst o1. destruct ids as [|i ids].
    + unfold ret. by eexists _, _.
    + destruct (concatenate_frame (i :: ids) (c :: cs) w [] s1)
        as (s2 & text & -> & F2).
      pose proof (same_workpaper_trans _ _ _ F1 F2) as F12.
      case_bool_decide; [unfold ret; by eexists _, _|].
      match goal with
      | |- context [compress_selected_text_llm ?t ?c ?k w s2] =>
        pose proof (compress_frame t c k w s2) as F3;
        destruct (compress_returns t c k w s2) as [out E3];
        destruct (compress_selected_text_llm t c k w s2) as [s3 o3]
      end.
      cbn [fst snd] in *. subst o3. unfold ret. eexists _, _.
      split; [reflexivity|]. by eapply same_workpaper_trans.
Qed.

Lemma resolve_groups_frame module_name_full all_reports groups w : forall acc s,
  exists s' contents,
    resolve_groups module_name_full all_reports groups acc w s
    = (s', Returned contents)
    /\ same_workpaper s s'.
Proof.
  induction groups as [|g groups IH]; intros acc s; cbn [resolve_groups].
  - unfold ret. eexists _, _. split; [reflexivity|apply same_workpaper_refl].
  - unfold bind.
    destruct (resolve_group_frame module_name_full all_reports g w s)
      as (s1 & content & -> & F1).
    destruct (IH (acc ++ [content]) s1) as (s2 & contents & -> & F2).
    eexists _, _. split; [reflexivity|]. by eapply same_workpaper_trans.
Qed.

End PlanningObservations.

Section PlanningProperties.
Import Py Runtime PlanningServices CoreAnalysisEngine.

(** X9: the four services of [planning_services.py] (route planner,
    needs planner, chunk selector, text compressor) only read the
    working paper: whatever the LLM answers, the overall conclusion,
    the contradiction log, the module outputs and the industry
    conclusion are after the call what they were before it. *)
Theorem planning_leaves_workpaper company_info_dict macro_conclusion
    industry_conclusion available_docs_summary modules analysis_contexts
    chunks text context target w s :
  same_workpaper s
    (fst (get_ai_planned_analysis_route company_info_dict macro_conclusion
                                        modules w s))
  /\ same_workpaper s
       (fst (plan_all_module_information_needs modules company_info_dict
               macro_conclusion industry_conclusion available_docs_summary w s))
  /\ same_workpaper s
       (fst (select_relevant_chunks_llm analysis_contexts chunks w s))
  /\ same_workpaper s
       (fst (compress_selected_text_llm text context target w s)).
Proof.
  conj; [apply route_frame|apply needs_frame|apply select_frame
         |apply compress_frame].
Qed.

(** X10: for [target_max_chars >= 0],
    [compress_selected_text_llm] always returns a string.  Without an
    LLM, or for a blank text, it returns the fixed notice and sends
    nothing.  Otherwise it sends one request, which carries the first
    [4 * target_max_chars] characters of the text (the whole text when
    it is not longer); the returned string is the LLM's content as it
    came, not cut to the target, or, when the call raises, a notice
    that quotes the error and the first 500 characters of the text. *)
Theorem compressor_request_bounded text context target w s :
  (0 <= target)%Z ->
  let r := compress_selected_text_llm text context target w s in
  let sent := firstn (Z.to_nat (target * 4)) text in
  exists out,
    snd r = Returned out
    /\ (llm w = None \/ strip text = [] ->
        out = NOTHING_TO_COMPRESS
        /\ trace (fst r) = trace s ++ [CallCompress text context])
    /\ (forall respond,
          llm w = Some respond -> strip text <> [] ->
          (len sent <= target * 4)%Z
          /\ trace (fst r)
             = trace s ++ [CallCompress text context;
                           Invoke (Compression sent context target)]
          /\ out = match respond (length (trace s) + 1)
                                 (Compression sent context target) with
                   | Replied content => content
                   | Failed msg =>
                     u8 "压缩文本时出错: " ++ msg
                     ++ u8 ". 原始文本片段(部分): "
                     ++ firstn 500 text ++ ELLIPSIS
                   end).
Proof.
  intros Htarget. cbn zeta.
  assert ((len (firstn (Z.to_nat (target * 4)) text) <= target * 4)%Z) as Hlen.
  { unfold len. rewrite length_firstn. lia. }
  assert ((if (len text >? target * 4)%Z
           then slice_to (target * 4) text else text)
          = firstn (Z.to_nat (target * 4)) text) as Hsent.
  { unfold slice_to. destruct (Z.ltb_spec (target * 4) 0); [lia|].
    destruct (Z.gtb_spec (len text) (target * 4)); [reflexivity|].
    symmetry. apply firstn_all2. unfold len in *. lia. }
  unfold compress_selected_text_llm. unfold_monad. cbn zeta. project_session.
  destruct (llm w) as [respond|] eqn:Ellm.
  - case_bool_decide as Hblank.
    + eexists. conj; [reflexivity|done|]. intros respond' _ Hne. done.
    + destruct (len text >? target * 4)%Z eqn:Hlong; project_session;
        [rewrite Hsent|rewrite <- Hsent in Hlen |- *];
        rewrite length_app; cbn [length];
        destruct (respond _ _) eqn:Er; project_session;
        (eexists; conj; [reflexivity|intros [?|?]; done|]);
        intros respond' E _; simplify_eq; rewrite Er;
        (conj; [exact Hlen|by rewrite <- app_assoc|reflexivity]).
  - eexists. conj; [reflexivity|done|]. intros respond E. done.
Qed.

Lemma compressor_request_bounded_witness :
  let text := u8 "cash 10 debt 20" ++ [10; 10]%N in
  let r := compress_selected_text_llm text (u8 "liquidity") 2
                                      not_json_world initialize_cwp in
  snd r = Returned (u8 "I am sorry, no JSON today")
  /\ trace (fst r)
     = [CallCompress text (u8 "liquidity");
        Invoke (Compression (u8 "cash 10 ") (u8 "liquidity") 2)].
Proof.
  cbn zeta.
  destruct (compressor_request_bounded
              (u8 "cash 10 debt 20" ++ [10; 10]%N) (u8 "liquidity") 2
              not_json_world initialize_cwp) as (out & E & _ & H); [lia|].
  destruct (H _ eq_refl) as (_ & T & O); [vm_compute; discriminate|].
  split; [by rewrite E, O|exact T].
Defined.

(** X11: the document pre-fetch of [run_llm_module_analysis] always
    yields a string, whatever the plan, the reports and the LLM's
    answers, and it only reads the working paper. *)
Theorem prefetch_is_read_only module_name_full all_reports
    document_extractions w s :
  exists s' contents,
    prefetch_document_contents module_name_full all_reports
                               document_extractions w s
    = (s', Returned contents)
    /\ same_workpaper s s'.
Proof.
  unfold prefetch_document_contents.
  destruct document_extractions as [|e des].
  - eexists _, _. split; [reflexivity|apply same_workpaper_refl].
  - unfold bind at 1. unfold log_event at 1. unfold write. unfold bind at 1.
    match goal with
    | |- context [resolve_groups _ _ ?g ?acc w ?s0] =>
      destruct (resolve_groups_frame module_name_full all_reports g w acc s0)
        as (s1 & contents & -> & F)
    end.
    unfold_monad.
    destruct contents; (eexists _, _; split; [reflexivity|]);
      destruct F as (? & ? & ? & ?); by repeat split.
Qed.

End PlanningProperties.

(** ** The summaries of earlier modules *)

Section SummaryObservations.
Import Py Runtime Config Utils.

Lemma keeps_analysis_refl o : keeps_analysis o o.
Proof. by repeat split. Qed.

Lemma outputs_kept_refl s s' :
  analytical_module_outputs s' = analytical_module_outputs s -> outputs_kept s s'.
Proof.
  intros E m. rewrite E. destruct (_ !! m); [apply keeps_analysis_refl|exact I].
Qed.

Lemma outputs_kept_trans s1 s2 s3 :
  outputs_kept s1 s2 -> outputs_kept s2 s3 -> outputs_kept s1 s3.
Proof.
  intros H12 H23 m. specialize (H12 m). specialize (H23 m).
  destruct (analytical_module_outputs s1 !! m) as [o1|],
           (analytical_module_outputs s2 !! m) as [o2|],
           (analytical_module_outputs s3 !! m) as [o3|]; try done.
  destruct H12 as (Ht & Hc & Hs & Ha), H23 as (Ht' & Hc' & Hs' & Ha').
  unfold keeps_analysis. conj; [congruence|congruence|congruence|].
  intros Hsum. rewrite <- (Ha Hsum). apply Ha'.
  unfold has_summary in *. by rewrite (Ha Hsum).
Qed.

(** Storing a summary for a module that has none. *)
Lemma outputs_kept_store dep text s o :
  analytical_module_outputs s !! dep = Some o -> has_summary o = false ->
  outputs_kept s (store_abbreviated_summary dep text s).
Proof.
  intros Ho Hnone m. unfold store_abbreviated_summary. project_session.
  destruct (decide (m = dep)) as [->|Hne].
  - rewrite lookup_alter_eq, Ho. cbn. unfold keeps_analysis. cbn.
    conj; try reflexivity. congruence.
  - rewrite lookup_alter_ne by done.
    destruct (_ !! m); [apply keeps_analysis_refl|exact I].
Qed.

Lemma summarize_dependency_keeps current dep w s :
  let s' := fst (summarize_dependency current dep w s) in
  outputs_kept s s'
  /\ current_overall_financial_conclusion s'
     = current_overall_financial_conclusion s
  /\ contradiction_logbook s' = contradiction_logbook s
  /\ industry_analysis_conclusion_text s' = industry_analysis_conclusion_text s.
Proof.
  cbn zeta. unfold summarize_dependency.
  unfold_monad. cbn zeta. project_session.
  destruct (analytical_module_outputs s !! dep) as [o|] eqn:Ho;
    [|conj; try reflexivity; by apply outputs_kept_refl].
  case_bool_decide as Hst;
    [|conj; try reflexivity; by apply outputs_kept_refl].
  destruct (has_summary o) eqn:Hsum;
    [conj; try reflexivity; by apply outputs_kept_refl|].
  repeat (case_match; simplify_eq; project_session);
    (conj; try reflexivity);
    try (by apply outputs_kept_refl);
    match goal with
    | |- outputs_kept s ?s1 =>
      match s1 with
      | context [store_abbreviated_summary ?d ?t ?s0] =>
        apply (outputs_kept_trans s s0); [by apply outputs_kept_refl|];
        apply (outputs_kept_trans s0 (store_abbreviated_summary d t s0));
          [eapply outputs_kept_store; [exact Ho|exact Hsum]
          |by apply outputs_kept_refl]
      end
    end.
Qed.

Lemma summarize_dependencies_keeps current deps w : forall parts s,
  let s' := fst (summarize_dependencies current deps parts w s) in
  outputs_kept s s'
  /\ current_overall_financial_conclusion s'
     = current_overall_financial_conclusion s
  /\ contradiction_logbook s' = contradiction_logbook s
  /\ industry_analysis_conclusion_text s' = industry_analysis_conclusion_text s.
Proof.
  induction deps as [|d deps IH]; intros parts s; cbn zeta.
  - conj; try reflexivity. by apply outputs_kept_refl.
  - cbn [summarize_dependencies]. unfold bind.
    destruct (summarize_dependency_keeps current d w s) as (Ho & Hc & Hl & Hi).
    destruct (summarize_dependency current d w s) as [s1 [part|e]]; cbn [fst] in *.
    + destruct (IH (parts ++ part) s1) as (Ho' & Hc' & Hl' & Hi').
      conj; [by eapply outputs_kept_trans|congruence|congruence|congruence].
    + by conj.
Qed.

End SummaryObservations.

Section SummaryProperties.
Import Py Runtime Config Utils.

(** X12: [get_prior_analyses_summary] may fill in abbreviated
    summaries and does nothing else to the working paper: every module
    output keeps its text, its confidence and its status, no output is
    added or removed, a summary that is stored and not empty is never
    replaced, and the overall conclusion, the contradiction log and
    the industry conclusion stay as they were; this whatever the LLM
    answers and whether or not the call raises. *)
Theorem prior_summaries_only_fill_cache current_module_name w s :
  let s' := fst (get_prior_analyses_summary current_module_name w s) in
  (forall m,
     match analytical_module_outputs s !! m,
           analytical_module_outputs s' !! m with
     | Some o, Some o' =>
       text_summary o' = text_summary o
       /\ confidence_score o' = confidence_score o
       /\ status o' = status o
       /\ (has_summary o = true ->
           abbreviated_summary o' = abbreviated_summary o)
     | None, None => True
     | _, _ => False
     end)
  /\ current_overall_financial_conclusion s'
     = current_overall_financial_conclusion s
  /\ contradiction_logbook s' = contradiction_logbook s
  /\ industry_analysis_conclusion_text s' = industry_analysis_conclusion_text s.
Proof.
  cbn zeta. unfold get_prior_analyses_summary.
  destruct (table_get current_module_name MODULE_DEPENDENCIES) as [|d deps].
  - unfold ret. cbn [fst]. conj; try reflexivity.
    intros m. destruct (_ !! m); [by repeat split|exact I].
  - unfold bind, ret.
    pose proof (summarize_dependencies_keeps current_module_name (d :: deps)
                  w [] s) as H.
    destruct (summarize_dependencies current_module_name (d :: deps) [] w s)
      as [s1 [parts|e]]; cbn [fst] in *.
    + destruct parts; exact H.
    + exact H.
Qed.

End SummaryProperties.

(** ** From the response to the module output *)

Section ResponseObservations.
Import Py Runtime IntegrationServices CoreAnalysisEngine ResponseHandling.

(** What lines 182-198 write: the output of the module, with a
    summary only for the five-forces module; a module that is not
    [Completed] is neither integrated nor summarised. *)
Lemma record_module_output_spec module_name_full final confidence w s :
  match completion_status final with
  | None =>
    record_module_output module_name_full final confidence w s
    = (s, Raised AttributeError)
  | Some st =>
    exists s' ab,
      record_module_output module_name_full final confidence w s
      = (s', Returned tt)
      /\ analytical_module_outputs s'
         = <[module_name_full := {| text_summary := final;
                                    confidence_score := confidence;
                                    status := st;
                                    abbreviated_summary := ab |}]>
             (analytical_module_outputs s)
      /\ (module_name_full <> PORTER ->
          ab = None
          /\ industry_analysis_conclusion_text s'
             = industry_analysis_conclusion_text s)
      /\ (st <> CoreAnalysisEngine.COMPLETED ->
          ab = None
          /\ trace s' = trace s
          /\ current_overall_financial_conclusion s'
             = current_overall_financial_conclusion s
          /\ contradiction_logbook s' = contradiction_logbook s
          /\ industry_analysis_conclusion_text s'
             = industry_analysis_conclusion_text s)
  end.
Proof.
  unfold record_module_output. unfold_monad. unfold store_output.
  destruct (completion_status final) as [st|] eqn:Est; [|reflexivity].
  project_session.
  destruct final as [| | | |finding| |];
    try (eexists _, None; conj; try reflexivity; done).
  case_bool_decide as Hst; [|by eexists _, None].
  match goal with
  | |- context [update_overall_conclusion_and_log_contradictions ?m ?f ?c w ?s0] =>
    destruct (update_frame m f c w s0) as (Hret & Hout & Hind & _);
    destruct (update_overall_conclusion_and_log_contradictions m f c w s0)
      as [s1 o1]
  end.
  cbn [fst snd] in Hret, Hout, Hind. subst o1. project_session.
  case_bool_decide as Hporter.
  - subst module_name_full. project_session.
    destruct (llm w) as [respond|]; project_session.
    + destruct (respond _ _); project_session.
      * eexists _, (Some _). conj; [reflexivity| |done|done].
        unfold set_abbreviated_summary. project_session.
        rewrite Hout. project_session. by rewrite alter_insert_eq.
      * eexists _, None. conj; [reflexivity|project_session; by rewrite Hout|done|done].
    + eexists _, None. conj; [reflexivity|project_session; by rewrite Hout|done|done].
  - eexists _, None. conj; [reflexivity|project_session; by rewrite Hout| |done].
    intros _. split; [reflexivity|]. by rewrite Hind.
Qed.

End ResponseObservations.

Section ResponseCases.
Import Py Runtime IntegrationServices CoreAnalysisEngine ResponseHandling.

(** What lines 168-180 yield. *)
Lemma interpret_response_spec module_name_full text w s :
  let r := interpret_response module_name_full text w s in
  same_workpaper s (fst r)
  /\ trace (fst r) = trace s
  /\ (parsed_as_json text ->
      snd r = match json_loads w (clean_json text) with
              | None => Returned (PStr text, PStr CONFIDENCE_NOT_JSON)
              | Some (PDict d) =>
                Returned
                  (or_default (lookup_item (u8 "analysis_text") d) (PStr text),
                   or_default (lookup_item (u8 "confidence_score") d)
                              (PStr CONFIDENCE_MISSING))
              | Some _ => Raised AttributeError
              end)
  /\ (~ parsed_as_json text ->
      snd r = Returned (PStr (if bool_decide (text = []) then NO_RESPONSE
                              else text),
                        PStr CONFIDENCE_NO_RESPONSE)).
Proof.
  cbn zeta. unfold interpret_response, parsed_as_json.
  destruct (bool_decide (text = [])) eqn:Eempty;
    destruct (is_substring FORMAT_ERROR text) eqn:Eformat;
    destruct (is_substring NOT_AVAILABLE text) eqn:Eavailable;
    cbn [negb andb]; unfold_monad; unfold dict_get, or_default; cbn zeta;
    try (conj; [by repeat split|reflexivity| |reflexivity];
         intros (Hne & Hf & Ha); try discriminate;
         by apply bool_decide_eq_true in Eempty).
  apply bool_decide_eq_false in Eempty.
  destruct (json_loads w (clean_json text)) as [[| | | | | |d]|];
    project_session;
    (conj; [by repeat split|reflexivity|reflexivity|]);
    intros Hnot; exfalso; by apply Hnot.
Qed.

(** The outcomes of lines 168-204: the output of the module is
    written by line 182, or it is the error record of line 199. *)
Lemma conclude_module_analysis_spec module_name_full text w s :
  let r := conclude_module_analysis module_name_full text w s in
  snd r = Returned tt
  /\ match snd (interpret_response module_name_full text w s) with
     | Returned (final, confidence) =>
       match completion_status final with
       | Some st =>
         exists ab,
           analytical_module_outputs (fst r)
           = <[module_name_full := {| text_summary := final;
                                      confidence_score := confidence;
                                      status := st;
                                      abbreviated_summary := ab |}]>
               (analytical_module_outputs s)
           /\ (module_name_full <> PORTER ->
               ab = None
               /\ industry_analysis_conclusion_text (fst r)
                  = industry_analysis_conclusion_text s)
           /\ (st <> CoreAnalysisEngine.COMPLETED ->
               ab = None
               /\ trace (fst r) = trace s
               /\ current_overall_financial_conclusion (fst r)
                  = current_overall_financial_conclusion s
               /\ contradiction_logbook (fst r) = contradiction_logbook s
               /\ industry_analysis_conclusion_text (fst r)
                  = industry_analysis_conclusion_text s)
       | None => error_recorded module_name_full AttributeError s (fst r)
       end
     | Raised e => error_recorded module_name_full e s (fst r)
     end.
Proof.
  cbn zeta. unfold conclude_module_analysis.
  unfold bind, try_except, log_event, write, store_output.
  destruct (interpret_response_spec module_name_full text w s)
    as ((Hc & Hl & Ho & Hi) & Ht & _).
  destruct (interpret_response module_name_full text w s)
    as [s1 [[final confidence]|e]]; cbn [fst snd] in *.
  - pose proof (record_module_output_spec module_name_full final confidence
                  w s1) as H.
    destruct (completion_status final) as [st|].
    + destruct H as (s2 & ab & -> & Hout & Hporter & Hst). project_session.
      split; [reflexivity|]. exists ab. conj.
      * by rewrite Hout, Ho.
      * intros Hne. destruct (Hporter Hne) as [-> ->]. by rewrite Hi.
      * intros Hne. destruct (Hst Hne) as (-> & -> & -> & -> & ->).
        by rewrite Ht, Hc, Hl, Hi.
    + rewrite H. project_session. split; [reflexivity|].
      unfold error_recorded, error_record. project_session.
      by rewrite Ho, Ht, Hc, Hl, Hi.
  - project_session. split; [reflexivity|].
    unfold error_recorded, error_record. project_session.
    by rewrite Ho, Ht, Hc, Hl, Hi.
Qed.


End ResponseCases.

Section ResponseProperties.
Import Py Runtime IntegrationServices CoreAnalysisEngine ResponseHandling.

(** X13: whatever the response text and whatever the LLM and the JSON
    parser do, lines 168-204 of [run_llm_module_analysis] end without
    raising and leave an output for the module, whose status is
    [Completed], [Error/Incomplete] or [Error]; the outputs of the
    other modules are untouched; and unless the module is the
    five-forces module its output has no abbreviated summary and the
    industry conclusion is left as it was. *)
Theorem module_result_always_recorded module_name_full llm_response_text w s :
  let r := conclude_module_analysis module_name_full llm_response_text w s in
  snd r = Returned tt
  /\ (exists o,
        analytical_module_outputs (fst r) !! module_name_full = Some o
        /\ status o ∈ [CoreAnalysisEngine.COMPLETED; INCOMPLETE; u8 "Error"]
        /\ (module_name_full <> PORTER -> abbreviated_summary o = None))
  /\ (forall m,
        m <> module_name_full ->
        analytical_module_outputs (fst r) !! m = analytical_module_outputs s !! m)
  /\ (module_name_full <> PORTER ->
      industry_analysis_conclusion_text (fst r)
      = industry_analysis_conclusion_text s).
Proof.
  cbn zeta.
  destruct (conclude_module_analysis_spec module_name_full llm_response_text w s)
    as [Hret H].
  split; [exact Hret|].
  assert (forall e,
    error_recorded module_name_full e s
      (fst (conclude_module_analysis module_name_full llm_response_text w s)) ->
    (exists o,
        analytical_module_outputs
          (fst (conclude_module_analysis module_name_full llm_response_text w s))
        !! module_name_full = Some o
        /\ status o ∈ [CoreAnalysisEngine.COMPLETED; INCOMPLETE; u8 "Error"]
        /\ (module_name_full <> PORTER -> abbreviated_summary o = None))
    /\ (forall m,
          m <> module_name_full ->
          analytical_module_outputs
            (fst (conclude_module_analysis module_name_full llm_response_text w s))
          !! m = analytical_module_outputs s !! m)
    /\ (module_name_full <> PORTER ->
        industry_analysis_conclusion_text
          (fst (conclude_module_analysis module_name_full llm_response_text w s))
        = industry_analysis_conclusion_text s)) as Herror.
  { intros e (Hout & _ & _ & _ & Hind). rewrite Hout. conj.
    - eexists. rewrite lookup_insert_eq. split; [reflexivity|].
      split; [|done]. cbn [status error_record]. rewrite !elem_of_cons. auto.
    - intros m Hm. by rewrite lookup_insert_ne.
    - done. }
  destruct (snd (interpret_response module_name_full llm_response_text w s))
    as [[final confidence]|e]; [|by apply (Herror e)].
  destruct (completion_status final) as [st|] eqn:Est;
    [|by apply (Herror AttributeError)].
  destruct H as (ab & Hout & Hporter & _). rewrite Hout. conj.
  - eexists. rewrite lookup_insert_eq. split; [reflexivity|]. cbn [status].
    split; [|intros Hne; by destruct (Hporter Hne)].
    unfold completion_status in Est.
    rewrite !elem_of_cons.
    destruct (truthy final); [|simplify_eq; auto].
    destruct final; simplify_eq. case_match; auto.
  - intros m Hm. by rewrite lookup_insert_ne.
  - intros Hne. by destruct (Hporter Hne).
Qed.

(** X14: a response that parses to JSON the engine cannot use (a
    value that is not an object, or an object whose [analysis_text] is
    neither a string nor falsy) ends in the handler of line 199: the
    module gets the [Error] record, nothing is integrated, no request
    is sent, and the rest of the working paper is as it was. *)
Theorem unusable_json_gives_error_record module_name_full llm_response_text
    w s v :
  parsed_as_json llm_response_text ->
  json_loads w (clean_json llm_response_text) = Some v ->
  unusable_analysis v ->
  let s' := fst (conclude_module_analysis module_name_full llm_response_text
                                          w s) in
  (exists o,
     analytical_module_outputs s' !! module_name_full = Some o
     /\ status o = u8 "Error"
     /\ confidence_score o = PStr (u8 "N/A (执行错误)")
     /\ abbreviated_summary o = None)
  /\ trace s' = trace s
  /\ current_overall_financial_conclusion s'
     = current_overall_financial_conclusion s
  /\ contradiction_logbook s' = contradiction_logbook s
  /\ industry_analysis_conclusion_text s' = industry_analysis_conclusion_text s.
Proof.
  intros Hparsed Hv Hbad. cbn zeta.
  destruct (conclude_module_analysis_spec module_name_full llm_response_text w s)
    as [_ H].
  destruct (interpret_response_spec module_name_full llm_response_text w s)
    as (_ & _ & Hi & _).
  cbn zeta in Hi. rewrite (Hi Hparsed), Hv in H.
  assert (exists e,
    error_recorded module_name_full e s
      (fst (conclude_module_analysis module_name_full llm_response_text w s)))
    as (e & Hout & Ht & Hc & Hl & Hind).
  { destruct v as [| | | | | |d]; try (by eexists).
    destruct Hbad as (a & Ha & Htruthy & Hstr). unfold or_default in H.
    rewrite Ha in H. unfold completion_status in H. rewrite Htruthy in H.
    destruct a; try discriminate; by eexists. }
  conj; [|exact Ht|exact Hc|exact Hl|exact Hind].
  rewrite Hout. eexists. rewrite lookup_insert_eq. by split.
Qed.

Lemma unusable_json_gives_error_record_witness :
  let s' := fst (conclude_module_analysis
                   (u8 "2.1") (u8 "{...}")
                   (object_world [(u8 "analysis_text",
                                   PList [PStr (u8 "ratios are sound")])])
                   initialize_cwp) in
  (exists o,
     analytical_module_outputs s' !! u8 "2.1" = Some o
     /\ status o = u8 "Error"
     /\ confidence_score o = PStr (u8 "N/A (执行错误)")
     /\ abbreviated_summary o = None)
  /\ trace s' = trace initialize_cwp
  /\ current_overall_financial_conclusion s'
     = current_overall_financial_conclusion initialize_cwp
  /\ contradiction_logbook s' = contradiction_logbook initialize_cwp
  /\ industry_analysis_conclusion_text s'
     = industry_analysis_conclusion_text initialize_cwp.
Proof.
  apply (unusable_json_gives_error_record
           (u8 "2.1") (u8 "{...}")
           (object_world [(u8 "analysis_text",
                           PList [PStr (u8 "ratios are sound")])])
           initialize_cwp
           (PDict [(u8 "analysis_text", PList [PStr (u8 "ratios are sound")])])).
  - by vm_compute.
  - reflexivity.
  - eexists. by vm_compute.
Defined.





End ResponseProperties.

